(** * Telemetry agent: collection and dispatch pipeline

    A shallow embedding of
      - ceilometer/agent/manager.py          (credential broker),
      - ceilometer/compute/discovery.py      (incremental instance discovery),
      - ceilometer/compute/pollsters/*.py    (per-resource isolated sampling),
      - ceilometer/dispatcher/gnocchi.py     (grouping, repair, reconciliation),
    and the properties of these functions.

    Python exceptions are explicit results, object attributes are record
    fields threaded through each call, dictionaries are finite maps, and the
    remote collaborators (identity service, inventory, hypervisor inspector,
    metrics backend, cache) are oracles whose answers are arguments of the
    model. *)

From Stdlib Require Import ZArith List Bool Lia Sorted Permutation.
From stdpp Require Import base option list gmap strings fin_maps.


(** ** Outcomes of Python calls *)

(** A call either returns a value or raises. *)
Inductive Result (E A : Type) : Type :=
| Ok (a : A)
| Raise (e : E).
Arguments Ok {E A} a.
Arguments Raise {E A} e.

Definition is_ok {E A} (r : Result E A) : bool :=
  match r with Ok _ => true | Raise _ => false end.

(* ===================================================================== *)
(** ** ceilometer/agent/manager.py *)
(* ===================================================================== *)

Module Manager.
Section Broker.

(** The authenticated client and [ks_exceptions.ClientException]. *)
Variables (Client ClientException : Type).

(** Modelled from the spec: [keystone_client.get_client] is imported, not
    defined here; the interface gives [newClient() -> Client | AuthError].
    The identity service is an oracle indexed by the number of attempts
    made so far, so two attempts may be answered differently. *)
Variable get_client : nat -> Result ClientException Client.

(** The two attributes of [AgentManager] the broker uses, and a ghost
    counter of the calls made to [keystone_client.get_client]. *)
Record AgentManager := mkAgentManager {
  _keystone : option Client;
  _keystone_last_exception : option ClientException;
  attempts : nat
}.

(** [AgentManager.__init__]. *)
Definition init : AgentManager :=
  {| _keystone := None; _keystone_last_exception := None; attempts := 0 |}.

(** What [raise self._keystone_last_exception] does: raising [None] is a
    [TypeError]. *)
Inductive Raised :=
| Cached (e : ClientException)
| TypeError.

(** The [keystone] property. *)
Definition keystone (m : AgentManager) : Result Raised Client * AgentManager :=
  let m1 :=
    match _keystone m, _keystone_last_exception m with
    | None, None =>
        match get_client (attempts m) with
        | Ok c =>
            {| _keystone := Some c; _keystone_last_exception := None;
               attempts := S (attempts m) |}
        | Raise e =>
            {| _keystone := None; _keystone_last_exception := Some e;
               attempts := S (attempts m) |}
        end
    | _, _ => m
    end in
  match _keystone m1 with
  | Some c => (Ok c, m1)
  | None =>
      match _keystone_last_exception m1 with
      | Some e => (Raise (Cached e), m1)
      | None => (Raise TypeError, m1)
      end
  end.

(** The first two statements of [interval_task]. *)
Definition reset_for_cycle (m : AgentManager) : AgentManager :=
  {| _keystone := None; _keystone_last_exception := None;
     attempts := attempts m |}.

(** [interval_task]: the reset, then the base class's task, which is the
    polling cycle. *)
Definition interval_task (super_interval_task : AgentManager -> AgentManager)
    (m : AgentManager) : AgentManager :=
  super_interval_task (reset_for_cycle m).

(** The answer of the identity service seen as the result of [get()]. *)
Definition as_get_result (r : Result ClientException Client)
  : Result Raised Client :=
  match r with Ok c => Ok c | Raise e => Raise (Cached e) end.

(** [n] further reads of the property within the same cycle. *)
Fixpoint later_gets (n : nat) (m : AgentManager)
  : list (Result Raised Client) * AgentManager :=
  match n with
  | O => ([], m)
  | S k =>
      let '(r, m1) := keystone m in
      let '(rs, m2) := later_gets k m1 in
      (r :: rs, m2)
  end.

End Broker.
End Manager.

Arguments Manager.mkAgentManager {Client ClientException} _ _ _.
Arguments Manager._keystone {Client ClientException} _.
Arguments Manager._keystone_last_exception {Client ClientException} _.
Arguments Manager.attempts {Client ClientException} _.
Arguments Manager.init {Client ClientException}.
Arguments Manager.Cached {ClientException} e.
Arguments Manager.TypeError {ClientException}.
Arguments Manager.keystone {Client ClientException} get_client m.
Arguments Manager.reset_for_cycle {Client ClientException} m.
Arguments Manager.interval_task {Client ClientException} _ m.
Arguments Manager.as_get_result {Client ClientException} r.
Arguments Manager.later_gets {Client ClientException} get_client n m.

(* ===================================================================== *)
(** ** ceilometer/compute/discovery.py *)
(* ===================================================================== *)

Module Discovery.

(** A compute instance as the inventory returns it: its [id], the
    attribute read by [getattr(instance, 'OS-EXT-STS:vm_state', None)], and
    the rest of the record. *)
Record Instance := mkInstance {
  id : string;
  vm_state : option string;
  details : string
}.

(** [getattr(instance, 'OS-EXT-STS:vm_state', None) in ['deleted', 'error']]. *)
Definition is_terminal (i : Instance) : bool :=
  match vm_state i with
  | Some s => String.eqb s "deleted" || String.eqb s "error"
  | None => false
  end.

(** The collaborators of a discovery object. [utcnow n] is what the [n]-th
    read of the clock returns, in microseconds since the epoch (the
    resolution of [datetime]). [instance_get_all_by_host n since] is the
    answer to the [n]-th enumeration of [cfg.CONF.host]; [since] is the
    second argument, [None] for a full enumeration. *)
Record Nova (NovaError : Type) := mkNova {
  utcnow : nat -> Z;
  instance_get_all_by_host : nat -> option Z -> Result NovaError (list Instance)
}.
Arguments utcnow {NovaError} _ _.
Arguments instance_get_all_by_host {NovaError} _ _ _.

(** The attributes of [InstanceDiscovery], with two ghost fields: the
    number of clock reads and the log of enumeration calls (the [since]
    argument of each, oldest first). *)
Record InstanceDiscovery := mkInstanceDiscovery {
  last_run : option Z;
  instances : gmap string Instance;
  period : Z;
  clock_reads : nat;
  nova_calls : list (option Z)
}.

(** [InstanceDiscovery.__init__]. *)
Definition init (instance_query_period : Z) : InstanceDiscovery :=
  {| last_run := None; instances := ∅; period := instance_query_period;
     clock_reads := 0; nova_calls := [] |}.

(** The [seconds] attribute of the [timedelta] of [us] microseconds: a
    [timedelta] is normalised to days, [0 <= seconds < 86400] and
    [0 <= microseconds < 1000000], and [seconds] is that middle field. *)
Definition timedelta_seconds (us : Z) : Z :=
  ((us mod 86400000000) / 1000000)%Z.

(** One iteration of either [for instance in instances] loop. *)
Definition track (m : gmap string Instance) (i : Instance) : gmap string Instance :=
  if is_terminal i then delete (id i) m else <[id i := i]> m.

(** The whole loop. *)
Definition refresh (l : list Instance) (m : gmap string Instance)
  : gmap string Instance :=
  fold_left track l m.

(** [self.instances.values()]. *)
Definition values (m : gmap string Instance) : list Instance :=
  (map_to_list m).*2.

Section Discover.
Context {NovaError : Type} (nova : Nova NovaError).

(** [InstanceDiscovery.discover]. *)
Definition discover (d : InstanceDiscovery)
  : Result NovaError (list Instance) * InstanceDiscovery :=
  match last_run d with
  | None =>
      let calls := nova_calls d ++ [None] in
      match instance_get_all_by_host nova (length (nova_calls d)) None with
      | Raise e =>
          (Raise e,
           {| last_run := last_run d; instances := instances d;
              period := period d; clock_reads := clock_reads d;
              nova_calls := calls |})
      | Ok l =>
          let m := refresh l (instances d) in
          (Ok (values m),
           {| last_run := Some (utcnow nova (clock_reads d)); instances := m;
              period := period d; clock_reads := S (clock_reads d);
              nova_calls := calls |})
      end
  | Some t =>
      if (timedelta_seconds (utcnow nova (clock_reads d) - t) >? period d)%Z
      then
        let calls := nova_calls d ++ [Some t] in
        match instance_get_all_by_host nova (length (nova_calls d)) (Some t) with
        | Raise e =>
            (Raise e,
             {| last_run := last_run d; instances := instances d;
                period := period d; clock_reads := S (clock_reads d);
                nova_calls := calls |})
        | Ok l =>
            let m := refresh l (instances d) in
            (Ok (values m),
             {| last_run := Some (utcnow nova (S (clock_reads d)));
                instances := m; period := period d;
                clock_reads := S (S (clock_reads d)); nova_calls := calls |})
        end
      else
        (Ok (values (instances d)),
         {| last_run := last_run d; instances := instances d;
            period := period d; clock_reads := S (clock_reads d);
            nova_calls := nova_calls d |})
  end.

End Discover.

(** The last instance of an enumeration that carries the id [k]. *)
Fixpoint last_seen (l : list Instance) (k : string) : option Instance :=
  match l with
  | [] => None
  | i :: l' =>
      match last_seen l' k with
      | Some j => Some j
      | None => if String.eqb (id i) k then Some i else None
      end
  end.

(** No tracked instance is terminal, and each is stored under its id. *)
Definition tracked_ok (m : gmap string Instance) : Prop :=
  map_Forall (fun k i => is_terminal i = false ∧ id i = k) m.

End Discovery.

(* ===================================================================== *)
(** ** ceilometer/compute/pollsters/memory.py and instance.py *)
(* ===================================================================== *)

Module Pollsters.
Import Discovery.

(** What an inspection can raise. [CeilometerNotImplementedError] is
    [ceilometer.NotImplementedError], a subclass of the builtin
    [NotImplementedError]; the four inspector exceptions are unrelated
    subclasses of [InspectorException]; [OtherException] is any other
    subclass of [Exception]. *)
Inductive Exn :=
| InstanceNotFoundException (err : string)
| InstanceShutOffException (err : string)
| NoDataException (err : string)
| InstanceNoQGAException (err : string)
| CeilometerNotImplementedError
| NotImplementedError
| OtherException (err : string).

Inductive Level := DEBUG | WARN | EXCEPTION.

Inductive SampleType := TYPE_GAUGE | TYPE_CUMULATIVE | TYPE_DELTA.

Section WithFloat.

(** Python's [float], and [float(s)] on a string, which raises on a string
    that is not a number. *)
Variable float : Type.
Variable py_float : string -> option float.

Inductive Volume :=
| VInt (n : Z)
| VFloat (x : float).

(** The arguments of one [util.make_sample_from_instance] call. *)
Record Sample := mkSample {
  instance : Instance;
  name : string;
  type : SampleType;
  unit : string;
  volume : Volume
}.

(** What a run of a generator does, in order: the samples it yields and the
    records it logs (level, message template, the argument that names the
    instance, the error or the inspector). *)
Inductive Event :=
| Yield (s : Sample)
| Log (lvl : Level) (msg : string) (arg : string).

Definition samples (es : list Event) : list Sample :=
  omap (fun e => match e with Yield s => Some s | Log _ _ _ => None end) es.

(** *** [MemoryUsagePollster] *)

(** The result of [inspect_memory_usage]. *)
Record MemoryUsageStats := mkMemoryUsageStats { usage : float }.

(** The body of the loop of [MemoryUsagePollster.get_samples] for one
    instance; [inspector_class] is [self.inspector.__class__.__name__]. *)
Definition memory_usage_body
    (inspect_memory_usage : Instance -> Z -> Result Exn MemoryUsageStats)
    (inspector_class : string) (_inspection_duration : Z) (i : Instance)
  : list Event :=
  Log DEBUG "Checking memory usage for instance %s" (id i) ::
  match inspect_memory_usage i _inspection_duration with
  | Ok memory_info =>
      [ Log DEBUG "MEMORY USAGE: %(instance)s %(usage)f" (id i);
        Yield {| instance := i; name := "memory.usage"; type := TYPE_GAUGE;
                 unit := "MB"; volume := VFloat (usage memory_info) |} ]
  | Raise (InstanceNotFoundException err) =>
      [ Log DEBUG "Exception while getting samples %s" err ]
  | Raise (InstanceShutOffException e) =>
      [ Log WARN "Instance %(instance_id)s was shut off while getting samples of %(pollster)s: %(exc)s" (id i) ]
  | Raise (NoDataException e) =>
      [ Log WARN "Cannot inspect data of %(pollster)s for %(instance_id)s, non-fatal reason: %(exc)s" (id i) ]
  | Raise CeilometerNotImplementedError =>
      [ Log DEBUG "Obtaining Memory Usage is not implemented for %s" inspector_class ]
  | Raise _ =>
      [ Log EXCEPTION "Could not get Memory Usage for %(id)s: %(e)s" (id i) ]
  end.

(** [MemoryUsagePollster.get_samples]; [_record_poll_time] is what
    [self._record_poll_time()] returned. *)
Definition memory_usage_get_samples
    (inspect_memory_usage : Instance -> Z -> Result Exn MemoryUsageStats)
    (inspector_class : string) (_record_poll_time : Z)
    (resources : list Instance) : list Event :=
  flat_map (memory_usage_body inspect_memory_usage inspector_class
              _record_poll_time) resources.

(** *** [InstanceOOMStatusPollster] *)

(** The handlers shared by the pollsters of instance.py; [what] is the
    quantity named in the messages. *)
Definition instance_handlers (what : string) (i : Instance) (e : Exn)
  : list Event :=
  match e with
  | InstanceNotFoundException err =>
      [ Log DEBUG "Exception while getting samples %s" err ]
  | CeilometerNotImplementedError | NotImplementedError =>
      [ Log DEBUG ("Cannot get " +:+ what +:+ " for instance %s, maybe it is not implemented in qemu-guest-agent") (id i) ]
  | _ =>
      [ Log EXCEPTION ("Could not get " +:+ what +:+ " for %(id)s: %(e)s") (id i) ]
  end.

(** Lines 102-104 and 181-183: the inspection, and
    [if info is None: raise NotImplementedError], inside the [try]. *)
Definition inspected {V : Type} (r : Result Exn (option V)) : Result Exn V :=
  match r with
  | Ok (Some v) => Ok v
  | Ok None => Raise NotImplementedError
  | Raise e => Raise e
  end.

(** The body of the loop of [InstanceOOMStatusPollster.get_samples]. The
    inspector returns [None], [True] ([Some true]) or anything else
    ([Some false]). *)
Definition oom_status_body
    (inspect_oom_status : Instance -> Result Exn (option bool))
    (i : Instance) : list Event :=
  Log DEBUG "Checking oom status for instance %s" (id i) ::
  match inspected (inspect_oom_status i) with
  | Ok oom_info =>
      let oom_status := if (oom_info : bool) then 1%Z else 0%Z in
      [ Log DEBUG "OOM STATUS: %(instance)s %(oom_status)d" (id i);
        Yield {| instance := i; name := "instance.oom.status";
                 type := TYPE_GAUGE; unit := "instance";
                 volume := VInt oom_status |} ]
  | Raise e => instance_handlers "OOM Status" i e
  end.

Definition oom_status_get_samples
    (inspect_oom_status : Instance -> Result Exn (option bool))
    (resources : list Instance) : list Event :=
  flat_map (oom_status_body inspect_oom_status) resources.

(** *** [InstancePingDelayPollster] *)

(** A value [inspect_ping_delay] returns other than [None]: a string or a
    number. *)
Inductive Delay :=
| DStr (s : string)
| DNum (x : float).

(** Lines 184-191: the empty string, and whatever [float] rejects, become
    the integer 999. *)
Definition ping_delay_volume (delay : Delay) : Volume :=
  match delay with
  | DStr s =>
      if String.eqb s "" then VInt 999
      else match py_float s with
           | Some x => VFloat x
           | None => VInt 999
           end
  | DNum x => VFloat x
  end.

Definition ping_delay_body
    (inspect_ping_delay : Instance -> Result Exn (option Delay))
    (i : Instance) : list Event :=
  Log DEBUG "Checking ping delay for instance %s" (id i) ::
  match inspected (inspect_ping_delay i) with
  | Ok delay =>
      [ Log DEBUG "PING DELAY: %(instance)s %(delay)f" (id i);
        Yield {| instance := i; name := "instance.ping.delay";
                 type := TYPE_GAUGE; unit := "instance";
                 volume := ping_delay_volume delay |} ]
  | Raise e => instance_handlers "Ping Delay" i e
  end.

Definition ping_delay_get_samples
    (inspect_ping_delay : Instance -> Result Exn (option Delay))
    (resources : list Instance) : list Event :=
  flat_map (ping_delay_body inspect_ping_delay) resources.

End WithFloat.

Arguments VInt {float} n.
Arguments VFloat {float} x.
Arguments mkSample {float} _ _ _ _ _.
Arguments instance {float} _.
Arguments name {float} _.
Arguments type {float} _.
Arguments unit {float} _.
Arguments volume {float} _.
Arguments Yield {float} s.
Arguments Log {float} lvl msg arg.
Arguments samples {float} es.
Arguments mkMemoryUsageStats {float} _.
Arguments usage {float} _.
Arguments memory_usage_body {float} _ _ _ i.
Arguments memory_usage_get_samples {float} _ _ _ resources.
Arguments instance_handlers {float} what i e.
Arguments oom_status_body {float} _ i.
Arguments oom_status_get_samples {float} _ resources.
Arguments DStr {float} s.
Arguments DNum {float} x.
Arguments ping_delay_volume {float} py_float delay.
Arguments ping_delay_body {float} py_float _ i.
Arguments ping_delay_get_samples {float} py_float _ resources.

End Pollsters.

(* ===================================================================== *)
(** ** Stable sorting and grouping, as [list.sort] and [itertools.groupby] *)
(* ===================================================================== *)

Module Batching.
Section Sort.
Context {A K : Type} (key : A -> K) (ltb : K -> K -> bool).

(** [list.sort(key=...)] is a stable sort that compares keys with [<]
    only. Insertion from the right end, each element placed before the
    first element whose key is not smaller, is such a sort; any two stable
    sorts return the same list. *)
Fixpoint insert_by (x : A) (l : list A) : list A :=
  match l with
  | [] => [x]
  | y :: l' =>
      if ltb (key y) (key x) then y :: insert_by x l' else x :: y :: l'
  end.

Fixpoint sort_by (l : list A) : list A :=
  match l with
  | [] => []
  | x :: l' => insert_by x (sort_by l')
  end.

End Sort.

Section Groupby.
Context {A : Type} (key : A -> string).

(** [itertools.groupby(l, key)]: the maximal runs of consecutive elements
    with equal keys, each with the key of its first element. *)
Fixpoint groupby (l : list A) : list (string * list A) :=
  match l with
  | [] => []
  | x :: l' =>
      match groupby l' with
      | (k, g) :: gs =>
          if String.eqb (key x) k then (k, x :: g) :: gs
          else (key x, [x]) :: (k, g) :: gs
      | [] => [(key x, [x])]
      end
  end.

End Groupby.

(** [l] is sorted: no element has a key smaller than that of an element
    before it. *)
Definition sorted_by {A K : Type} (key : A -> K) (ltb : K -> K -> bool)
    (l : list A) : Prop :=
  StronglySorted (fun x y => ltb (key y) (key x) = false) l.

(** The elements of [l] whose key is [k], in the order of [l]. *)
Definition with_key {A K : Type} `{EqDecision K} (key : A -> K) (k : K)
    (l : list A) : list A :=
  List.filter (fun x => bool_decide (key x = k)) l.

End Batching.

(* ===================================================================== *)
(** ** ceilometer/dispatcher/gnocchi.py *)
(* ===================================================================== *)

Module Gnocchi.
Import Batching.

(** *** Data *)

(** A sample as the dispatcher receives it; the volume is carried to the
    backend unchanged. [user_id] and [project_id] may be [None]. *)
Record Sample := mkSample {
  resource_id : string;
  counter_name : string;
  counter_volume : Z;
  timestamp : string;
  user_id : option string;
  project_id : option string
}.

(** One entry of [ResourcesDefinition.metrics()]: [{}] or
    [dict(archive_policy_name=...)]. *)
Inductive Policy :=
| NoPolicy
| ArchivePolicyName (archive_policy : string).

(** The values a resource dictionary holds. *)
Inductive PyVal :=
| PNone
| PStr (s : string)
| PMetrics (m : gmap string Policy).

Record Measure := mkMeasure {
  measure_timestamp : string;
  measure_value : Z
}.

(** A [ResourcesDefinition]: the entries of [cfg] that are read, the
    default policy, and [_attributes], each attribute being the [parse]
    method of its [declarative.Definition]. The entry [archive_policy] may
    be absent ([None]), present with the value [None], as the YAML
    [archive_policy: null] gives ([Some None]), or present with a name. *)
Record ResourcesDefinition := mkResourcesDefinition {
  resource_type : string;
  cfg_metrics : list string;
  cfg_archive_policy : option (option string);
  _default_archive_policy : option string;
  cfg_ignore : bool;
  _attributes : gmap string (Sample -> option string)
}.

Inductive Exn :=
| NoSuchMetric
| ResourceAlreadyExists
| MetricAlreadyExists
| UnexpectedError (msg : string)
| KeyError (key : string)
| AttributeError
| TypeError
| IndexError
| UnboundLocalError
| OtherException (msg : string).

(** The operations of [gnocchi_client.Client], with their arguments. *)
Inductive GnocchiCall :=
| post_measure (resource_type resource_id metric_name : string)
    (measures : list Measure)
| create_resource (resource_type : string) (resource : gmap string PyVal)
| create_metric (resource_type : string) (resource_id : PyVal)
    (metric_name : string) (archive_policy : Policy)
| update_resource (resource_type resource_id : string)
    (resource_extra : gmap string string).

Inductive Lock := _gnocchi_project_id_lock | _gnocchi_resource_lock.

Inductive Level := DEBUG | WARN | ERROR | EXCEPTION.

(** What the dispatcher does to the outside, in order: a backend call and
    the exception it raised if any, a cache read and its answer, a cache
    write, the lookup of the service project, lock operations, log
    records. *)
Inductive Event :=
| Gnocchi (c : GnocchiCall) (raised : option Exn)
| CacheGet (key : string) (value : option Z)
| CacheSet (key : string) (value : Z) (time : Z)
| TenantsFind (name : string) (found : Result Exn string)
| Acquire (l : Lock)
| Release (l : Lock)
| Log (lvl : Level) (msg : string).

(** The library functions and the remote collaborators. Each collaborator
    answers as a function of everything that happened before the call, so
    that other workers may change the backend and the cache between two
    calls. [py_hash d] is [hash(frozenset(d.items()))]; [uuid5_hex key] is
    [uuid.uuid5(CACHE_NAMESPACE, key).hex]. *)
Record Env := mkEnv {
  fnmatch : string -> string -> bool;
  py_hash : gmap string PyVal -> Z;
  uuid5_hex : string -> string;
  gnocchi : list Event -> GnocchiCall -> option Exn;
  cache_get : list Event -> string -> option Z;
  tenants_find : list Event -> string -> Result Exn string
}.

(** What [__init__] fixes: two options, the loaded definitions, and
    whether [self.cache] is set. *)
Record Conf := mkConf {
  filter_service_activity : bool;
  filter_project : string;
  resources_definition : list ResourcesDefinition;
  cache : bool
}.

(** The mutable part of a dispatcher, and the events so far. *)
Record Dispatcher := mkDispatcher {
  _gnocchi_project_id : option string;
  history : list Event
}.

(** *** Statements that may raise and that act on the dispatcher *)

Definition M (A : Type) : Type := Dispatcher -> Result Exn A * Dispatcher.

#[global] Instance M_ret : MRet M := fun A a d => (Ok a, d).

#[global] Instance M_bind : MBind M := fun A B k m d =>
  match m d with
  | (Ok a, d') => k a d'
  | (Raise e, d') => (Raise e, d')
  end.

Definition raise {A} (e : Exn) : M A := fun d => (Raise e, d).

Definition emit (ev : Event) : M unit := fun d =>
  (Ok tt, {| _gnocchi_project_id := _gnocchi_project_id d;
             history := history d ++ [ev] |}).

Definition log (lvl : Level) (msg : string) : M unit := emit (Log lvl msg).

(** [try: m except ...: ...]; [handler e] is the clause that catches [e]. *)
Definition try_except {A} (m : M A) (handler : Exn -> option (M A)) : M A :=
  fun d =>
    match m d with
    | (Raise e, d') =>
        match handler e with
        | Some h => h d'
        | None => (Raise e, d')
        end
    | r => r
    end.

(** [with lock: m]. *)
Definition with_lock {A} (l : Lock) (m : M A) : M A := fun d =>
  let '(_, d1) := emit (Acquire l) d in
  let '(r, d2) := m d1 in
  let '(_, d3) := emit (Release l) d2 in
  (r, d3).

(** [d[k]]. *)
Definition getitem {V} (d : gmap string V) (k : string) : M V :=
  match d !! k with
  | Some v => mret v
  | None => raise (KeyError k)
  end.

(** The truth value of what [_check_resource_cache] returns: [None] and
    the integer 0 are false. *)
Definition truthy (attribute_hash : option Z) : bool :=
  match attribute_hash with
  | Some h => negb (h =? 0)%Z
  | None => false
  end.

Definition of_optional (v : option string) : PyVal :=
  match v with Some s => PStr s | None => PNone end.

(** The sort key of [record_metering_data] and the order of tuples of
    strings. *)
Definition sort_key (s : Sample) : string * string :=
  (resource_id s, counter_name s).

Definition key_ltb (a b : string * string) : bool :=
  match String.compare a.1 b.1 with
  | Lt => true
  | Gt => false
  | Eq => String.ltb a.2 b.2
  end.

(** *** [ResourcesDefinition] *)

Section Definitions.
Context (env : Env).

(** [ResourcesDefinition.match]. *)
Definition rd_match (rd : ResourcesDefinition) (metric_name : string) : bool :=
  existsb (fun t => fnmatch env metric_name t) (cfg_metrics rd).

(** [ResourcesDefinition.attributes]. *)
Definition attributes (rd : ResourcesDefinition) (sample : Sample)
  : gmap string string :=
  omap (fun definition => definition sample) (_attributes rd).

(** [ResourcesDefinition.metrics]; [cfg.get('archive_policy', default)]
    is the value of the entry when the entry is present, be it [None]. *)
Definition metrics (rd : ResourcesDefinition) : gmap string Policy :=
  fold_left
    (fun metrics t =>
       let archive_policy :=
         match cfg_archive_policy rd with
         | Some value => value
         | None => _default_archive_policy rd
         end in
       match archive_policy with
       | None => <[t := NoPolicy]> metrics
       | Some p => <[t := ArchivePolicyName p]> metrics
       end)
    (cfg_metrics rd) ∅.

End Definitions.

(** *** [GnocchiDispatcher] *)

Section Dispatcher.
Context (env : Env) (conf : Conf).

(** A call of [self._gnocchi]. *)
Definition call (c : GnocchiCall) : M unit := fun d =>
  let raised := gnocchi env (history d) c in
  let d' := {| _gnocchi_project_id := _gnocchi_project_id d;
               history := history d ++ [Gnocchi c raised] |} in
  match raised with
  | None => (Ok tt, d')
  | Some e => (Raise e, d')
  end.

(** [self.cache.get(key)]. *)
Definition cache_get_call (key : string) : M (option Z) := fun d =>
  let value := cache_get env (history d) key in
  (Ok value, {| _gnocchi_project_id := _gnocchi_project_id d;
                history := history d ++ [CacheGet key value] |}).

(** [cache_key_mangler]: [encode] exists on strings only. *)
Definition cache_key_mangler (key : PyVal) : M string :=
  match key with
  | PStr s => mret (uuid5_hex env s)
  | _ => raise AttributeError
  end.

(** [log_and_ignore_unexpected_workflow_error]. *)
Definition log_and_ignore_unexpected_workflow_error (func : M unit) : M unit :=
  try_except func
    (fun e => match e with
              | UnexpectedError msg => Some (log ERROR msg)
              | _ => None
              end).

(** The body of [with self._gnocchi_project_id_lock:] in the
    [gnocchi_project_id] property: the second test of the attribute, the
    lookup if it is still [None], and [return self._gnocchi_project_id]. *)
Definition resolve_project_id : M string := fun d1 =>
  match _gnocchi_project_id d1 with
  | Some p => (Ok p, d1)
  | None =>
      let found := tenants_find env (history d1) (filter_project conf) in
      let d2 := {| _gnocchi_project_id := _gnocchi_project_id d1;
                   history := history d1
                              ++ [TenantsFind (filter_project conf) found] |} in
      match found with
      | Raise e =>
          (log EXCEPTION "fail to retrieve user of Gnocchi service" ;;
           raise e) d2
      | Ok project =>
          (log DEBUG "gnocchi project found: %s" ;; mret project)
            {| _gnocchi_project_id := Some project;
               history := history d2 |}
      end
  end.

(** The [gnocchi_project_id] property, read by one thread while no other
    thread touches the dispatcher. *)
Definition gnocchi_project_id : M string := fun d =>
  match _gnocchi_project_id d with
  | Some p => (Ok p, d)
  | None => with_lock _gnocchi_project_id_lock resolve_project_id d
  end.

(** [_is_swift_account_sample]. *)
Definition _is_swift_account_sample (sample : Sample) : bool :=
  existsb
    (fun rd => String.eqb (resource_type rd) "swift_account"
               && rd_match env rd (counter_name sample))
    (resources_definition conf).

(** [_is_gnocchi_activity]; the property is read once for the project and,
    when that comparison fails, once more for the resource. *)
Definition _is_gnocchi_activity (sample : Sample) : M bool :=
  if filter_service_activity conf then
    p ← gnocchi_project_id;
    if bool_decide (project_id sample = Some p) then mret true
    else
      p' ← gnocchi_project_id;
      mret (String.eqb (resource_id sample) p'
            && _is_swift_account_sample sample)
  else mret false.

(** [_get_resource_definition]. *)
Definition _get_resource_definition (metric_name : string)
  : option ResourcesDefinition :=
  List.find (fun rd => rd_match env rd metric_name) (resources_definition conf).

(** [_check_resource_cache]. *)
Definition _check_resource_cache (key : string)
    (resource_data : gmap string PyVal) : M (option Z) :=
  let resource_info := delete "metrics" resource_data in
  let attribute_hash := py_hash env resource_info in
  cached_hash ← cache_get_call key;
  if bool_decide (cached_hash ≠ Some attribute_hash)
  then mret (Some attribute_hash)
  else mret None.

(** [resource['metrics'][metric_name]]. *)
Definition metric_policy (resource : gmap string PyVal) (metric_name : string)
  : M Policy :=
  v ← getitem resource "metrics";
  match v with
  | PMetrics m => getitem m metric_name
  | _ => raise TypeError
  end.

(** Either [try: ... create_metric ... except MetricAlreadyExists: pass]
    block of [_ensure_resource_and_metric]. *)
Definition create_metric_unless_exists (resource_type : string)
    (resource : gmap string PyVal) (metric_name : string) : M unit :=
  try_except
    (archive_policy ← metric_policy resource metric_name;
     rid ← getitem resource "id";
     call (create_metric resource_type rid metric_name archive_policy))
    (fun e => match e with
              | MetricAlreadyExists => Some (mret tt)
              | _ => None
              end).

(** The body of the outer [try] of [_ensure_resource_and_metric]. *)
Definition create_resource_unless_cached (resource_type : string)
    (resource : gmap string PyVal) : M unit :=
  if cache conf then
    rid ← getitem resource "id";
    cache_key ← cache_key_mangler rid;
    attribute_hash ← _check_resource_cache cache_key resource;
    if truthy attribute_hash then
      with_lock _gnocchi_resource_lock
        (attribute_hash ← _check_resource_cache cache_key resource;
         match attribute_hash with
         | Some h =>
             if (h =? 0)%Z
             then log DEBUG "recheck resource cache hit for create %s"
             else call (create_resource resource_type resource) ;;
                  emit (CacheSet cache_key h 3600)
         | None => log DEBUG "recheck resource cache hit for create %s"
         end)
    else log DEBUG "recheck resource cache hit for create %s"
  else call (create_resource resource_type resource).

(** [_ensure_resource_and_metric]. *)
Definition _ensure_resource_and_metric (resource_type : string)
    (resource : gmap string PyVal) (metric_name : string) : M unit :=
  try_except (create_resource_unless_cached resource_type resource)
    (fun e => match e with
              | ResourceAlreadyExists =>
                  Some (create_metric_unless_exists resource_type resource
                          metric_name)
              | _ => None
              end) ;;
  create_metric_unless_exists resource_type resource metric_name.

(** Lines 282-299 of [_process_resource]: the post, the repair and the
    single retry. *)
Definition post_with_repair (resource_type resource_id : string)
    (resource : gmap string PyVal) (metric_name : string)
    (measures : list Measure) : M unit :=
  try_except
    (call (post_measure resource_type resource_id metric_name measures))
    (fun e =>
       match e with
       | NoSuchMetric =>
           Some
             (_ensure_resource_and_metric resource_type resource metric_name ;;
              try_except
                (call (post_measure resource_type resource_id metric_name
                         measures))
                (fun e' =>
                   match e' with
                   | NoSuchMetric =>
                       Some (log ERROR
                               "Fail to post measures for %(resource_id)s/%(metric_name)s")
                   | _ => None
                   end))
       | _ => None
       end).

(** The local variables of [_process_resource] that outlive an iteration:
    [resource_extra], and [resource_type] and [resource] once an iteration
    has bound them. *)
Record Locals := mkLocals {
  resource_extra : gmap string string;
  bound : option (string * gmap string PyVal)
}.

(** The resource dictionary built for a meter group, before
    [resource.update(resource_extra)]. *)
Definition new_resource (resource_id : string) (first : Sample)
    (rd : ResourcesDefinition) : gmap string PyVal :=
  <["id" := PStr resource_id]>
    (<["user_id" := of_optional (user_id first)]>
       (<["project_id" := of_optional (project_id first)]>
          (<["metrics" := PMetrics (metrics rd)]> ∅))).

(** [resource_extra.update(rd.attributes(sample))] over the samples of a
    group. *)
Definition extend_extra (rd : ResourcesDefinition) (samples : list Sample)
    (extra : gmap string string) : gmap string string :=
  fold_left (fun extra sample => attributes rd sample ∪ extra) samples extra.

Definition measures_of (samples : list Sample) : list Measure :=
  map (fun sample => {| measure_timestamp := timestamp sample;
                        measure_value := counter_volume sample |}) samples.

(** One iteration of the loop over [metric_grouped_samples]. *)
Definition process_metric_group (resource_id : string) (loc : Locals)
    (group : string * list Sample) : M Locals :=
  let '(metric_name, samples) := group in
  match _get_resource_definition metric_name with
  | None => log WARN "metric %s is not handled by gnocchi" ;; mret loc
  | Some rd =>
      if cfg_ignore rd then mret loc
      else
        match samples with
        | [] => raise IndexError
        | first :: _ =>
            let extra := extend_extra rd samples (resource_extra loc) in
            let resource :=
              (PStr <$> extra) ∪ new_resource resource_id first rd in
            post_with_repair (resource_type rd) resource_id resource
              metric_name (measures_of samples) ;;
            mret {| resource_extra := extra;
                    bound := Some (resource_type rd, resource) |}
        end
  end.

(** The loop. *)
Fixpoint process_metric_groups (resource_id : string)
    (groups : list (string * list Sample)) (loc : Locals) : M Locals :=
  match groups with
  | [] => mret loc
  | group :: groups' =>
      loc' ← process_metric_group resource_id loc group;
      process_metric_groups resource_id groups' loc'
  end.

(** Lines 301-323: [if resource_extra: ...]. *)
Definition reconcile_attributes (resource_id : string) (loc : Locals) : M unit :=
  if bool_decide (resource_extra loc ≠ ∅) then
    match bound loc with
    | None => raise UnboundLocalError
    | Some (resource_type, resource) =>
        if cache conf then
          rid ← getitem resource "id";
          cache_key ← cache_key_mangler rid;
          attribute_hash ← _check_resource_cache cache_key resource;
          if truthy attribute_hash then
            with_lock _gnocchi_resource_lock
              (attribute_hash ← _check_resource_cache cache_key resource;
               match attribute_hash with
               | Some h =>
                   if (h =? 0)%Z
                   then log DEBUG "recheck resource cache hit for update %s"
                   else call (update_resource resource_type resource_id
                                (resource_extra loc)) ;;
                        emit (CacheSet cache_key h 3600)
               | None => log DEBUG "recheck resource cache hit for update %s"
               end)
          else log DEBUG "resource cache hit for update %s"
        else call (update_resource resource_type resource_id
                     (resource_extra loc))
    end
  else mret tt.

(** [_process_resource], with its decorator. *)
Definition _process_resource (resource_id : string)
    (metric_grouped_samples : list (string * list Sample)) : M unit :=
  log_and_ignore_unexpected_workflow_error
    (loc ← process_metric_groups resource_id metric_grouped_samples
             {| resource_extra := ∅; bound := None |};
     reconcile_attributes resource_id loc).

(** [[s for s in data if not self._is_gnocchi_activity(s)]]. *)
Fixpoint drop_gnocchi_activity (data : list Sample) : M (list Sample) :=
  match data with
  | [] => mret []
  | s :: data' =>
      activity ← _is_gnocchi_activity s;
      kept ← drop_gnocchi_activity data';
      mret (if (activity : bool) then kept else s :: kept)
  end.

(** The grouped samples [record_metering_data] hands to
    [_process_resource], resource by resource. *)
Definition grouped (data : list Sample)
  : list (string * list (string * list Sample)) :=
  map (fun '(resource_id, samples_of_resource) =>
         (resource_id, groupby counter_name samples_of_resource))
    (groupby resource_id (sort_by sort_key key_ltb data)).

Fixpoint process_resources
    (groups : list (string * list (string * list Sample))) : M unit :=
  match groups with
  | [] => mret tt
  | (resource_id, metric_grouped_samples) :: groups' =>
      _process_resource resource_id metric_grouped_samples ;;
      process_resources groups'
  end.

(** [record_metering_data]. *)
Definition record_metering_data (data : list Sample) : M unit :=
  data ← drop_gnocchi_activity data;
  process_resources (grouped data).

End Dispatcher.

(** *** The two cache-guarded calls

    [_ensure_resource_and_metric] and [_process_resource] guard a backend
    call by the same statements, which differ in the call and in the two
    debug messages. *)

Definition cache_guarded (env : Env) (c : GnocchiCall)
    (recheck_hit first_hit : string) (resource : gmap string PyVal) : M unit :=
  rid ← getitem resource "id";
  cache_key ← cache_key_mangler env rid;
  attribute_hash ← _check_resource_cache env cache_key resource;
  if truthy attribute_hash then
    with_lock _gnocchi_resource_lock
      (attribute_hash ← _check_resource_cache env cache_key resource;
       match attribute_hash with
       | Some h =>
           if (h =? 0)%Z then log DEBUG recheck_hit
           else call env c ;; emit (CacheSet cache_key h 3600)
       | None => log DEBUG recheck_hit
       end)
  else log DEBUG first_hit.

(** *** Reading a run *)

(** The dispatcher after the events [evs]. *)
Definition extend (d : Dispatcher) (evs : list Event) : Dispatcher :=
  {| _gnocchi_project_id := _gnocchi_project_id d;
     history := history d ++ evs |}.

(** The events of a run from [d] to [d']. *)
Definition new_events (d d' : Dispatcher) : list Event :=
  drop (length (history d)) (history d').

Definition is_post (e : Event) : bool :=
  match e with Gnocchi (post_measure _ _ _ _) _ => true | _ => false end.

Definition is_unknown_metric (e : Event) : bool :=
  match e with
  | Gnocchi (post_measure _ _ _ _) (Some NoSuchMetric) => true
  | _ => false
  end.

Definition is_create_resource (e : Event) : bool :=
  match e with Gnocchi (create_resource _ _) _ => true | _ => false end.

Definition is_create_metric (e : Event) : bool :=
  match e with Gnocchi (create_metric _ _ _ _) _ => true | _ => false end.

Definition is_update_resource (e : Event) : bool :=
  match e with Gnocchi (update_resource _ _ _) _ => true | _ => false end.

Definition is_cache_set (e : Event) : bool :=
  match e with CacheSet _ _ _ => true | _ => false end.

Definition is_tenants_find (e : Event) : bool :=
  match e with TenantsFind _ _ => true | _ => false end.

Definition is_error_log (e : Event) : bool :=
  match e with Log ERROR _ => true | _ => false end.

Definition count (p : Event -> bool) (evs : list Event) : nat :=
  length (List.filter p evs).

(** The samples the filter is meant to drop, given the project id [p] of
    the backend's own service: those of that project, and those of the
    resource [p] that match a "swift_account" definition. *)
Definition gnocchi_activity (env : Env) (conf : Conf) (p : string)
    (s : Sample) : bool :=
  bool_decide (project_id s = Some p)
  || (String.eqb (resource_id s) p && _is_swift_account_sample env conf s).

(** *** Threads that read [gnocchi_project_id]

    The workers of a collector share one dispatcher. Each access of a
    thread to the attribute [_gnocchi_project_id], to the lock, to the
    identity service or to the log is one step, and the steps of the
    threads interleave in any order. *)

(** Where a thread stands in the property: before the statement of the
    given line. A thread that is not reading the property is [at_check]:
    its next step starts a read. *)
Inductive Pc :=
| at_check
| at_fast_return
| at_acquire
| at_recheck
| at_find
| at_log_exception (e : Exn)
| at_store (project : string)
| at_log_debug
| at_return
| at_release (r : Result Exn (option string)).

(** The dispatcher, the thread that holds [_gnocchi_project_id_lock], the
    threads, and what each read of the property that has ended returned or
    raised, oldest first. The value returned is that of the attribute,
    which may be [None]. *)
Record World := mkWorld {
  shared : Dispatcher;
  lock_holder : option nat;
  threads : nat -> Pc;
  reads : list (nat * Result Exn (option string))
}.

Definition move (t : nat) (pc : Pc) (threads : nat -> Pc) : nat -> Pc :=
  fun t' => if Nat.eqb t' t then pc else threads t'.

Section Threads.
Context (env : Env) (conf : Conf).

(** The next step of thread [t]. A thread that waits for the lock while
    another holds it does not move. *)
Definition step (t : nat) (w : World) : World :=
  let d := shared w in
  let goto pc :=
    {| shared := d; lock_holder := lock_holder w;
       threads := move t pc (threads w); reads := reads w |} in
  let emit_then ev pc :=
    {| shared := {| _gnocchi_project_id := _gnocchi_project_id d;
                    history := history d ++ [ev] |};
       lock_holder := lock_holder w;
       threads := move t pc (threads w); reads := reads w |} in
  match threads w t with
  | at_check =>
      (* line 198: if self._gnocchi_project_id is not None *)
      match _gnocchi_project_id d with
      | Some _ => goto at_fast_return
      | None => goto at_acquire
      end
  | at_fast_return =>
      (* line 199: return self._gnocchi_project_id *)
      {| shared := d; lock_holder := lock_holder w;
         threads := move t at_check (threads w);
         reads := reads w ++ [(t, Ok (_gnocchi_project_id d))] |}
  | at_acquire =>
      (* line 200: with self._gnocchi_project_id_lock *)
      match lock_holder w with
      | None =>
          {| shared := {| _gnocchi_project_id := _gnocchi_project_id d;
                          history := history d
                                     ++ [Acquire _gnocchi_project_id_lock] |};
             lock_holder := Some t;
             threads := move t at_recheck (threads w); reads := reads w |}
      | Some _ => w
      end
  | at_recheck =>
      (* line 201: if self._gnocchi_project_id is None *)
      match _gnocchi_project_id d with
      | None => goto at_find
      | Some _ => goto at_return
      end
  | at_find =>
      (* lines 202-204: project = self._ks_client.tenants.find(...) *)
      let found := tenants_find env (history d) (filter_project conf) in
      emit_then (TenantsFind (filter_project conf) found)
        match found with
        | Ok project => at_store project
        | Raise e => at_log_exception e
        end
  | at_log_exception e =>
      (* lines 205-207: LOG.exception(...); raise *)
      emit_then (Log EXCEPTION "fail to retrieve user of Gnocchi service")
        (at_release (Raise e))
  | at_store project =>
      (* line 208: self._gnocchi_project_id = project.id *)
      {| shared := {| _gnocchi_project_id := Some project;
                      history := history d |};
         lock_holder := lock_holder w;
         threads := move t at_log_debug (threads w); reads := reads w |}
  | at_log_debug =>
      (* line 209: the argument of LOG.debug reads the property, which
         returns at line 198 if the attribute is set and would wait for the
         lock the thread holds if it were not *)
      match _gnocchi_project_id d with
      | Some _ => emit_then (Log DEBUG "gnocchi project found: %s") at_return
      | None => w
      end
  | at_return =>
      (* line 210: return self._gnocchi_project_id *)
      goto (at_release (Ok (_gnocchi_project_id d)))
  | at_release r =>
      (* the end of the with block *)
      {| shared := {| _gnocchi_project_id := _gnocchi_project_id d;
                      history := history d
                                 ++ [Release _gnocchi_project_id_lock] |};
         lock_holder := None;
         threads := move t at_check (threads w);
         reads := reads w ++ [(t, r)] |}
  end.

(** The threads take their steps in the order of [schedule]. *)
Fixpoint exec (schedule : list nat) (w : World) : World :=
  match schedule with
  | [] => w
  | t :: schedule' => exec schedule' (step t w)
  end.

End Threads.

(** No thread is reading the property of the dispatcher [d]. *)
Definition start (d : Dispatcher) : World :=
  {| shared := d; lock_holder := None; threads := fun _ => at_check;
     reads := [] |}.

(** Whether the thread holds the lock at that point. *)
Definition in_section (pc : Pc) : bool :=
  match pc with
  | at_check | at_fast_return | at_acquire => false
  | _ => true
  end.

Definition locked (w : World) : bool :=
  match lock_holder w with Some _ => true | None => false end.

(** The discipline of [_gnocchi_project_id_lock] in a sequence of events,
    [held] telling whether the lock is held at its start: the lock is
    acquired only when free and released only when held, and the identity
    service is asked only while it is held. The result tells whether the
    lock is held at the end. *)
Fixpoint lock_discipline (held : bool) (evs : list Event) : option bool :=
  match evs with
  | [] => Some held
  | Acquire _gnocchi_project_id_lock :: evs' =>
      if held then None else lock_discipline true evs'
  | Release _gnocchi_project_id_lock :: evs' =>
      if held then lock_discipline false evs' else None
  | TenantsFind _ _ :: evs' =>
      if held then lock_discipline true evs' else None
  | _ :: evs' => lock_discipline held evs'
  end.

(** A lookup that found the project. *)
Definition is_found (e : Event) : bool :=
  match e with TenantsFind _ (Ok _) => true | _ => false end.

(** Whether the project has been found: it is stored, or the thread that
    holds the lock is about to store it. *)
Definition project_found (w : World) : bool :=
  match _gnocchi_project_id (shared w), lock_holder w with
  | Some _, _ => true
  | None, Some t =>
      match threads w t with at_store _ => true | _ => false end
  | None, None => false
  end.

(** What holds of the world after any steps from [start d], when the
    project is not known to [d]. *)
Record invariant (conf : Conf) (d : Dispatcher) (w : World) (evs : list Event) : Prop := {
  inv_history : history (shared w) = history d ++ evs;
  inv_discipline : lock_discipline false evs = Some (locked w);
  inv_holder : forall t, in_section (threads w t) = true
                         <-> lock_holder w = Some t;
  inv_found :
    count is_found evs
    = if project_found w then 1 else 0;
  inv_find : forall t, threads w t = at_find ->
                       _gnocchi_project_id (shared w) = None;
  inv_store : forall t p,
    threads w t = at_store p ->
    _gnocchi_project_id (shared w) = None
    /\ In (TenantsFind (filter_project conf) (Ok p)) evs;
  inv_stored : forall t,
    threads w t = at_fast_return \/ threads w t = at_log_debug
    \/ threads w t = at_return ->
    is_Some (_gnocchi_project_id (shared w));
  inv_release : forall t x, threads w t = at_release (Ok x) ->
                            x = _gnocchi_project_id (shared w) /\ is_Some x;
  inv_reads : forall t x, (t, Ok x) ∈ reads w ->
                          x = _gnocchi_project_id (shared w) /\ is_Some x;
  inv_memo : forall p, _gnocchi_project_id (shared w) = Some p ->
                       In (TenantsFind (filter_project conf) (Ok p)) evs
}.

(** *** The specification's wording

    The statements below are the sentences of the specification about the
    dispatcher, read literally; they are compared with the functions
    above. *)

(** C1 as worded: with a cache and non-empty extras, a cached hash equal
    to the fresh one means no [update_resource]; otherwise the lock is
    taken and the cache read again, and then a hash still different means
    one [update_resource] and the new hash stored for 3600 seconds, a hash
    now equal means no [update_resource]. *)
Definition reconciliation_spec (env : Env) (conf : Conf) (rid : string)
    (loc : Locals) (d : Dispatcher) : Prop :=
  forall rt resource s,
    bound loc = Some (rt, resource) ->
    resource !! "id" = Some (PStr s) ->
    let key := uuid5_hex env s in
    let h := py_hash env (delete "metrics" resource) in
    let first := cache_get env (history d) key in
    let second :=
      cache_get env
        (history d ++ [CacheGet key first; Acquire _gnocchi_resource_lock])
        key in
    let new := new_events d (reconcile_attributes env conf rid loc d).2 in
    (first = Some h -> count is_update_resource new = 0)
    /\ (first <> Some h ->
        In (Acquire _gnocchi_resource_lock) new
        /\ (second = Some h -> count is_update_resource new = 0)
        /\ (second <> Some h ->
            count is_update_resource new = 1
            /\ In (CacheSet key h 3600) new)).

(** C2 as worded: a first post answered [NoSuchMetric] is followed by one
    repair and one more post, whatever happens; if that post is answered
    [NoSuchMetric] too, one error is logged and the group is done. *)
Definition repair_and_retry_spec (env : Env) (conf : Conf)
    (rt rid : string) (resource : gmap string PyVal) (metric_name : string)
    (measures : list Measure) (d : Dispatcher) : Prop :=
  gnocchi env (history d) (post_measure rt rid metric_name measures)
  = Some NoSuchMetric ->
  let run := post_with_repair env conf rt rid resource metric_name measures d in
  let new := new_events d run.2 in
  count is_post new = 2
  /\ count is_create_resource new <= 1
  /\ (count is_unknown_metric new = 2 ->
      count is_error_log new = 1 /\ run.1 = Ok tt).

(** C3 as worded: every repair attempts [create_resource] with the
    resource and its metrics; after [ResourceAlreadyExists] it attempts
    [create_metric]; it never raises [MetricAlreadyExists]. *)
Definition ensure_spec (env : Env) (conf : Conf) (rt : string)
    (resource : gmap string PyVal) (metric_name : string) (d : Dispatcher)
  : Prop :=
  let run := _ensure_resource_and_metric env conf rt resource metric_name d in
  let new := new_events d run.2 in
  (exists raised, In (Gnocchi (create_resource rt resource) raised) new)
  /\ (In (Gnocchi (create_resource rt resource) (Some ResourceAlreadyExists))
        new ->
      1 <= count is_create_metric new)
  /\ run.1 <> Raise MetricAlreadyExists.

(** C4 as worded: two batches that are permutations of each other are
    grouped alike and dispatched by the same events. *)
Definition deterministic_dispatch_spec (env : Env) (conf : Conf)
    (data1 data2 : list Sample) (d : Dispatcher) : Prop :=
  Permutation data1 data2 ->
  grouped data1 = grouped data2
  /\ record_metering_data env conf data1 d
     = record_metering_data env conf data2 d.

(** C5 as worded: every batch is filtered by the project id of the
    backend's service, and a failure to resolve that id is raised by
    [record_metering_data]. *)
Definition self_activity_filter_spec (env : Env) (conf : Conf)
    (data : list Sample) (d : Dispatcher) : Prop :=
  match gnocchi_project_id env conf d with
  | (Ok p, _) =>
      (drop_gnocchi_activity env conf data d).1
      = Ok (List.filter (fun s => negb (gnocchi_activity env conf p s)) data)
  | (Raise e, _) => (record_metering_data env conf data d).1 = Raise e
  end.

(** *** Reading the loop of [_process_resource] *)

(** The definition under which the loop handles a meter group: the first
    one that matches the meter, unless it is marked [ignore]; [None] for a
    group the loop passes over. *)
Definition handled_by (env : Env) (conf : Conf)
    (group : string * list Sample) : option ResourcesDefinition :=
  match _get_resource_definition env conf group.1 with
  | Some rd => if cfg_ignore rd then None else Some rd
  | None => None
  end.

(** What [resource_extra] holds after the loop over [groups], starting
    from [extra]: the attributes of the samples of the groups that are
    handled, each parsed by the definition of its group, in order. *)
Definition accumulated_extra (env : Env) (conf : Conf)
    (groups : list (string * list Sample)) (extra : gmap string string)
  : gmap string string :=
  fold_left
    (fun extra group =>
       match handled_by env conf group with
       | Some rd => extend_extra rd group.2 extra
       | None => extra
       end) groups extra.

End Gnocchi.

(* ===================================================================== *)
(** ** Concrete runs *)
(* ===================================================================== *)

Module Examples.
Import Discovery.

(** *** Discovery *)

Definition vm1_active : Instance :=
  {| id := "vm-1"; vm_state := Some "active"; details := "m1.small" |}.

Definition vm1_deleted : Instance :=
  {| id := "vm-1"; vm_state := Some "deleted"; details := "m1.small" |}.

Definition vm2_active : Instance :=
  {| id := "vm-2"; vm_state := Some "active"; details := "m1.large" |}.

(** A discovery object that ran once at time 0 and tracks [vm-1]; the
    period is the default, 120 seconds. *)
Definition discovery_at_0 : InstanceDiscovery :=
  {| last_run := Some 0%Z; instances := {[ "vm-1" := vm1_active ]};
     period := 120; clock_reads := 1; nova_calls := [None] |}.

(** One day and five seconds later, [vm-1] has been deleted. *)
Definition nova_next_day : Nova string :=
  {| utcnow := fun _ => 86405000000%Z;
     instance_get_all_by_host := fun _ _ => Ok [vm1_deleted] |}.

(** 500 seconds later, [vm-1] has been deleted and [vm-2] started. *)
Definition nova_500s_later : Nova string :=
  {| utcnow := fun _ => 500000000%Z;
     instance_get_all_by_host := fun _ _ => Ok [vm1_deleted; vm2_active] |}.

(** *** Pollsters *)

(** An inspector for which [vm-1] is gone and every other instance uses
    512 MB; floats are integers here. *)
Definition memory_usage_vm1_gone (i : Instance) (duration : Z)
  : Result Pollsters.Exn (Pollsters.MemoryUsageStats Z) :=
  if String.eqb (id i) "vm-1"
  then Raise (Pollsters.InstanceNotFoundException "vm-1 not found")
  else Ok (Pollsters.mkMemoryUsageStats 512%Z).

(** An inspector whose guest agent answers for no instance but [vm-2]. *)
Definition oom_status_vm2_only (i : Instance)
  : Result Pollsters.Exn (option bool) :=
  if String.eqb (id i) "vm-2" then Ok (Some true) else Ok None.

(** [float] on a few strings. *)
Definition float_of (s : string) : option Z :=
  if String.eqb s "12" then Some 12%Z
  else if String.eqb s "7" then Some 7%Z
  else None.

Definition ping_delay_of (i : Instance)
  : Result Pollsters.Exn (option (Pollsters.Delay Z)) :=
  if String.eqb (id i) "vm-1" then Ok (Some (Pollsters.DStr "12"))
  else if String.eqb (id i) "vm-2" then Ok (Some (Pollsters.DStr "timeout"))
  else Ok None.

(** *** Dispatcher *)

Import Gnocchi.

(** [fnmatch.fnmatch] on patterns without wildcard characters. *)
Definition fnmatch_literal (name pat : string) : bool := String.eqb name pat.

(** A stand-in for [hash(frozenset(d.items()))]. *)
Definition items_hash (d : gmap string PyVal) : Z :=
  (1000 + Z.of_nat (size d))%Z.

Definition instance_definition : ResourcesDefinition :=
  {| resource_type := "instance";
     cfg_metrics := ["memory.usage"; "disk.read"];
     cfg_archive_policy := None;
     _default_archive_policy := Some "low";
     cfg_ignore := false;
     _attributes := {[ "flavor" := fun _ => Some "m1.small" ]} |}.

Definition swift_definition : ResourcesDefinition :=
  {| resource_type := "swift_account";
     cfg_metrics := ["storage.objects"];
     cfg_archive_policy := None;
     _default_archive_policy := Some "low";
     cfg_ignore := false;
     _attributes := ∅ |}.

(** A backend with the given answers; the service project is found. *)
Definition backend (gnocchi_answer : list Event -> GnocchiCall -> option Exn)
    (cache_answer : list Event -> string -> option Z) : Env :=
  {| fnmatch := fnmatch_literal;
     py_hash := items_hash;
     uuid5_hex := fun key => "uuid5:" +:+ key;
     gnocchi := gnocchi_answer;
     cache_get := cache_answer;
     tenants_find := fun _ _ => Ok "gnocchi-project" |}.

Definition conf_with (filter cached : bool) : Conf :=
  {| filter_service_activity := filter;
     filter_project := "gnocchi";
     resources_definition := [instance_definition; swift_definition];
     cache := cached |}.

(** Every call succeeds and the cache is empty. *)
Definition backend_ok : Env := backend (fun _ _ => None) (fun _ _ => None).

(** [update_resource] fails; the cache is empty. *)
Definition backend_update_fails : Env :=
  backend
    (fun _ c =>
       match c with
       | update_resource _ _ _ => Some (UnexpectedError "500")
       | _ => None
       end)
    (fun _ _ => None).

(** No metric exists, and [create_resource] fails. *)
Definition backend_repair_fails : Env :=
  backend
    (fun _ c =>
       match c with
       | post_measure _ _ _ _ => Some NoSuchMetric
       | create_resource _ _ => Some (UnexpectedError "500")
       | _ => None
       end)
    (fun _ _ => None).

(** The metric is missing until a resource or a metric has been created. *)
Definition backend_metric_missing : Env :=
  backend
    (fun h c =>
       match c with
       | post_measure _ _ _ _ =>
           if existsb (fun e => is_create_resource e || is_create_metric e) h
           then None else Some NoSuchMetric
       | _ => None
       end)
    (fun _ _ => None).

Definition fresh : Dispatcher := {| _gnocchi_project_id := None; history := [] |}.

Definition memory_at_10_00 : Sample :=
  {| resource_id := "vm-1"; counter_name := "memory.usage";
     counter_volume := 512; timestamp := "2015-08-01T10:00:00";
     user_id := Some "alice"; project_id := Some "tenant-a" |}.

Definition memory_at_10_01 : Sample :=
  {| resource_id := "vm-1"; counter_name := "memory.usage";
     counter_volume := 640; timestamp := "2015-08-01T10:01:00";
     user_id := Some "alice"; project_id := Some "tenant-a" |}.

Definition disk_at_10_00 : Sample :=
  {| resource_id := "vm-1"; counter_name := "disk.read";
     counter_volume := 7; timestamp := "2015-08-01T10:00:00";
     user_id := Some "alice"; project_id := Some "tenant-a" |}.

(** A sample produced by the backend's own service. *)
Definition sample_of_gnocchi : Sample :=
  {| resource_id := "vm-9"; counter_name := "memory.usage";
     counter_volume := 1; timestamp := "2015-08-01T10:00:00";
     user_id := Some "gnocchi"; project_id := Some "gnocchi-project" |}.

(** The locals of [_process_resource] after the group of
    [memory_at_10_00]. *)
Definition extra_vm1 : gmap string string := {[ "flavor" := "m1.small" ]}.

Definition resource_vm1 : gmap string PyVal :=
  (PStr <$> extra_vm1) ∪ new_resource "vm-1" memory_at_10_00 instance_definition.

Definition locals_vm1 : Locals :=
  {| resource_extra := extra_vm1; bound := Some ("instance", resource_vm1) |}.

(** The cache holds the hash of [resource_vm1]. *)
Definition backend_cache_current : Env :=
  backend (fun _ _ => None)
    (fun _ _ => Some (items_hash (delete "metrics" resource_vm1))).

End Examples.

(* ===================================================================== *)
(** ** More pollsters of memory.py and instance.py *)
(* ===================================================================== *)

Module MorePollsters.
Import Discovery Pollsters.

Section WithValues.

(** [float] as before; the values of the dictionary [inspect_memory_info]
    returns, and [int(v)] on such a value, which raises on a value that is
    not an integer. *)
Variable float : Type.
Variable InfoValue : Type.
Variable py_int : InfoValue -> option Z.

(** What [inspect_system_info] and [inspect_app_stats] return other than
    [None], and [str(v)] on such a value, with the exception it raises if
    the value cannot be printed. *)
Variable Described : Type.
Variable py_str : Described -> Result Exn string.

(** [int(mem_info[key])]: a missing key is a [KeyError], a value [int]
    rejects a [ValueError]; both are plain subclasses of [Exception]. *)
Definition int_item (mem_info : gmap string InfoValue) (key : string)
  : Result Exn Z :=
  match mem_info !! key with
  | None => Raise (OtherException "KeyError")
  | Some v =>
      match py_int v with
      | Some n => Ok n
      | None => Raise (OtherException "ValueError")
      end
  end.

(** What differs between the six pollsters of memory.py that read
    [inspect_memory_info]: the four messages, the meter name, and the
    quantity computed from the dictionary. *)
Record InfoPollster := mkInfoPollster {
  checking : string;
  computed : string;
  cannot_get : string;
  could_not_get : string;
  meter : string;
  compute : gmap string InfoValue -> Result Exn Z
}.

Definition MemoryTotalPollster : InfoPollster :=
  {| checking := "Checking memory total for instance %s";
     computed := "MEMORY TOTAL: %(instance)s %(total)d";
     cannot_get := "Cannot get Memory Total for instance %s, maybe it is not implemented in qemu-guest-agent";
     could_not_get := "Could not get Memory Total for %(id)s: %(e)s";
     meter := "memory.total";
     compute := fun mem_info => int_item mem_info "total" |}.

Definition MemoryUnusedPollster : InfoPollster :=
  {| checking := "Checking memory unused for instance %s";
     computed := "MEMORY UNUSED: %(instance)s %(unused)d";
     cannot_get := "Cannot get Memory Unused for instance %s, maybe it is not implemented in qemu-guest-agent";
     could_not_get := "Could not get Memory Unsed for %(id)s: %(e)s";
     meter := "memory.unused";
     compute := fun mem_info =>
       match int_item mem_info "total" with
       | Raise e => Raise e
       | Ok total =>
           match int_item mem_info "used" with
           | Raise e => Raise e
           | Ok used => Ok (total - used)%Z
           end
       end |}.

Definition MemorySwapTotalPollster : InfoPollster :=
  {| checking := "Checking memory swap total for instance %s";
     computed := "MEMORY SWAP TOTAL: %(instance)s %(swap_total)d";
     cannot_get := "Cannot get Memory Swap Total for instance %s, maybe it is not implemented in qemu-guest-agent";
     could_not_get := "Could not get Memory Swap Total for %(id)s: %(e)s";
     meter := "memory.swap.total";
     compute := fun mem_info => int_item mem_info "swap_total" |}.

Definition MemorySwapFreePollster : InfoPollster :=
  {| checking := "Checking memory swap free for instance %s";
     computed := "MEMORY SWAP FREE: %(instance)s %(swap_free)d";
     cannot_get := "Cannot get Memory Swap Free for instance %s, maybe it is not implemented in qemu-guest-agent";
     could_not_get := "Could not get Memory Swap Free for %(id)s: %(e)s";
     meter := "memory.swap.free";
     compute := fun mem_info =>
       match int_item mem_info "swap_total" with
       | Raise e => Raise e
       | Ok swap_total =>
           match int_item mem_info "swap_used" with
           | Raise e => Raise e
           | Ok swap_used => Ok (swap_total - swap_used)%Z
           end
       end |}.

Definition MemoryBufferPollster : InfoPollster :=
  {| checking := "Checking memory buffer for instance %s";
     computed := "MEMORY BUFFER: %(instance)s %(memory_buffer)d";
     cannot_get := "Cannot get Memory Buffer for instance %s, maybe it is not implemented in qemu-guest-agent";
     could_not_get := "Could not get Memory Buffer for %(id)s: %(e)s";
     meter := "memory.buffer";
     compute := fun mem_info => int_item mem_info "buffer" |}.

Definition MemoryCachedPollster : InfoPollster :=
  {| checking := "Checking memory cached for instance %s";
     computed := "MEMORY CACHED: %(instance)s %(memory_cached)d";
     cannot_get := "Cannot get Memory Cached for instance %s, maybe it is not implemented in qemu-guest-agent";
     could_not_get := "Could not get Memory Cached for %(id)s: %(e)s";
     meter := "memory.cached";
     compute := fun mem_info => int_item mem_info "cached" |}.

(** The [except] clauses of these pollsters, in their order. *)
Definition memory_info_handlers (p : InfoPollster) (i : Instance) (e : Exn)
  : list (Event float) :=
  match e with
  | InstanceNoQGAException _ =>
      [ Log DEBUG "QEMU-GUEST-AGENT is not installed or started in %s" (id i) ]
  | InstanceNotFoundException err =>
      [ Log DEBUG "Exception while getting samples %s" err ]
  | CeilometerNotImplementedError | NotImplementedError =>
      [ Log DEBUG (cannot_get p) (id i) ]
  | _ => [ Log EXCEPTION (could_not_get p) (id i) ]
  end.

(** The [try] block up to the [yield]: the inspection, the [None] test and
    the computation. *)
Definition memory_info_value (p : InfoPollster)
    (inspect_memory_info : Instance -> Result Exn (option (gmap string InfoValue)))
    (i : Instance) : Result Exn Z :=
  match inspected (inspect_memory_info i) with
  | Raise e => Raise e
  | Ok mem_info => compute p mem_info
  end.

(** The body of the loop of [get_samples] of each of these pollsters. *)
Definition memory_info_body (p : InfoPollster)
    (inspect_memory_info : Instance -> Result Exn (option (gmap string InfoValue)))
    (i : Instance) : list (Event float) :=
  Log DEBUG (checking p) (id i) ::
  match memory_info_value p inspect_memory_info i with
  | Ok v =>
      [ Log DEBUG (computed p) (id i);
        Yield {| instance := i; name := meter p; type := TYPE_GAUGE;
                 unit := "MB"; volume := VInt v |} ]
  | Raise e => memory_info_handlers p i e
  end.

Definition memory_info_get_samples (p : InfoPollster)
    (inspect_memory_info : Instance -> Result Exn (option (gmap string InfoValue)))
    (resources : list Instance) : list (Event float) :=
  flat_map (memory_info_body p inspect_memory_info) resources.

(** *** [MemoryResidentPollster] *)

(** The result of [inspect_memory_resident]. *)
Record MemoryResidentStats := mkMemoryResidentStats { resident : float }.

(** The body of the loop of [MemoryResidentPollster.get_samples];
    [inspector_class] is [self.inspector.__class__.__name__]. *)
Definition memory_resident_body
    (inspect_memory_resident : Instance -> Z -> Result Exn MemoryResidentStats)
    (inspector_class : string) (_inspection_duration : Z) (i : Instance)
  : list (Event float) :=
  Log DEBUG "Checking resident memory for instance %s" (id i) ::
  match inspect_memory_resident i _inspection_duration with
  | Ok memory_info =>
      [ Log DEBUG "RESIDENT MEMORY: %(instance)s %(resident)f" (id i);
        Yield {| instance := i; name := "memory.resident"; type := TYPE_GAUGE;
                 unit := "MB"; volume := VFloat (resident memory_info) |} ]
  | Raise (InstanceNotFoundException err) =>
      [ Log DEBUG "Exception while getting samples %s" err ]
  | Raise (InstanceShutOffException e) =>
      [ Log WARN "Instance %(instance_id)s was shut off while getting samples of %(pollster)s: %(exc)s" (id i) ]
  | Raise (NoDataException e) =>
      [ Log WARN "Cannot inspect data of %(pollster)s for %(instance_id)s, non-fatal reason: %(exc)s" (id i) ]
  | Raise CeilometerNotImplementedError =>
      [ Log DEBUG "Obtaining Resident Memory is not implemented for %s" inspector_class ]
  | Raise _ =>
      [ Log EXCEPTION "Could not get Resident Memory Usage for %(id)s: %(e)s" (id i) ]
  end.

Definition memory_resident_get_samples
    (inspect_memory_resident : Instance -> Z -> Result Exn MemoryResidentStats)
    (inspector_class : string) (_record_poll_time : Z)
    (resources : list Instance) : list (Event float) :=
  flat_map (memory_resident_body inspect_memory_resident inspector_class
              _record_poll_time) resources.

(** *** [InstanceSystemInfoPollster] and [InstanceAppStatsPollster]

    Their samples carry [additional_metadata], a dictionary with one
    entry. *)

Inductive DescribedEvent :=
| YieldWith (s : Sample float) (additional_metadata : gmap string string)
| LogRecord (lvl : Level) (msg : string) (arg : string).

Definition described_samples (es : list DescribedEvent)
  : list (Sample float * gmap string string) :=
  omap (fun e => match e with
                 | YieldWith s meta => Some (s, meta)
                 | LogRecord _ _ _ => None
                 end) es.

(** What differs between the two: the four messages, the meter name and
    the key of the metadata. *)
Record DescribedPollster := mkDescribedPollster {
  described_checking : string;
  described_computed : string;
  described_cannot_get : string;
  described_could_not_get : string;
  described_meter : string;
  metadata_key : string
}.

Definition InstanceSystemInfoPollster : DescribedPollster :=
  {| described_checking := "Checking system info for instance %s";
     described_computed := "SYSTEM INFO: %(instance)s %(sys_info)s";
     described_cannot_get := "Cannot get System Info for instance %s, maybe it is not implemented in qemu-guest-agent";
     described_could_not_get := "Could not get System info for %(id)s: %(e)s";
     described_meter := "instance.system.info";
     metadata_key := "system_info" |}.

Definition InstanceAppStatsPollster : DescribedPollster :=
  {| described_checking := "Checking app stats for instance %s";
     described_computed := "APP STATS: %(instance)s %(app_stats)s";
     described_cannot_get := "Cannot get APP Stats for instance %s, maybe it is not implemented in qemu-guest-agent";
     described_could_not_get := "Could not get APP Stats for %(id)s: %(e)s";
     described_meter := "instance.app.stats";
     metadata_key := "app_stats" |}.

(** The [except] clauses of the two, in their order. *)
Definition described_handlers (p : DescribedPollster) (i : Instance) (e : Exn)
  : list DescribedEvent :=
  match e with
  | InstanceNotFoundException err =>
      [ LogRecord DEBUG "Exception while getting samples %s" err ]
  | CeilometerNotImplementedError | NotImplementedError =>
      [ LogRecord DEBUG (described_cannot_get p) (id i) ]
  | _ => [ LogRecord EXCEPTION (described_could_not_get p) (id i) ]
  end.

(** The [try] block up to the [yield]: the inspection, the [None] test and
    [str]. *)
Definition described_value
    (inspect : Instance -> Result Exn (option Described)) (i : Instance)
  : Result Exn string :=
  match inspected (inspect i) with
  | Raise e => Raise e
  | Ok info => py_str info
  end.

(** The body of the loop of [get_samples] of each of the two; [inspect] is
    [inspect_system_info] or [inspect_app_stats]. *)
Definition described_body (p : DescribedPollster)
    (inspect : Instance -> Result Exn (option Described)) (i : Instance)
  : list DescribedEvent :=
  LogRecord DEBUG (described_checking p) (id i) ::
  match described_value inspect i with
  | Ok text =>
      [ LogRecord DEBUG (described_computed p) (id i);
        YieldWith {| instance := i; name := described_meter p;
                     type := TYPE_GAUGE; unit := "instance";
                     volume := VInt 1 |}
          {[ metadata_key p := text ]} ]
  | Raise e => described_handlers p i e
  end.

Definition described_get_samples (p : DescribedPollster)
    (inspect : Instance -> Result Exn (option Described))
    (resources : list Instance) : list DescribedEvent :=
  flat_map (described_body p inspect) resources.

(** *** [InstancePollster] and [InstanceFlavorPollster]

    These two have no [try]. What a generator does is then the samples it
    yields and, if an exception ended it, that exception. *)

Definition instance_get_samples (resources : list Instance)
  : list (Sample float) :=
  map (fun i => {| instance := i; name := "instance"; type := TYPE_GAUGE;
                   unit := "instance"; volume := VInt 1 |}) resources.

(** [InstanceFlavorPollster.get_samples]; [flavor i] is the dictionary
    [instance.flavor]. *)
Fixpoint instance_flavor_get_samples (flavor : Instance -> gmap string string)
    (resources : list Instance) : list (Sample float) * option Exn :=
  match resources with
  | [] => ([], None)
  | i :: resources' =>
      match flavor i !! "name" with
      | None => ([], Some (OtherException "KeyError"))
      | Some flavor_name =>
          let '(rest, ended) := instance_flavor_get_samples flavor resources' in
          ({| instance := i; name := "instance:" +:+ flavor_name;
              type := TYPE_GAUGE; unit := "instance"; volume := VInt 1 |}
           :: rest, ended)
      end
  end.

(** *** Reading a run *)

(** In a run over [before ++ r :: after] the instance [r] is skipped: the
    run is the run over [before], the record that [r] is being checked, one
    more record, and the run over [after]; its samples are those of the two
    runs. [log] and [yielded] are the log record and the samples of the
    kind of events of the run. *)
Definition skipped {E S : Type} (log : Level -> string -> string -> E)
    (yielded : list E -> list S) (get_samples : list Instance -> list E)
    (checking : string) (before : list Instance) (r : Instance)
    (after : list Instance) : Prop :=
  (exists lvl msg arg,
     get_samples (before ++ r :: after)
     = get_samples before
       ++ [log DEBUG checking (id r); log lvl msg arg]
       ++ get_samples after)
  /\ yielded (get_samples (before ++ r :: after))
     = yielded (get_samples before) ++ yielded (get_samples after).

(** C9 as worded, for a generator given by the samples it yields and the
    exception that ended it, if any: a resource that fails does not end the
    run, and the samples of the other resources are those of the runs
    without it. *)
Definition isolation_spec
    (get_samples : list Instance -> list (Sample float) * option Exn)
    (before : list Instance) (r : Instance) (after : list Instance) : Prop :=
  (get_samples (before ++ r :: after)).2 = None
  /\ (get_samples (before ++ r :: after)).1
     = (get_samples before).1 ++ (get_samples after).1.

End WithValues.

Arguments int_item {InfoValue} py_int mem_info key.
Arguments mkInfoPollster {InfoValue} _ _ _ _ _ _.
Arguments checking {InfoValue} _.
Arguments computed {InfoValue} _.
Arguments cannot_get {InfoValue} _.
Arguments could_not_get {InfoValue} _.
Arguments meter {InfoValue} _.
Arguments compute {InfoValue} _ _.
Arguments MemoryTotalPollster {InfoValue} py_int.
Arguments MemoryUnusedPollster {InfoValue} py_int.
Arguments MemorySwapTotalPollster {InfoValue} py_int.
Arguments MemorySwapFreePollster {InfoValue} py_int.
Arguments MemoryBufferPollster {InfoValue} py_int.
Arguments MemoryCachedPollster {InfoValue} py_int.
Arguments memory_info_handlers {float InfoValue} p i e.
Arguments memory_info_value {InfoValue} p inspect_memory_info i.
Arguments memory_info_body {float InfoValue} p inspect_memory_info i.
Arguments memory_info_get_samples {float InfoValue} p inspect_memory_info resources.
Arguments instance_get_samples {float} resources.
Arguments instance_flavor_get_samples {float} flavor resources.
Arguments mkMemoryResidentStats {float} _.
Arguments resident {float} _.
Arguments memory_resident_body {float} _ _ _ i.
Arguments memory_resident_get_samples {float} _ _ _ resources.
Arguments YieldWith {float} s additional_metadata.
Arguments LogRecord {float} lvl msg arg.
Arguments described_samples {float} es.
Arguments described_handlers {float} p i e.
Arguments described_value {Described} py_str inspect i.
Arguments described_body {float Described} py_str p inspect i.
Arguments described_get_samples {float Described} py_str p inspect resources.
Arguments skipped {E S} log yielded get_samples checking before r after.
Arguments isolation_spec {float} get_samples before r after.

End MorePollsters.

(* ===================================================================== *)
(** ** More of ceilometer/dispatcher/gnocchi.py *)
(* ===================================================================== *)

Module MoreGnocchi.
Import Batching Gnocchi.

(** *** The mandatory fields of a resource definition

    [ResourcesDefinition.__init__] receives [definition_cfg], an entry of
    the YAML file, and checks two fields before anything else. *)

#[warnings="-register-all"] Inductive CfgValue :=
| CfgNone
| CfgBool (b : bool)
| CfgInt (n : Z)
| CfgStr (s : string)
| CfgList (items : list CfgValue)
| CfgDict (entries : list (string * CfgValue)).

(** The two types of [MANDATORY_FIELDS]. *)
Inductive FieldType := string_types | list_type.

Definition isinstance (v : CfgValue) (t : FieldType) : bool :=
  match v, t with
  | CfgStr _, string_types => true
  | CfgList _, list_type => true
  | _, _ => false
  end.

Definition MANDATORY_FIELDS : list (string * FieldType) :=
  [("resource_type", string_types); ("metrics", list_type)].

(** The two [declarative.DefinitionException]s of the loop. *)
Inductive DefinitionException :=
| NotSpecified (field : string)
| WrongType (field : string) (field_type : FieldType).

(** Lines 97-104: the loop over [MANDATORY_FIELDS.items()]. The order in
    which a dictionary lists its items is not fixed: [fields] is that
    list, in the order of the run. *)
Fixpoint check_mandatory_fields (fields : list (string * FieldType))
    (cfg : gmap string CfgValue) : Result DefinitionException unit :=
  match fields with
  | [] => Ok tt
  | (field, field_type) :: fields' =>
      match cfg !! field with
      | None => Raise (NotSpecified field)
      | Some v =>
          if isinstance v field_type
          then check_mandatory_fields fields' cfg
          else Raise (WrongType field field_type)
      end
  end.

(** *** Reading a run, continued *)

(** The value every entry of [ResourcesDefinition.metrics] has: the
    policy the definition names; the empty policy if its entry is null;
    without an entry, the default policy of the dispatcher if there is
    one. *)
Definition policy_of (rd : ResourcesDefinition) : Policy :=
  match cfg_archive_policy rd, _default_archive_policy rd with
  | Some (Some p), _ => ArchivePolicyName p
  | Some None, _ => NoPolicy
  | None, Some p => ArchivePolicyName p
  | None, None => NoPolicy
  end.

(** A meter that the loop of [_process_resource] passes over: no
    definition matches it, or the first that does is marked [ignore]. *)
Definition passed_over (env : Env) (conf : Conf) (metric_name : string) : bool :=
  match _get_resource_definition env conf metric_name with
  | None => true
  | Some rd => cfg_ignore rd
  end.

(** The warnings of the loop for a list of meter groups that are all
    passed over. *)
Definition warnings (env : Env) (conf : Conf)
    (groups : list (string * list Sample)) : list Event :=
  flat_map
    (fun group =>
       match _get_resource_definition env conf group.1 with
       | None => [Log WARN "metric %s is not handled by gnocchi"]
       | Some _ => []
       end) groups.

Definition is_acquire (e : Event) : bool :=
  match e with Acquire _ => true | _ => false end.

Definition is_release (e : Event) : bool :=
  match e with Release _ => true | _ => false end.

Definition is_backend_call (e : Event) : bool :=
  match e with Gnocchi _ _ => true | _ => false end.

(** A bound on what a run did: at most [posts] posts and [updates]
    updates of a resource, as many locks released as taken, and no lookup
    of the service project. *)
Definition within (posts updates : nat) (evs : list Event) : Prop :=
  count is_post evs <= posts
  /\ count is_update_resource evs <= updates
  /\ count is_acquire evs = count is_release evs
  /\ count is_tenants_find evs = 0.

(** The samples of a grouped batch, in the order they are processed. *)
Definition flatten (groups : list (string * list (string * list Sample)))
  : list Sample :=
  concat (map (fun g => concat (map snd g.2)) groups).

End MoreGnocchi.

(* ===================================================================== *)
(** ** More concrete runs *)
(* ===================================================================== *)

Module MoreExamples.
Import Discovery Examples.

(** 500 seconds after the run of [discovery_at_0] the inventory cannot be
    reached. *)
Definition nova_down_500s_later : Nova string :=
  {| utcnow := fun _ => 500000000%Z;
     instance_get_all_by_host := fun _ _ => Raise "connection refused" |}.

(** [vm-1] has no guest agent; the agent of every other instance reports
    2048 MB of which 512 are used. Values are integers, and [int] is the
    identity. *)
Definition memory_info_of (i : Instance)
  : Result Pollsters.Exn (option (gmap string Z)) :=
  if String.eqb (id i) "vm-1"
  then Raise (Pollsters.InstanceNoQGAException "no agent")
  else Ok (Some {[ "total" := 2048%Z; "used" := 512%Z ]}).

Definition int_of (v : Z) : option Z := Some v.

(** The flavor of [vm-1] has a name, no other flavor has. *)
Definition flavor_of (i : Instance) : gmap string string :=
  if String.eqb (id i) "vm-1" then {[ "name" := "m1.small" ]} else ∅.

(** An inspector for which [vm-1] is shut off and every other instance has
    256 MB resident; floats are integers here. *)
Definition memory_resident_vm1_off (i : Instance) (duration : Z)
  : Result Pollsters.Exn (MorePollsters.MemoryResidentStats Z) :=
  if String.eqb (id i) "vm-1"
  then Raise (Pollsters.InstanceShutOffException "vm-1 is shut off")
  else Ok (MorePollsters.mkMemoryResidentStats 256%Z).

(** The guest agent of [vm-1] describes nothing, that of every other
    instance answers with a string, which [str] returns as it is. *)
Definition described_of (i : Instance)
  : Result Pollsters.Exn (option string) :=
  if String.eqb (id i) "vm-1" then Ok None else Ok (Some "linux").

Definition str_of (v : string) : Result Pollsters.Exn string := Ok v.

End MoreExamples.

(* ===================================================================== *)
(** ** More concrete runs of the dispatcher *)
(* ===================================================================== *)

Module MoreDispatcherExamples.
Import Batching Gnocchi MoreGnocchi Examples.

(** Every post fails on the server side. *)
Definition backend_post_500 : Env :=
  backend
    (fun _ c =>
       match c with
       | post_measure _ _ _ _ => Some (UnexpectedError "500")
       | _ => None
       end)
    (fun _ _ => None).

(** The backend cannot be reached. *)
Definition backend_unreachable : Env :=
  backend (fun _ _ => Some (OtherException "connection refused"))
    (fun _ _ => None).

(** [fnmatch.fnmatch] on literal patterns and on the pattern that matches
    every name. *)
Definition fnmatch_star (name pat : string) : bool :=
  String.eqb pat "*" || String.eqb name pat.

(** A definition that takes every meter. *)
Definition any_meter_definition : ResourcesDefinition :=
  {| resource_type := "generic";
     cfg_metrics := ["*"];
     cfg_archive_policy := None;
     _default_archive_policy := Some "low";
     cfg_ignore := false;
     _attributes := ∅ |}.

(** A definition whose entry reads [archive_policy: null], in a
    dispatcher whose default policy is "low". *)
Definition null_policy_definition : ResourcesDefinition :=
  {| resource_type := "volume";
     cfg_metrics := ["volume.size"];
     cfg_archive_policy := Some None;
     _default_archive_policy := Some "low";
     cfg_ignore := false;
     _attributes := ∅ |}.

Definition conf_any_meter : Conf :=
  {| filter_service_activity := false;
     filter_project := "gnocchi";
     resources_definition := [any_meter_definition];
     cache := false |}.

(** No metric exists; patterns may be ["*"]. *)
Definition backend_no_metric : Env :=
  {| fnmatch := fnmatch_star;
     py_hash := items_hash;
     uuid5_hex := fun key => "uuid5:" +:+ key;
     gnocchi := fun _ c =>
                  match c with
                  | post_measure _ _ _ _ => Some NoSuchMetric
                  | _ => None
                  end;
     cache_get := fun _ _ => None;
     tenants_find := fun _ _ => Ok "gnocchi-project" |}.

(** The identity service does not answer. *)
Definition backend_without_keystone : Env :=
  {| fnmatch := fnmatch_literal;
     py_hash := items_hash;
     uuid5_hex := fun key => "uuid5:" +:+ key;
     gnocchi := fun _ _ => None;
     cache_get := fun _ _ => None;
     tenants_find := fun _ _ => Raise (OtherException "keystone is down") |}.

(** A meter that no definition of [conf_with] handles. *)
Definition cpu_at_10_00 : Sample :=
  {| resource_id := "vm-1"; counter_name := "cpu";
     counter_volume := 3; timestamp := "2015-08-01T10:00:00";
     user_id := Some "alice"; project_id := Some "tenant-a" |}.

(** A definition file entry, and the two orders in which the mandatory
    fields may be listed. *)
Definition instance_cfg : gmap string CfgValue :=
  {[ "resource_type" := CfgStr "instance";
     "metrics" := CfgList [CfgStr "memory.usage"; CfgStr "disk.read"] ]}.

Definition metrics_first : list (string * FieldType) :=
  [("metrics", list_type); ("resource_type", string_types)].

End MoreDispatcherExamples.

(* ===================================================================== *)
(** * Properties *)
(* ===================================================================== *)

(** ** The credential broker *)

Section BrokerFacts.
Import Manager.
Context {Client ClientException : Type}.
Variable get_client : nat -> Result ClientException Client.

Local Abbreviation Broker := (AgentManager Client ClientException).
Local Abbreviation Outcome := (Result (Raised ClientException) Client).

Lemma keystone_cached_client (m : Broker) (c : Client) :
  _keystone m = Some c -> keystone get_client m = (Ok c, m).
Proof.
  destruct m as [k e a]; simpl. intros ->. reflexivity.
Qed.

Lemma keystone_cached_failure (m : Broker) (e : ClientException) :
  _keystone m = None -> _keystone_last_exception m = Some e ->
  keystone get_client m = (Raise (Cached e), m).
Proof.
  destruct m as [k e' a]; simpl. intros -> ->. reflexivity.
Qed.

Lemma keystone_first_get (m : Broker) :
  _keystone m = None -> _keystone_last_exception m = None ->
  (keystone get_client m).1 = as_get_result (get_client (attempts m))
  /\ attempts (keystone get_client m).2 = S (attempts m).
Proof.
  destruct m as [k e a]; simpl. intros -> ->. unfold keystone; simpl.
  destruct (get_client a); simpl; auto.
Qed.

(** A state in which a [get()] has been answered answers every later one
    the same way and stays as it is. *)
Lemma later_gets_stable (m : Broker) (r : Outcome) :
  keystone get_client m = (r, m) ->
  forall n, later_gets get_client n m = (repeat r n, m).
Proof.
  intros Hfix n. induction n as [|n IH]; simpl.
  - reflexivity.
  - rewrite Hfix, IH. reflexivity.
Qed.

(** C8. Within one cycle the first [get()] makes one acquisition attempt; a
    client obtained is cached and every later [get()] returns it without a
    new attempt; a failure is cached and every later [get()] raises that
    same error without a new attempt; [interval_task]'s reset clears both
    memos, whatever they held, so the next [get()] attempts again. *)
Theorem credential_broker_memoizes_per_cycle (m : Broker) (n : nat) :
  let m0 := reset_for_cycle m in
  let r := (keystone get_client m0).1 in
  let m1 := (keystone get_client m0).2 in
  _keystone m0 = None /\ _keystone_last_exception m0 = None
  /\ r = as_get_result (get_client (attempts m))
  /\ attempts m1 = S (attempts m)
  /\ match get_client (attempts m) with
     | Ok c => _keystone m1 = Some c /\ _keystone_last_exception m1 = None
     | Raise e => _keystone m1 = None /\ _keystone_last_exception m1 = Some e
     end
  /\ later_gets get_client n m1 = (repeat r n, m1)
  /\ attempts (later_gets get_client n m1).2 = S (attempts m).
Proof.
  cbn zeta. unfold reset_for_cycle, keystone. simpl.
  destruct (get_client (attempts m)) as [c|e] eqn:Hg; simpl.
  - assert (Hs : later_gets get_client n
                   {| _keystone := Some c; _keystone_last_exception := None;
                      attempts := S (attempts m) |}
                 = (repeat (Ok c) n,
                    {| _keystone := Some c; _keystone_last_exception := None;
                       attempts := S (attempts m) |})).
    { apply later_gets_stable. apply keystone_cached_client. reflexivity. }
    rewrite Hs. simpl. repeat split; reflexivity.
  - assert (Hs : later_gets get_client n
                   {| _keystone := None; _keystone_last_exception := Some e;
                      attempts := S (attempts m) |}
                 = (repeat (Raise (Cached e)) n,
                    {| _keystone := None; _keystone_last_exception := Some e;
                       attempts := S (attempts m) |})).
    { apply later_gets_stable. apply keystone_cached_failure; reflexivity. }
    rewrite Hs. simpl. repeat split; reflexivity.
Qed.

End BrokerFacts.

(** ** Instance discovery *)

Section DiscoveryFacts.
Import Discovery.

Lemma track_lookup (m : gmap string Instance) (i : Instance) (k : string) :
  track m i !! k =
  if String.eqb (id i) k
  then (if is_terminal i then None else Some i)
  else m !! k.
Proof.
  unfold track. destruct (String.eqb_spec (id i) k) as [->|Hne].
  - destruct (is_terminal i).
    + apply lookup_delete_eq.
    + apply lookup_insert_eq.
  - destruct (is_terminal i).
    + by apply lookup_delete_ne.
    + by apply lookup_insert_ne.
Qed.

(** After the loop, an id holds what its last enumerated instance says: it
    is absent if that instance is terminal, it maps to that instance
    otherwise; ids not enumerated keep their entry. *)
Lemma refresh_lookup (l : list Instance) (m : gmap string Instance) (k : string) :
  refresh l m !! k =
  match last_seen l k with
  | Some i => if is_terminal i then None else Some i
  | None => m !! k
  end.
Proof.
  unfold refresh. revert m. induction l as [|i l IH]; intros m; simpl.
  - reflexivity.
  - rewrite IH. destruct (last_seen l k) as [j|]; [reflexivity|].
    rewrite track_lookup. destruct (String.eqb (id i) k); reflexivity.
Qed.

Lemma init_tracked_ok (instance_query_period : Z) :
  tracked_ok (instances (init instance_query_period)).
Proof. unfold tracked_ok. simpl. apply map_Forall_empty. Qed.

Lemma track_tracked_ok (m : gmap string Instance) (i : Instance) :
  tracked_ok m -> tracked_ok (track m i).
Proof.
  unfold tracked_ok, track. intros Hm.
  destruct (is_terminal i) eqn:Ht.
  - by apply map_Forall_delete.
  - by apply map_Forall_insert_2.
Qed.

Lemma refresh_tracked_ok (l : list Instance) (m : gmap string Instance) :
  tracked_ok m -> tracked_ok (refresh l m).
Proof.
  unfold refresh. revert m. induction l as [|i l IH]; intros m Hm; simpl.
  - exact Hm.
  - apply IH, track_tracked_ok, Hm.
Qed.

Lemma values_tracked_ok (m : gmap string Instance) (i : Instance) :
  tracked_ok m -> i ∈ values m -> is_terminal i = false.
Proof.
  unfold tracked_ok, values. intros Hm Hi.
  apply list_elem_of_fmap in Hi as [[k j] [-> Hkj]].
  apply elem_of_map_to_list in Hkj.
  apply (map_Forall_lookup_1 _ _ _ _ Hm) in Hkj. apply Hkj.
Qed.

Lemma timedelta_seconds_le (us : Z) :
  (0 <= us)%Z -> (timedelta_seconds us <= us / 1000000)%Z.
Proof.
  intros Hus. unfold timedelta_seconds.
  apply Z.div_le_mono; [lia|]. apply Z.mod_le; lia.
Qed.

Context {NovaError : Type} (nova : Nova NovaError).

(** Within the period nothing is enumerated and nothing changes. *)
Lemma discover_within_period (d : InstanceDiscovery) (t : Z) :
  last_run d = Some t ->
  (0 <= utcnow nova (clock_reads d) - t < period d * 1000000)%Z ->
  discover nova d =
  (Ok (values (instances d)),
   {| last_run := Some t; instances := instances d; period := period d;
      clock_reads := S (clock_reads d); nova_calls := nova_calls d |}).
Proof.
  intros Hrun [Hlo Hhi]. unfold discover. rewrite Hrun.
  pose proof (timedelta_seconds_le _ Hlo) as Hle.
  assert (Hdiv : ((utcnow nova (clock_reads d) - t) / 1000000 < period d)%Z)
    by (apply Z.div_lt_upper_bound; lia).
  destruct (Z.gtb_spec (timedelta_seconds (utcnow nova (clock_reads d) - t))
              (period d)); [lia|reflexivity].
Qed.

(** When the [seconds] field of the elapsed time exceeds the period, one
    incremental enumeration since [last_run] is made and merged, and
    [last_run] becomes the time read after it. *)
Lemma discover_after_period (d : InstanceDiscovery) (t : Z) (l : list Instance) :
  last_run d = Some t ->
  (timedelta_seconds (utcnow nova (clock_reads d) - t) > period d)%Z ->
  instance_get_all_by_host nova (length (nova_calls d)) (Some t) = Ok l ->
  discover nova d =
  (Ok (values (refresh l (instances d))),
   {| last_run := Some (utcnow nova (S (clock_reads d)));
      instances := refresh l (instances d); period := period d;
      clock_reads := S (S (clock_reads d));
      nova_calls := nova_calls d ++ [Some t] |}).
Proof.
  intros Hrun Hgt Hl. unfold discover. rewrite Hrun, Hl.
  destruct (Z.gtb_spec (timedelta_seconds (utcnow nova (clock_reads d) - t))
              (period d)); [reflexivity|lia].
Qed.

Lemma discover_instances (d : InstanceDiscovery) :
  instances (discover nova d).2 = instances d
  \/ exists since l,
       instance_get_all_by_host nova (length (nova_calls d)) since = Ok l
       /\ nova_calls (discover nova d).2 = nova_calls d ++ [since]
       /\ instances (discover nova d).2 = refresh l (instances d).
Proof.
  unfold discover. destruct (last_run d) as [t|].
  - destruct (_ >? _)%Z; [|by left].
    destruct (instance_get_all_by_host nova _ (Some t)) as [l|e] eqn:Hl;
      [right; by exists (Some t), l | by left].
  - destruct (instance_get_all_by_host nova _ None) as [l|e] eqn:Hl;
      [right; by exists None, l | by left].
Qed.

Lemma discover_returns_tracked_set (d : InstanceDiscovery) (l : list Instance) :
  (discover nova d).1 = Ok l -> l = values (instances (discover nova d).2).
Proof.
  unfold discover. destruct (last_run d) as [t|].
  - destruct (_ >? _)%Z.
    + destruct (instance_get_all_by_host nova _ (Some t)); simpl; congruence.
    + simpl; congruence.
  - destruct (instance_get_all_by_host nova _ None); simpl; congruence.
Qed.

(** C7. A tracked set without terminal instances stays so across
    [discover]: an enumerated instance whose state is "deleted" or "error"
    leaves the set together with any earlier entry under its id, any other
    enumerated instance is stored under its id, entries of ids not
    enumerated are kept, and what [discover] returns is the whole tracked
    set. *)
Theorem tracked_set_has_no_terminal_instance (d : InstanceDiscovery) :
  tracked_ok (instances d) ->
  let r := (discover nova d).1 in
  let d' := (discover nova d).2 in
  tracked_ok (instances d')
  /\ (forall i, i ∈ values (instances d') -> is_terminal i = false)
  /\ (forall l, r = Ok l -> l = values (instances d'))
  /\ (forall since l,
        nova_calls d' = nova_calls d ++ [since] ->
        instance_get_all_by_host nova (length (nova_calls d)) since = Ok l ->
        forall k,
          instances d' !! k =
          match last_seen l k with
          | Some i => if is_terminal i then None else Some i
          | None => instances d !! k
          end)
  /\ (nova_calls d' = nova_calls d -> instances d' = instances d).
Proof.
  intros Hok r d'. subst r d'.
  assert (Hok' : tracked_ok (instances (discover nova d).2)).
  { destruct (discover_instances d) as [->|(since & l & _ & _ & ->)];
      [exact Hok | by apply refresh_tracked_ok]. }
  split; [exact Hok'|].
  split; [intros i; by apply values_tracked_ok|].
  split; [apply discover_returns_tracked_set|].
  split.
  - intros since l. unfold discover.
    destruct (last_run d) as [t|].
    + destruct (_ >? _)%Z.
      * destruct (instance_get_all_by_host nova _ (Some t)) eqn:Hq; simpl;
          intros Hc Hl k; apply app_inv_head in Hc;
          assert (since = Some t) by congruence; subst since;
          rewrite Hq in Hl; [|discriminate].
        assert (a = l) by congruence. subst a. apply refresh_lookup.
      * simpl. intros Hc. apply (f_equal length) in Hc.
        rewrite length_app in Hc. simpl in Hc. lia.
    + destruct (instance_get_all_by_host nova _ None) eqn:Hq; simpl;
        intros Hc Hl k; apply app_inv_head in Hc;
        assert (since = None) by congruence; subst since;
        rewrite Hq in Hl; [|discriminate].
      assert (a = l) by congruence. subst a. apply refresh_lookup.
  - intros Hcalls.
    destruct (discover_instances d) as [Hsame|(since' & l' & _ & Hcalls' & _)];
      [exact Hsame|].
    rewrite Hcalls' in Hcalls. apply (f_equal length) in Hcalls.
    rewrite length_app in Hcalls. simpl in Hcalls. lia.
Qed.

End DiscoveryFacts.

(** ** Pollsters *)

Section PollsterFacts.
Import Discovery Pollsters.
Context {float : Type}.

Lemma samples_app (a b : list (Event float)) :
  samples (a ++ b) = samples a ++ samples b.
Proof. apply omap_app. Qed.

Lemma flat_map_middle {A B : Type} (f : A -> list B) (before after : list A)
    (x : A) :
  flat_map f (before ++ x :: after)
  = flat_map f before ++ f x ++ flat_map f after.
Proof. rewrite flat_map_app. reflexivity. Qed.

(** Each handler of instance.py logs one record and yields nothing. *)
Lemma instance_handlers_log (what : string) (i : Instance) (e : Exn) :
  exists lvl msg arg,
    instance_handlers (float := float) what i e = [Log lvl msg arg].
Proof. destruct e; simpl; eauto. Qed.

Section Inspectors.
Variable inspect_memory_usage : Instance -> Z -> Result Exn (MemoryUsageStats float).
Variable inspect_oom_status : Instance -> Result Exn (option bool).
Variables (inspector_class : string) (duration : Z).

Lemma memory_usage_body_failure (r : Instance) (e : Exn) :
  inspect_memory_usage r duration = Raise e ->
  exists lvl msg arg,
    memory_usage_body inspect_memory_usage inspector_class duration r
    = [Log DEBUG "Checking memory usage for instance %s" (id r);
       Log lvl msg arg].
Proof.
  intros He. unfold memory_usage_body. rewrite He. destruct e; eauto.
Qed.

Lemma oom_status_body_failure (r : Instance) (e : Exn) :
  inspected (inspect_oom_status r) = Raise e ->
  exists lvl msg arg,
    oom_status_body (float := float) inspect_oom_status r
    = [Log DEBUG "Checking oom status for instance %s" (id r);
       Log lvl msg arg].
Proof.
  intros He. unfold oom_status_body. rewrite He.
  destruct (instance_handlers_log "OOM Status" r e) as (lvl & msg & arg & ->).
  eauto.
Qed.

(** The samples of a run are those of the instances whose inspection
    succeeded, in the order of the resources. *)
Lemma memory_usage_samples (resources : list Instance) :
  samples (memory_usage_get_samples inspect_memory_usage inspector_class
             duration resources)
  = omap (fun i =>
            match inspect_memory_usage i duration with
            | Ok memory_info =>
                Some {| instance := i; name := "memory.usage";
                        type := TYPE_GAUGE; unit := "MB";
                        volume := VFloat (usage memory_info) |}
            | Raise _ => None
            end) resources.
Proof.
  unfold memory_usage_get_samples.
  induction resources as [|i l IH]; simpl; [reflexivity|].
  rewrite samples_app, IH. unfold memory_usage_body.
  destruct (inspect_memory_usage i duration) as [mi|e]; simpl;
    [reflexivity|]. destruct e; reflexivity.
Qed.

Lemma oom_status_samples (resources : list Instance) :
  samples (oom_status_get_samples (float := float) inspect_oom_status resources)
  = omap (fun i =>
            match inspected (inspect_oom_status i) with
            | Ok oom_info =>
                Some {| instance := i; name := "instance.oom.status";
                        type := TYPE_GAUGE; unit := "instance";
                        volume := VInt (if oom_info then 1 else 0) |}
            | Raise _ => None
            end) resources.
Proof.
  unfold oom_status_get_samples.
  induction resources as [|i l IH]; simpl; [reflexivity|].
  rewrite samples_app, IH. unfold oom_status_body.
  destruct (inspected (inspect_oom_status i)) as [b|e]; simpl;
    [reflexivity|]. destruct e; reflexivity.
Qed.

End Inspectors.

Section PingDelay.
Variable py_float : string -> option float.
Variable inspect_ping_delay : Instance -> Result Exn (option (Delay float)).

(** C10. An instance for which the inspector returns a value other than
    [None] yields one gauge sample "instance.ping.delay": its volume is the
    value as a float, but 999 when the value is the empty string or a string
    [float] rejects. *)
Theorem ping_delay_yields_one_sample (before after : list Instance)
    (i : Instance) (delay : Delay float) :
  inspect_ping_delay i = Ok (Some delay) ->
  let get_samples := ping_delay_get_samples py_float inspect_ping_delay in
  exists v,
    let s := {| instance := i; name := "instance.ping.delay";
                type := TYPE_GAUGE; unit := "instance"; volume := v |} in
    samples (ping_delay_body py_float inspect_ping_delay i) = [s]
    /\ samples (get_samples (before ++ i :: after))
       = samples (get_samples before) ++ [s] ++ samples (get_samples after)
    /\ (delay = DStr "" -> v = VInt 999)
    /\ (forall str x, delay = DStr str -> str <> "" ->
                      py_float str = Some x -> v = VFloat x)
    /\ (forall str, delay = DStr str -> py_float str = None -> v = VInt 999)
    /\ (forall x, delay = DNum x -> v = VFloat x).
Proof.
  intros Hi get_samples. subst get_samples.
  exists (ping_delay_volume py_float delay). cbn zeta.
  assert (Hbody : samples (ping_delay_body py_float inspect_ping_delay i)
                  = [{| instance := i; name := "instance.ping.delay";
                        type := TYPE_GAUGE; unit := "instance";
                        volume := ping_delay_volume py_float delay |}]).
  { unfold ping_delay_body. rewrite Hi. reflexivity. }
  split; [exact Hbody|].
  split.
  { unfold ping_delay_get_samples. rewrite flat_map_middle, !samples_app.
    rewrite Hbody. reflexivity. }
  split; [intros ->; reflexivity|].
  split.
  { intros str x -> Hne Hx. simpl.
    destruct (String.eqb_spec str ""); [contradiction|]. by rewrite Hx. }
  split.
  { intros str -> Hx. simpl. rewrite Hx. by destruct (String.eqb str ""). }
  intros x ->. reflexivity.
Qed.

End PingDelay.
End PollsterFacts.

(** ** Stable sorting *)

Section SortFacts.
Import Batching.
Context {A K : Type} `{EqDecision K} (key : A -> K) (ltb : K -> K -> bool).

(** [ltb] is a strict total order on keys. *)
Hypothesis ltb_irrefl : forall a, ltb a a = false.
Hypothesis ltb_trans :
  forall a b c, ltb a b = true -> ltb b c = true -> ltb a c = true.
Hypothesis ltb_connex : forall a b, ltb a b = false -> ltb b a = false -> a = b.

Lemma not_ltb_trans (a b c : K) :
  ltb b a = false -> ltb c b = false -> ltb c a = false.
Proof.
  intros Hba Hcb. destruct (ltb c a) eqn:Hca; [|reflexivity].
  destruct (ltb a b) eqn:Hab.
  - rewrite (ltb_trans c a b Hca Hab) in Hcb. discriminate.
  - assert (a = b) by (by apply ltb_connex). subst b. congruence.
Qed.

(** Sorting is stable: the elements of each key keep their order. *)
Lemma with_key_insert_by (k : K) (x : A) (l : list A) :
  with_key key k (insert_by key ltb x l) = with_key key k (x :: l).
Proof.
  induction l as [|y l IH]; simpl; [reflexivity|].
  destruct (ltb (key y) (key x)) eqn:Hlt; [|reflexivity].
  simpl. fold (with_key key k (insert_by key ltb x l)). rewrite IH. simpl.
  repeat case_bool_decide; try reflexivity.
  subst k. replace (key y) with (key x) in Hlt by congruence.
  rewrite ltb_irrefl in Hlt. discriminate.
Qed.

Lemma with_key_sort_by (k : K) (l : list A) :
  with_key key k (sort_by key ltb l) = with_key key k l.
Proof.
  induction l as [|x l IH]; simpl; [reflexivity|].
  rewrite with_key_insert_by. simpl. fold (with_key key k (sort_by key ltb l)).
  fold (with_key key k l). by rewrite IH.
Qed.

Lemma insert_by_elem (x y : A) (l : list A) :
  In y (insert_by key ltb x l) -> y = x \/ In y l.
Proof.
  induction l as [|z l IH]; simpl.
  - intros [<-|[]]. by left.
  - destruct (ltb (key z) (key x)); simpl.
    + intros [<-|Hin]; [auto|]. destruct (IH Hin); auto.
    + intros [<-|[<-|Hin]]; auto.
Qed.

Lemma insert_by_sorted (x : A) (l : list A) :
  sorted_by key ltb l -> sorted_by key ltb (insert_by key ltb x l).
Proof.
  unfold sorted_by. induction 1 as [|y l Hs IH Hall]; simpl.
  - repeat constructor.
  - destruct (ltb (key y) (key x)) eqn:Hlt.
    + constructor; [exact IH|]. rewrite List.Forall_forall. intros z Hz.
      destruct (insert_by_elem x z l Hz) as [->|Hin].
      * destruct (ltb (key x) (key y)) eqn:Hxy; [|reflexivity].
        pose proof (ltb_trans _ _ _ Hxy Hlt) as Hxx.
        rewrite ltb_irrefl in Hxx. discriminate.
      * rewrite List.Forall_forall in Hall. by apply Hall.
    + constructor; [by constructor|]. constructor; [exact Hlt|].
      rewrite List.Forall_forall in *. intros z Hz.
      apply (not_ltb_trans _ (key y)); [exact Hlt|by apply Hall].
Qed.

Lemma sort_by_sorted (l : list A) : sorted_by key ltb (sort_by key ltb l).
Proof.
  induction l as [|x l IH]; simpl; [constructor|by apply insert_by_sorted].
Qed.

(** A sorted list is determined by the sequence of elements of each key. *)
Lemma sorted_by_unique (l l' : list A) :
  sorted_by key ltb l -> sorted_by key ltb l' ->
  (forall k, with_key key k l = with_key key k l') -> l = l'.
Proof.
  unfold sorted_by. intros Hs. revert l'.
  induction Hs as [|x l Hs IH Hall]; intros l' Hs' Heq.
  - destruct l' as [|y l']; [reflexivity|].
    specialize (Heq (key y)). simpl in Heq.
    rewrite bool_decide_eq_true_2 in Heq by reflexivity. discriminate.
  - destruct Hs' as [|y l' Hs' Hall'].
    { specialize (Heq (key x)). simpl in Heq.
      rewrite bool_decide_eq_true_2 in Heq by reflexivity. discriminate. }
    assert (Hkey : key x = key y).
    { apply ltb_connex.
      - assert (Hin : In x (with_key key (key x) (y :: l'))).
        { rewrite <- Heq. simpl.
          rewrite bool_decide_eq_true_2 by reflexivity. by left. }
        apply filter_In in Hin as [[<-|Hin] _]; [apply ltb_irrefl|].
        rewrite List.Forall_forall in Hall'.
        destruct (ltb (key x) (key y)) eqn:E; [|done].
        by rewrite (Hall' x Hin) in E.
      - assert (Hin : In y (with_key key (key y) (x :: l))).
        { rewrite Heq. simpl.
          rewrite bool_decide_eq_true_2 by reflexivity. by left. }
        apply filter_In in Hin as [[<-|Hin] _]; [apply ltb_irrefl|].
        rewrite List.Forall_forall in Hall.
        destruct (ltb (key y) (key x)) eqn:E; [|done].
        by rewrite (Hall y Hin) in E. }
    assert (x = y).
    { specialize (Heq (key x)). simpl in Heq.
      rewrite bool_decide_eq_true_2 in Heq by reflexivity.
      rewrite bool_decide_eq_true_2 in Heq by congruence. congruence. }
    subst y. f_equal. apply IH; [exact Hs'|].
    intros k. specialize (Heq k). simpl in Heq.
    case_bool_decide; [congruence|exact Heq].
Qed.

(** Two lists that hold, for each key, the same elements in the same order
    are sorted into the same list. *)
Lemma sort_by_determined (l1 l2 : list A) :
  (forall k, with_key key k l1 = with_key key k l2) ->
  sort_by key ltb l1 = sort_by key ltb l2.
Proof.
  intros Heq. apply sorted_by_unique; try apply sort_by_sorted.
  intros k. by rewrite !with_key_sort_by.
Qed.

End SortFacts.

(** ** The order of sort keys *)

Section KeyOrder.
Import Gnocchi.

Lemma ascii_compare_refl (c : Ascii.ascii) : Ascii.compare c c = Eq.
Proof. unfold Ascii.compare. apply N.compare_refl. Qed.

Lemma ascii_compare_eq (c c' : Ascii.ascii) : Ascii.compare c c' = Eq -> c = c'.
Proof.
  unfold Ascii.compare. intros Hc. apply N.compare_eq in Hc.
  rewrite <- (Ascii.ascii_N_embedding c), <- (Ascii.ascii_N_embedding c').
  by rewrite Hc.
Qed.

Lemma ascii_compare_lt_trans (a b c : Ascii.ascii) :
  Ascii.compare a b = Lt -> Ascii.compare b c = Lt -> Ascii.compare a c = Lt.
Proof.
  unfold Ascii.compare. rewrite !N.compare_lt_iff. lia.
Qed.

Lemma string_compare_refl (s : string) : String.compare s s = Eq.
Proof.
  induction s as [|c s IH]; simpl; [reflexivity|].
  by rewrite ascii_compare_refl.
Qed.

Lemma string_compare_lt_trans (a b c : string) :
  String.compare a b = Lt -> String.compare b c = Lt -> String.compare a c = Lt.
Proof.
  revert b c. induction a as [|x a IH]; intros [|y b] [|z c]; simpl;
    try congruence.
  destruct (Ascii.compare x y) eqn:Hxy; try discriminate;
    destruct (Ascii.compare y z) eqn:Hyz; try discriminate; intros Hab Hbc.
  - apply ascii_compare_eq in Hxy, Hyz. subst.
    rewrite ascii_compare_refl. eauto.
  - apply ascii_compare_eq in Hxy. subst. by rewrite Hyz.
  - apply ascii_compare_eq in Hyz. subst. by rewrite Hxy.
  - by rewrite (ascii_compare_lt_trans _ _ _ Hxy Hyz).
Qed.

Lemma string_compare_gt_lt (a b : string) :
  String.compare a b = Gt -> String.compare b a = Lt.
Proof. intros Hab. rewrite String.compare_antisym, Hab. reflexivity. Qed.

Lemma string_ltb_lt (a b : string) :
  String.ltb a b = true <-> String.compare a b = Lt.
Proof. unfold String.ltb. destruct (String.compare a b); split; congruence. Qed.

Lemma key_ltb_irrefl (a : string * string) : key_ltb a a = false.
Proof.
  unfold key_ltb. rewrite string_compare_refl. unfold String.ltb.
  by rewrite string_compare_refl.
Qed.

Lemma key_ltb_trans (a b c : string * string) :
  key_ltb a b = true -> key_ltb b c = true -> key_ltb a c = true.
Proof.
  destruct a as [a1 a2], b as [b1 b2], c as [c1 c2]. unfold key_ltb. simpl.
  destruct (String.compare a1 b1) eqn:Hab; try discriminate;
    destruct (String.compare b1 c1) eqn:Hbc; try discriminate;
    rewrite ?string_ltb_lt; intros H1 H2.
  - apply String.compare_eq_iff in Hab, Hbc. subst.
    rewrite string_compare_refl. apply string_ltb_lt.
    eapply string_compare_lt_trans; eassumption.
  - apply String.compare_eq_iff in Hab. subst. by rewrite Hbc.
  - apply String.compare_eq_iff in Hbc. subst. by rewrite Hab.
  - by rewrite (string_compare_lt_trans _ _ _ Hab Hbc).
Qed.

Lemma key_ltb_connex (a b : string * string) :
  key_ltb a b = false -> key_ltb b a = false -> a = b.
Proof.
  destruct a as [a1 a2], b as [b1 b2]. unfold key_ltb. simpl.
  destruct (String.compare a1 b1) eqn:Hab; try discriminate.
  - apply String.compare_eq_iff in Hab. subst.
    rewrite string_compare_refl. unfold String.ltb.
    destruct (String.compare a2 b2) eqn:H2; try discriminate.
    + apply String.compare_eq_iff in H2. by subst.
    + rewrite (string_compare_gt_lt _ _ H2). discriminate.
  - rewrite (string_compare_gt_lt _ _ Hab). discriminate.
Qed.

End KeyOrder.

(** ** The dispatcher: the self-activity filter *)

Section DispatcherFacts.
Import Batching Gnocchi.
Context (env : Env) (conf : Conf).

(** Unfolding of the statements of the [M] monad. *)
Ltac unfold_M :=
  unfold mbind, mret, M_bind, M_ret, try_except, with_lock, log, emit, raise,
    getitem, call, cache_get_call, extend in *.

Ltac run_M := unfold_M; simpl; rewrite <- ?app_assoc; simpl.

(** *** The project of the backend's own service *)

Lemma gnocchi_project_id_memo (d : Dispatcher) (p : string) :
  _gnocchi_project_id d = Some p ->
  gnocchi_project_id env conf d = (Ok p, d).
Proof. intros Hp. unfold gnocchi_project_id. by rewrite Hp. Qed.

Lemma gnocchi_project_id_resolve (d : Dispatcher) :
  _gnocchi_project_id d = None ->
  let found :=
    tenants_find env (history d ++ [Acquire _gnocchi_project_id_lock])
      (filter_project conf) in
  gnocchi_project_id env conf d =
  match found with
  | Ok p =>
      (Ok p,
       {| _gnocchi_project_id := Some p;
          history := history d
                     ++ [Acquire _gnocchi_project_id_lock;
                         TenantsFind (filter_project conf) found;
                         Log DEBUG "gnocchi project found: %s";
                         Release _gnocchi_project_id_lock] |})
  | Raise e =>
      (Raise e,
       extend d [Acquire _gnocchi_project_id_lock;
                 TenantsFind (filter_project conf) found;
                 Log EXCEPTION "fail to retrieve user of Gnocchi service";
                 Release _gnocchi_project_id_lock])
  end.
Proof.
  intros Hp. cbn zeta. unfold gnocchi_project_id, resolve_project_id.
  rewrite Hp. run_M. rewrite Hp.
  destruct (tenants_find env _ _) as [p|e]; run_M; reflexivity.
Qed.

Lemma gnocchi_project_id_sets_memo (d d' : Dispatcher) (p : string) :
  gnocchi_project_id env conf d = (Ok p, d') -> _gnocchi_project_id d' = Some p.
Proof.
  destruct (_gnocchi_project_id d) as [q|] eqn:Hq.
  - rewrite (gnocchi_project_id_memo d q Hq). congruence.
  - rewrite (gnocchi_project_id_resolve d Hq). cbn zeta.
    destruct (tenants_find env _ _); intros [= <- <-]; reflexivity.
Qed.

(** The lookup is made at most once per read, and only without a memo. *)
Lemma gnocchi_project_id_lookups (d : Dispatcher) :
  count is_tenants_find
    (new_events d (gnocchi_project_id env conf d).2)
  = match _gnocchi_project_id d with Some _ => 0 | None => 1 end.
Proof.
  unfold new_events.
  destruct (_gnocchi_project_id d) as [q|] eqn:Hq.
  - rewrite (gnocchi_project_id_memo d q Hq). simpl.
    by rewrite drop_all.
  - rewrite (gnocchi_project_id_resolve d Hq). cbn zeta.
    destruct (tenants_find env _ _); simpl; by rewrite drop_app_length.
Qed.

(** *** Threads that read the project of the service *)

Lemma lock_discipline_app (held : bool) (a b : list Event) :
  lock_discipline held (a ++ b)
  = match lock_discipline held a with
    | Some held' => lock_discipline held' b
    | None => None
    end.
Proof.
  revert held. induction a as [|e a IH]; intros held; simpl; [reflexivity|].
  destruct e as [| | | |[]|[]|]; try apply IH; destruct held; auto.
Qed.

Lemma invariant_start (d : Dispatcher) :
  _gnocchi_project_id d = None -> invariant conf d (start d) [].
Proof.
  intros Hd. split; simpl; try done.
  - by rewrite app_nil_r.
  - unfold project_found. simpl. by rewrite Hd.
  - intros t [|[|]]; discriminate.
  - intros t x Hin. by apply elem_of_nil in Hin.
  - intros p. by rewrite Hd.
Qed.

Lemma count_snoc (p : Event -> bool) (evs : list Event) (e : Event) :
  count p (evs ++ [e]) = count p evs + (if p e then 1 else 0).
Proof.
  unfold count. rewrite List.filter_app, length_app. simpl.
  by destruct (p e).
Qed.

(** The threads other than [t] stand where they stood. *)
Ltac others t' t :=
  intros t'; simpl; unfold move; destruct (Nat.eqb_spec t' t) as [->|?];
  [try discriminate|eauto].

Lemma invariant_step (d : Dispatcher) (w : World) (evs : list Event)
    (t : nat) :
  invariant conf d w evs ->
  exists evs', invariant conf d (step env conf t w) (evs ++ evs').
Proof.
  intros [Hh Hd Hholder Hfound Hfind Hstore Hstored Hrelease Hreads Hmemo].
  pose proof (Hholder t) as Ht.
  assert (Hothers : forall t', lock_holder w = Some t -> t' <> t ->
                               in_section (threads w t') = false).
  { intros t' Hl Hne. destruct (in_section (threads w t')) eqn:Hs; [|done].
    apply Hholder in Hs. congruence. }
  unfold step. destruct (threads w t) eqn:Hpc; simpl in Ht.
  - (* at_check *)
    destruct (_gnocchi_project_id (shared w)) as [p|] eqn:Hm.
    + exists []. rewrite app_nil_r. split; simpl; rewrite ?Hm.
      * assumption.
      * assumption.
      * others t' t. exact Ht.
      * rewrite Hfound. unfold project_found. simpl. by rewrite Hm.
      * others t' t.
      * others t' t.
      * others t' t. intros _. by eexists.
      * others t' t.
      * assumption.
      * assumption.
    + exists []. rewrite app_nil_r. split; simpl; rewrite ?Hm.
      * assumption.
      * assumption.
      * others t' t. split; [discriminate|]. intros Hl.
        apply Ht in Hl. discriminate.
      * rewrite Hfound. unfold project_found. simpl. rewrite Hm.
        destruct (lock_holder w) as [h|]; [|reflexivity].
        unfold move. destruct (Nat.eqb_spec h t) as [->|?]; [|reflexivity].
        by rewrite Hpc.
      * others t' t.
      * others t' t.
      * others t' t. intros [|[|]]; discriminate.
      * others t' t.
      * assumption.
      * assumption.
  - (* at_fast_return *)
    destruct (Hstored t (or_introl Hpc)) as [q Hm].
    exists []. rewrite app_nil_r. split; simpl.
    + assumption.
    + assumption.
    + others t' t. exact Ht.
    + rewrite Hfound. unfold project_found. simpl. by rewrite Hm.
    + others t' t.
    + others t' t.
    + others t' t. intros [|[|]]; discriminate.
    + others t' t.
    + intros t' x Hin. apply elem_of_app in Hin as [Hin|Hin]; [by eauto|].
      apply list_elem_of_singleton in Hin as [= -> ->].
      split; [reflexivity|by eexists].
    + assumption.
  - (* at_acquire *)
    destruct (lock_holder w) as [h|] eqn:Hl.
    + exists []. rewrite app_nil_r. split; try assumption.
      by rewrite Hl.
    + exists [Acquire _gnocchi_project_id_lock].
      assert (Hout : forall t', in_section (threads w t') = false).
      { intros t'. destruct (in_section (threads w t')) eqn:Hs; [|done].
        apply Hholder in Hs. discriminate. }
      split; simpl.
      * by rewrite Hh, app_assoc.
      * rewrite lock_discipline_app, Hd. unfold locked. by rewrite Hl.
      * intros t'. unfold move.
        destruct (Nat.eqb_spec t' t) as [->|Hne]; [done|].
        rewrite Hout. split; [discriminate|]. congruence.
      * rewrite count_snoc, Hfound. simpl. unfold project_found. simpl.
        rewrite Hl. unfold move. rewrite Nat.eqb_refl.
        destruct (_gnocchi_project_id (shared w)); lia.
      * others t' t.
      * others t' t. intros p Hp. destruct (Hstore _ _ Hp).
        split; [done|]. apply in_or_app. by left.
      * others t' t. intros [|[|]]; discriminate.
      * others t' t.
      * assumption.
      * intros p Hp. apply in_or_app. left. auto.
  - (* at_recheck *)
    assert (Hl : lock_holder w = Some t) by (by apply Ht).
    destruct (_gnocchi_project_id (shared w)) as [p|] eqn:Hm.
    + exists []. rewrite app_nil_r. split; simpl; rewrite ?Hm.
      * assumption.
      * assumption.
      * others t' t. exact Ht.
      * rewrite Hfound. unfold project_found. simpl. by rewrite Hm.
      * others t' t.
      * others t' t.
      * others t' t. intros _. rewrite ?Hm. by eexists.
      * others t' t.
      * assumption.
      * assumption.
    + exists []. rewrite app_nil_r. split; simpl; rewrite ?Hm.
      * assumption.
      * assumption.
      * others t' t. exact Ht.
      * rewrite Hfound. unfold project_found. simpl. rewrite Hm, Hl.
        unfold move. by rewrite Nat.eqb_refl, Hpc.
      * others t' t. done.
      * others t' t.
      * others t' t. intros [|[|]]; discriminate.
      * others t' t.
      * assumption.
      * assumption.
  - (* at_find *)
    assert (Hl : lock_holder w = Some t) by (by apply Ht).
    assert (Hm : _gnocchi_project_id (shared w) = None) by eauto.
    exists [TenantsFind (filter_project conf)
              (tenants_find env (history (shared w)) (filter_project conf))].
    split; simpl.
    + rewrite Hh, app_assoc. reflexivity.
    + rewrite lock_discipline_app, Hd. unfold locked. by rewrite Hl.
    + others t' t. destruct (tenants_find env _ _); exact Ht.
    + rewrite count_snoc, Hfound. unfold project_found. simpl.
      rewrite Hm, Hl, Hpc. unfold move. rewrite Nat.eqb_refl.
      by destruct (tenants_find env _ _).
    + others t' t. by destruct (tenants_find env _ _).
    + intros t' p. simpl. unfold move.
      destruct (Nat.eqb_spec t' t) as [->|Hne].
      * destruct (tenants_find env _ _) as [q|e] eqn:Hq; [|discriminate].
        intros [= ->]. split; [done|]. apply in_or_app. right. by left.
      * intros Hp. destruct (Hstore _ _ Hp).
        split; [done|]. apply in_or_app. by left.
    + others t' t. by destruct (tenants_find env _ _); intros [|[|]].
    + others t' t. by destruct (tenants_find env _ _).
    + assumption.
    + intros p Hp. apply in_or_app. left. auto.
  - (* at_log_exception *)
    assert (Hl : lock_holder w = Some t) by (by apply Ht).
    eexists [_]. split; simpl.
    + rewrite Hh, app_assoc. reflexivity.
    + rewrite lock_discipline_app, Hd. unfold locked. by rewrite Hl.
    + others t' t. exact Ht.
    + rewrite count_snoc, Hfound. unfold project_found. simpl. rewrite Hl, Hpc.
      unfold move. rewrite Nat.eqb_refl. simpl.
      destruct (_gnocchi_project_id (shared w)); lia.
    + others t' t.
    + others t' t. intros p Hp. destruct (Hstore _ _ Hp).
      split; [done|]. apply in_or_app. by left.
    + others t' t. intros [|[|]]; discriminate.
    + others t' t.
    + assumption.
    + intros p Hp. apply in_or_app. left. auto.
  - (* at_store *)
    assert (Hl : lock_holder w = Some t) by (by apply Ht).
    destruct (Hstore _ _ Hpc) as [Hm Hin].
    exists []. rewrite app_nil_r. split; simpl.
    + assumption.
    + assumption.
    + others t' t. exact Ht.
    + rewrite Hfound. unfold project_found. simpl. by rewrite Hm, Hl, Hpc.
    + others t' t. intros Hf. specialize (Hothers t' Hl n).
      by rewrite Hf in Hothers.
    + others t' t. intros p Hf. specialize (Hothers t' Hl n).
      by rewrite Hf in Hothers.
    + eauto.
    + others t' t. intros x Hf. specialize (Hothers t' Hl n).
      by rewrite Hf in Hothers.
    + intros t' x Hr. destruct (Hreads t' x Hr) as [-> Hs].
      rewrite Hm in Hs. by destruct Hs.
    + by intros p [= <-].
  - (* at_log_debug *)
    assert (Hl : lock_holder w = Some t) by (by apply Ht).
    destruct (Hstored t (or_intror (or_introl Hpc))) as [q Hm]. rewrite Hm.
    eexists [_]. split; simpl; rewrite <- ?Hm.
    + rewrite Hh, app_assoc. reflexivity.
    + rewrite lock_discipline_app, Hd. unfold locked. by rewrite Hl.
    + others t' t. exact Ht.
    + rewrite count_snoc, Hfound. unfold project_found. simpl. rewrite Hm.
      simpl. lia.
    + others t' t.
    + others t' t. intros p Hp. destruct (Hstore _ _ Hp).
      split; [done|]. apply in_or_app. by left.
    + others t' t. intros _. rewrite ?Hm. by eexists.
    + others t' t.
    + assumption.
    + intros p Hp. apply in_or_app. left. auto.
  - (* at_return *)
    assert (Hl : lock_holder w = Some t) by (by apply Ht).
    destruct (Hstored t (or_intror (or_intror Hpc))) as [q Hm].
    exists []. rewrite app_nil_r. split; simpl.
    + assumption.
    + assumption.
    + others t' t. exact Ht.
    + rewrite Hfound. unfold project_found. simpl. by rewrite Hm.
    + others t' t.
    + others t' t.
    + others t' t. intros [|[|]]; discriminate.
    + others t' t. intros x [= <-]. by rewrite Hm.
    + assumption.
    + assumption.
  - (* at_release *)
    assert (Hl : lock_holder w = Some t) by (by apply Ht).
    exists [Release _gnocchi_project_id_lock]. split; simpl.
    + by rewrite Hh, app_assoc.
    + rewrite lock_discipline_app, Hd. unfold locked. by rewrite Hl.
    + intros t'. unfold move.
      destruct (Nat.eqb_spec t' t) as [->|Hne]; [done|].
      rewrite (Hothers t' Hl Hne). done.
    + rewrite count_snoc, Hfound. unfold project_found. simpl. rewrite Hl, Hpc.
      destruct (_gnocchi_project_id (shared w)); simpl; lia.
    + others t' t.
    + others t' t. intros p Hp. destruct (Hstore _ _ Hp).
      split; [done|]. apply in_or_app. by left.
    + others t' t. intros [|[|]]; discriminate.
    + others t' t.
    + intros t' x Hin. apply elem_of_app in Hin as [Hin|Hin]; [by eauto|].
      apply list_elem_of_singleton in Hin as [= -> <-]. eauto.
    + intros p Hp. apply in_or_app. left. auto.
Qed.

Lemma invariant_exec (d : Dispatcher) (schedule : list nat) (w : World)
    (evs : list Event) :
  invariant conf d w evs ->
  exists evs', invariant conf d (exec env conf schedule w) (evs ++ evs').
Proof.
  revert w evs. induction schedule as [|t schedule IH]; intros w evs Hinv.
  - exists []. by rewrite app_nil_r.
  - destruct (invariant_step d w evs t Hinv) as (e1 & H1).
    destruct (IH _ _ H1) as (e2 & H2).
    exists (e1 ++ e2). by rewrite app_assoc.
Qed.

(** Once the project is stored, a read is one test of the attribute and
    its return: no thread leaves these two points, and nothing else
    changes. *)
Lemma exec_known (d : Dispatcher) (p : string) (schedule : list nat)
    (w : World) :
  _gnocchi_project_id d = Some p ->
  shared w = d -> lock_holder w = None ->
  (forall t, threads w t = at_check \/ threads w t = at_fast_return) ->
  let w' := exec env conf schedule w in
  shared w' = d /\ lock_holder w' = None
  /\ (forall t, threads w' t = at_check \/ threads w' t = at_fast_return)
  /\ exists rs, reads w' = reads w ++ rs
                /\ Forall (fun r => r.2 = Ok (Some p)) rs.
Proof.
  intros Hp. revert w.
  induction schedule as [|t schedule IH]; intros w Hd Hl Hpcs; cbn zeta.
  - split; [exact Hd|]. split; [exact Hl|]. split; [exact Hpcs|].
    exists []. by rewrite app_nil_r.
  - cbn [exec].
    assert (Hstep : shared (step env conf t w) = d
                    /\ lock_holder (step env conf t w) = None
                    /\ (forall t', threads (step env conf t w) t' = at_check
                                   \/ threads (step env conf t w) t'
                                      = at_fast_return)
                    /\ exists rs,
                         reads (step env conf t w) = reads w ++ rs
                         /\ Forall (fun r => r.2 = Ok (Some p)) rs).
    { unfold step. destruct (Hpcs t) as [-> | ->]; rewrite ?Hd, ?Hp; simpl.
      - split; [reflexivity|]. split; [exact Hl|]. split.
        + intros t'. unfold move. destruct (Nat.eqb t' t); auto.
        + exists []. by rewrite app_nil_r.
      - split; [reflexivity|]. split; [exact Hl|]. split.
        + intros t'. unfold move. destruct (Nat.eqb t' t); auto.
        + exists [(t, Ok (Some p))].
          split; [reflexivity|]. by repeat constructor. }
    destruct Hstep as (Hd1 & Hl1 & Hpcs1 & rs1 & Hr1 & Hall1).
    destruct (IH _ Hd1 Hl1 Hpcs1) as (Hd2 & Hl2 & Hpcs2 & rs2 & Hr2 & Hall2).
    split; [exact Hd2|]. split; [exact Hl2|]. split; [exact Hpcs2|].
    exists (rs1 ++ rs2). rewrite Hr2, Hr1, app_assoc.
    split; [reflexivity|]. by apply Forall_app.
Qed.

Lemma exec_replicate_S (n t : nat) (w : World) :
  exec env conf (replicate (S n) t) w
  = exec env conf (replicate n t) (step env conf t w).
Proof. reflexivity. Qed.

Lemma move_same (t : nat) (pc : Pc) (others : nat -> Pc) :
  move t pc others t = pc.
Proof. unfold move. by rewrite Nat.eqb_refl. Qed.

(** One step of thread [t] in the equation [Hw] of the world, evaluated
    before the next is looked at. *)
Ltac one_step Hw :=
  rewrite exec_replicate_S in Hw; unfold step at 1 in Hw;
  cbn [threads shared lock_holder reads start _gnocchi_project_id history]
    in Hw;
  rewrite ?move_same in Hw;
  cbn [threads shared lock_holder reads start _gnocchi_project_id history]
    in Hw.

(** A thread that reads the property while no other thread moves does what
    [gnocchi_project_id] does. *)
Lemma read_alone (d : Dispatcher) (t : nat) :
  exists n,
    let w := exec env conf (replicate n t) (start d) in
    shared w = (gnocchi_project_id env conf d).2
    /\ lock_holder w = None
    /\ reads w
       = [(t, match (gnocchi_project_id env conf d).1 with
              | Ok p => Ok (Some p)
              | Raise e => Raise e
              end)].
Proof.
  destruct (_gnocchi_project_id d) as [p|] eqn:Hp.
  - exists 2. rewrite (gnocchi_project_id_memo d p Hp). cbn zeta.
    remember (exec env conf (replicate 2 t) (start d)) as w eqn:Hw.
    one_step Hw. rewrite Hp in Hw. one_step Hw. rewrite Hp in Hw.
    cbn [exec replicate] in Hw. subst w. repeat split.
  - rewrite (gnocchi_project_id_resolve d Hp). cbn zeta.
    destruct (tenants_find env (history d ++ [Acquire _gnocchi_project_id_lock])
                (filter_project conf)) as [p|e] eqn:Hfind.
    + exists 8.
      remember (exec env conf (replicate 8 t) (start d)) as w eqn:Hw.
      one_step Hw. rewrite Hp in Hw. one_step Hw. one_step Hw.
      rewrite Hp in Hw. one_step Hw. rewrite Hfind in Hw.
      one_step Hw. one_step Hw. one_step Hw. one_step Hw.
      cbn [exec replicate] in Hw. subst w. cbn [shared lock_holder reads app].
      rewrite <- !app_assoc. repeat split.
    + exists 6.
      remember (exec env conf (replicate 6 t) (start d)) as w eqn:Hw.
      one_step Hw. rewrite Hp in Hw. one_step Hw. one_step Hw.
      rewrite Hp in Hw. one_step Hw. rewrite Hfind in Hw.
      one_step Hw. one_step Hw.
      cbn [exec replicate] in Hw. subst w. cbn [shared lock_holder reads app].
      unfold extend. rewrite <- !app_assoc, Hp. repeat split.
Qed.

(** Reads of the property by any number of threads, interleaved in any
    way. *)
Lemma reads_by_threads (d : Dispatcher) (schedule : list nat) :
  let w := exec env conf schedule (start d) in
  exists evs,
    history (shared w) = history d ++ evs
    /\ lock_discipline false evs = Some (locked w)
    /\ count is_found evs <= 1
    /\ (forall t x, (t, Ok x) ∈ reads w ->
          exists p, x = Some p /\ _gnocchi_project_id (shared w) = Some p)
    /\ (forall p, _gnocchi_project_id d = Some p -> shared w = d)
    /\ (forall p, _gnocchi_project_id d = None ->
          _gnocchi_project_id (shared w) = Some p ->
          In (TenantsFind (filter_project conf) (Ok p)) evs).
Proof.
  cbn zeta. destruct (_gnocchi_project_id d) as [p|] eqn:Hp.
  - destruct (exec_known d p schedule (start d) Hp eq_refl eq_refl)
      as (Hd & Hl & _ & rs & Hrs & Hall); [by left|].
    rewrite Hd. exists []. rewrite app_nil_r. split; [reflexivity|].
    split; [unfold locked; by rewrite Hl|].
    split; [unfold count; simpl; lia|]. split; [|split; [done|done]].
    intros t x Hin. rewrite Hrs in Hin. simpl in Hin.
    rewrite Forall_forall in Hall.
    specialize (Hall _ Hin). simpl in Hall. injection Hall as ->. eauto.
  - destruct (invariant_exec d schedule (start d) [] (invariant_start d Hp))
      as (evs & Hinv).
    simpl in Hinv. destruct Hinv as [Hh Hd _ Hfound _ _ _ _ Hreads Hmemo].
    exists evs. split; [exact Hh|]. split; [exact Hd|].
    split; [rewrite Hfound; destruct (project_found _); lia|].
    split; [|split; [done|]].
    + intros t x Hin. destruct (Hreads t x Hin) as [-> [q Hq]]. eauto.
    + intros q _. apply Hmemo.
Qed.

(** *** The self-activity filter *)

Lemma _is_gnocchi_activity_memo (d : Dispatcher) (p : string) (s : Sample) :
  filter_service_activity conf = true ->
  _gnocchi_project_id d = Some p ->
  _is_gnocchi_activity env conf s d = (Ok (gnocchi_activity env conf p s), d).
Proof.
  intros Hf Hp. unfold _is_gnocchi_activity, gnocchi_activity. rewrite Hf.
  unfold_M. rewrite (gnocchi_project_id_memo d p Hp).
  case_bool_decide; simpl; [reflexivity|].
  by rewrite (gnocchi_project_id_memo d p Hp).
Qed.

Lemma drop_gnocchi_activity_memo (d : Dispatcher) (p : string)
    (data : list Sample) :
  filter_service_activity conf = true ->
  _gnocchi_project_id d = Some p ->
  drop_gnocchi_activity env conf data d
  = (Ok (List.filter (fun s => negb (gnocchi_activity env conf p s)) data), d).
Proof.
  intros Hf Hp. induction data as [|s data IH]; simpl; [reflexivity|].
  unfold mbind, M_bind. rewrite (_is_gnocchi_activity_memo d p s Hf Hp).
  fold (@mbind M _). unfold mbind, M_bind, mret, M_ret in *. rewrite IH.
  by destruct (gnocchi_activity env conf p s).
Qed.

Lemma drop_gnocchi_activity_disabled (d : Dispatcher) (data : list Sample) :
  filter_service_activity conf = false ->
  drop_gnocchi_activity env conf data d = (Ok data, d).
Proof.
  intros Hf. induction data as [|s data IH]; simpl; [reflexivity|].
  unfold _is_gnocchi_activity. rewrite Hf.
  unfold mbind, M_bind, mret, M_ret in *. by rewrite IH.
Qed.

Lemma drop_gnocchi_activity_resolves (d : Dispatcher) (s : Sample)
    (data : list Sample) :
  filter_service_activity conf = true ->
  drop_gnocchi_activity env conf (s :: data) d
  = match gnocchi_project_id env conf d with
    | (Ok p, d') =>
        (Ok (List.filter (fun s => negb (gnocchi_activity env conf p s))
               (s :: data)), d')
    | (Raise e, d') => (Raise e, d')
    end.
Proof.
  intros Hf.
  destruct (gnocchi_project_id env conf d) as [[p|e] d'] eqn:Hrun.
  - pose proof (gnocchi_project_id_sets_memo _ _ _ Hrun) as Hp.
    assert (Hs : _is_gnocchi_activity env conf s d
                 = (Ok (gnocchi_activity env conf p s), d')).
    { unfold _is_gnocchi_activity, gnocchi_activity. rewrite Hf.
      unfold mbind, M_bind, mret, M_ret. rewrite Hrun.
      case_bool_decide; simpl; [reflexivity|].
      by rewrite (gnocchi_project_id_memo d' p Hp). }
    cbn [drop_gnocchi_activity]. unfold mbind at 1, M_bind at 1. rewrite Hs.
    unfold mbind, M_bind, mret, M_ret.
    rewrite (drop_gnocchi_activity_memo d' p data Hf Hp). simpl.
    by destruct (gnocchi_activity env conf p s).
  - cbn [drop_gnocchi_activity]. unfold _is_gnocchi_activity. rewrite Hf.
    unfold mbind, M_bind, mret, M_ret. by rewrite Hrun.
Qed.


Lemma new_events_same (d : Dispatcher) : new_events d d = [].
Proof. unfold new_events. apply drop_all. Qed.

Lemma new_events_extend (d : Dispatcher) (evs : list Event) :
  new_events d (extend d evs) = evs.
Proof. unfold new_events, extend. simpl. apply drop_app_length. Qed.

(** C5, as the code has it. With [filter_service_activity] off nothing is
    dropped and the project id is not resolved. With it on, a non-empty
    batch makes the dispatcher read its project id, which is looked up at
    most once and kept; a failed lookup is raised by [record_metering_data];
    otherwise exactly the samples of that project, and those of the
    resource of that id that match a "swift_account" definition, are
    dropped. An empty batch resolves nothing. The lookup is made between
    the acquisition and the release of [_gnocchi_project_id_lock], which is
    released also when the lookup fails. The memo is thread-safe: a thread
    alone does what is said above; and however the steps of any number of
    threads that read the project id interleave, the lock is held by one
    thread at a time and the identity service is asked only under it, the
    project is found at most once, every read that returns returns the
    project that is stored, which is the one that was found, and once the
    project is stored a read touches neither the lock nor the identity
    service. *)
Theorem self_activity_filter (data : list Sample) (d : Dispatcher) :
  let kept := drop_gnocchi_activity env conf data d in
  (filter_service_activity conf = false -> kept = (Ok data, d))
  /\ (data = [] -> kept = (Ok [], d))
  /\ (filter_service_activity conf = true -> data <> [] ->
      match gnocchi_project_id env conf d with
      | (Ok p, d') =>
          kept = (Ok (List.filter
                        (fun s => negb (gnocchi_activity env conf p s)) data),
                  d')
          /\ _gnocchi_project_id d' = Some p
      | (Raise e, d') =>
          kept = (Raise e, d')
          /\ record_metering_data env conf data d = (Raise e, d')
      end)
  /\ (forall p, filter_service_activity conf = true ->
                _gnocchi_project_id d = Some p ->
                kept = (Ok (List.filter
                              (fun s => negb (gnocchi_activity env conf p s))
                              data), d))
  /\ count is_tenants_find (new_events d kept.2) <= 1
  /\ lock_discipline false (new_events d kept.2) = Some false
  /\ (forall t, exists n,
        let w := exec env conf (replicate n t) (start d) in
        shared w = (gnocchi_project_id env conf d).2
        /\ lock_holder w = None
        /\ reads w
           = [(t, match (gnocchi_project_id env conf d).1 with
                  | Ok p => Ok (Some p)
                  | Raise e => Raise e
                  end)])
  /\ (forall schedule,
        let w := exec env conf schedule (start d) in
        exists evs,
          history (shared w) = history d ++ evs
          /\ lock_discipline false evs = Some (locked w)
          /\ count is_found evs <= 1
          /\ (forall t x, (t, Ok x) ∈ reads w ->
                exists p, x = Some p
                          /\ _gnocchi_project_id (shared w) = Some p)
          /\ (forall p, _gnocchi_project_id d = Some p -> shared w = d)
          /\ (forall p, _gnocchi_project_id d = None ->
                _gnocchi_project_id (shared w) = Some p ->
                In (TenantsFind (filter_project conf) (Ok p)) evs)).
Proof.
  cbn zeta.
  split; [apply drop_gnocchi_activity_disabled|].
  split; [by intros ->|].
  split.
  { intros Hf Hne. destruct data as [|s data']; [done|].
    rewrite (drop_gnocchi_activity_resolves d s data' Hf).
    destruct (gnocchi_project_id env conf d) as [[p|e] d'] eqn:Hrun.
    - split; [reflexivity|]. eapply gnocchi_project_id_sets_memo, Hrun.
    - split; [reflexivity|]. unfold record_metering_data.
      unfold mbind at 1, M_bind at 1.
      rewrite (drop_gnocchi_activity_resolves d s data' Hf), Hrun.
      reflexivity. }
  split; [intros p Hf Hp; by apply drop_gnocchi_activity_memo|].
  assert (Hevents :
            (drop_gnocchi_activity env conf data d).2 = d
            \/ (drop_gnocchi_activity env conf data d).2
               = (gnocchi_project_id env conf d).2).
  { destruct (filter_service_activity conf) eqn:Hf.
    - destruct data as [|s data']; [by left|]. right.
      rewrite (drop_gnocchi_activity_resolves d s data' Hf).
      by destruct (gnocchi_project_id env conf d) as [[p|e] d'].
    - left. by rewrite (drop_gnocchi_activity_disabled d data Hf). }
  assert (Hread :
            count is_tenants_find
              (new_events d (gnocchi_project_id env conf d).2) <= 1
            /\ lock_discipline false
                 (new_events d (gnocchi_project_id env conf d).2)
               = Some false).
  { destruct (_gnocchi_project_id d) as [q|] eqn:Hq.
    - rewrite (gnocchi_project_id_memo d q Hq). simpl.
      rewrite new_events_same. unfold count. simpl. split; [lia|done].
    - rewrite (gnocchi_project_id_resolve d Hq). cbn zeta.
      unfold new_events.
      destruct (tenants_find env _ _); simpl; rewrite drop_app_length;
        unfold count; simpl; split; (lia || reflexivity). }
  split; [|split; [|split]].
  - destruct Hevents as [->| ->]; [|apply Hread].
    rewrite new_events_same. unfold count. simpl. lia.
  - destruct Hevents as [->| ->]; [|apply Hread].
    by rewrite new_events_same.
  - intros t. apply read_alone.
  - intros schedule. apply reads_by_threads.
Qed.

End DispatcherFacts.

(** ** The dispatcher: repair of a missing resource or metric *)

Section EnsureFacts.
Import Batching Gnocchi.
Context (env : Env) (conf : Conf).

Ltac unfold_M :=
  unfold mbind, mret, M_bind, M_ret, try_except, with_lock, log, emit, raise,
    getitem, call, cache_get_call in *.

Lemma extend_extend (d : Dispatcher) (a b : list Event) :
  extend (extend d a) b = extend d (a ++ b).
Proof. unfold extend. simpl. by rewrite app_assoc. Qed.

Lemma extend_nil (d : Dispatcher) : extend d [] = d.
Proof. destruct d. unfold extend. simpl. by rewrite app_nil_r. Qed.

Lemma call_run (c : GnocchiCall) (d : Dispatcher) :
  call env c d
  = (match gnocchi env (history d) c with
     | None => Ok tt
     | Some e => Raise e
     end,
     extend d [Gnocchi c (gnocchi env (history d) c)]).
Proof. unfold call, extend. by destruct (gnocchi env (history d) c). Qed.

Lemma _check_resource_cache_run (key : string) (resource : gmap string PyVal)
    (d : Dispatcher) :
  let h := py_hash env (delete "metrics" resource) in
  let cached := cache_get env (history d) key in
  _check_resource_cache env key resource d
  = (Ok (if bool_decide (cached = Some h) then None else Some h),
     extend d [CacheGet key cached]).
Proof.
  cbn zeta. unfold _check_resource_cache, extend. unfold_M. simpl.
  repeat case_bool_decide; try reflexivity; contradiction.
Qed.

(** The guarded call: a first read of the cache that finds the fresh hash
    (or a fresh hash that is 0) ends it; otherwise the lock is taken and
    the cache read again; a second read that finds the fresh hash ends it;
    otherwise the call is made, and the hash stored if the call returns. *)
Lemma cache_guarded_run (c : GnocchiCall) (recheck_hit first_hit : string)
    (resource : gmap string PyVal) (s : string) (d : Dispatcher) :
  resource !! "id" = Some (PStr s) ->
  let key := uuid5_hex env s in
  let h := py_hash env (delete "metrics" resource) in
  let first := cache_get env (history d) key in
  let locked := history d ++ [CacheGet key first; Acquire _gnocchi_resource_lock] in
  let second := cache_get env locked key in
  let raised := gnocchi env (locked ++ [CacheGet key second]) c in
  cache_guarded env c recheck_hit first_hit resource d
  = if bool_decide (first = Some h) || (h =? 0)%Z then
      (Ok tt, extend d [CacheGet key first; Log DEBUG first_hit])
    else if bool_decide (second = Some h) then
      (Ok tt,
       extend d [CacheGet key first; Acquire _gnocchi_resource_lock;
                 CacheGet key second; Log DEBUG recheck_hit;
                 Release _gnocchi_resource_lock])
    else
      match raised with
      | None =>
          (Ok tt,
           extend d [CacheGet key first; Acquire _gnocchi_resource_lock;
                     CacheGet key second; Gnocchi c None;
                     CacheSet key h 3600;
                     Release _gnocchi_resource_lock])
      | Some e =>
          (Raise e,
           extend d [CacheGet key first; Acquire _gnocchi_resource_lock;
                     CacheGet key second; Gnocchi c (Some e);
                     Release _gnocchi_resource_lock])
      end.
Proof.
  intros Hid. cbn zeta. unfold cache_guarded.
  unfold mbind at 1, M_bind at 1, getitem. rewrite Hid.
  unfold mret at 1, M_ret at 1. unfold cache_key_mangler.
  unfold mbind at 1, M_bind at 1, mret at 1, M_ret at 1.
  unfold mbind at 1, M_bind at 1. rewrite _check_resource_cache_run.
  cbn zeta.
  destruct (decide (cache_get env (history d) (uuid5_hex env s)
                    = Some (py_hash env (delete "metrics" resource))))
    as [Hfirst|Hfirst].
  { rewrite !(bool_decide_eq_true_2 _ Hfirst). simpl.
    unfold log, emit, extend. simpl. rewrite <- ?app_assoc. reflexivity. }
  rewrite !(bool_decide_eq_false_2 _ Hfirst). simpl.
  destruct (py_hash env (delete "metrics" resource) =? 0)%Z eqn:Hzero; simpl.
  { unfold log, emit, extend. simpl. rewrite <- ?app_assoc. reflexivity. }
  unfold with_lock, emit. simpl.
  unfold mbind at 1, M_bind at 1. rewrite _check_resource_cache_run.
  cbn zeta. unfold extend at 1 2. simpl. rewrite <- ?app_assoc. simpl.
  match goal with
  | |- context [bool_decide (?x = ?y)] => destruct (decide (x = y)) as [Hs|Hs]
  end.
  { rewrite !(bool_decide_eq_true_2 _ Hs).
    unfold log, emit, extend. simpl. rewrite <- ?app_assoc. reflexivity. }
  rewrite !(bool_decide_eq_false_2 _ Hs).
  rewrite Hzero. unfold mbind, M_bind. rewrite call_run. simpl.
  rewrite <- ?app_assoc. simpl.
  destruct (gnocchi env _ c) as [e|]; unfold extend; simpl;
    rewrite <- ?app_assoc; reflexivity.
Qed.

(** *** The repair *)

Lemma create_metric_unless_exists_run (rt : string)
    (resource : gmap string PyVal) (metric_name : string)
    (m : gmap string Policy) (policy : Policy) (rid : PyVal) (d : Dispatcher) :
  resource !! "metrics" = Some (PMetrics m) ->
  m !! metric_name = Some policy ->
  resource !! "id" = Some rid ->
  let c := create_metric rt rid metric_name policy in
  let raised := gnocchi env (history d) c in
  create_metric_unless_exists env rt resource metric_name d
  = (match raised with
     | None | Some MetricAlreadyExists => Ok tt
     | Some e => Raise e
     end,
     extend d [Gnocchi c raised]).
Proof.
  intros Hm Hp Hid. cbn zeta.
  unfold create_metric_unless_exists, metric_policy. unfold_M.
  rewrite Hm. simpl. rewrite Hp. simpl. rewrite Hid. simpl.
  destruct (gnocchi env (history d) _) as [[]|]; reflexivity.
Qed.

(** A metric matched by a pattern that is not its own name has no entry
    in [resource['metrics']]: the lookup raises [KeyError] and nothing is
    sent. *)
Lemma create_metric_unless_exists_undeclared (rt : string)
    (resource : gmap string PyVal) (metric_name : string)
    (m : gmap string Policy) (d : Dispatcher) :
  resource !! "metrics" = Some (PMetrics m) ->
  m !! metric_name = None ->
  create_metric_unless_exists env rt resource metric_name d
  = (Raise (KeyError metric_name), d).
Proof.
  intros Hm Hp. unfold create_metric_unless_exists, metric_policy. unfold_M.
  rewrite Hm. simpl. rewrite Hp. reflexivity.
Qed.

Lemma create_resource_unless_cached_run (rt : string)
    (resource : gmap string PyVal) :
  create_resource_unless_cached env conf rt resource
  = if cache conf
    then cache_guarded env (create_resource rt resource)
           "recheck resource cache hit for create %s"
           "recheck resource cache hit for create %s" resource
    else call env (create_resource rt resource).
Proof. reflexivity. Qed.

Lemma _ensure_resource_and_metric_run (rt : string)
    (resource : gmap string PyVal) (metric_name : string) (d : Dispatcher) :
  _ensure_resource_and_metric env conf rt resource metric_name d
  = match create_resource_unless_cached env conf rt resource d with
    | (Ok _, d1) => create_metric_unless_exists env rt resource metric_name d1
    | (Raise ResourceAlreadyExists, d1) =>
        match create_metric_unless_exists env rt resource metric_name d1 with
        | (Ok _, d2) =>
            create_metric_unless_exists env rt resource metric_name d2
        | (Raise e, d2) => (Raise e, d2)
        end
    | (Raise e, d1) => (Raise e, d1)
    end.
Proof.
  unfold _ensure_resource_and_metric. unfold_M.
  destruct (create_resource_unless_cached env conf rt resource d)
    as [[[]|[]] d1]; reflexivity.
Qed.

Ltac ensure_leaf :=
  simpl; rewrite ?extend_extend; simpl; rewrite ?new_events_extend; simpl;
  repeat match goal with |- _ /\ _ => split end;
  [ (* creation comes first without a cache *)
    intros Hc; first [discriminate | eexists _, _; reflexivity]
  | (* creation with a cache *)
    intros Hc Hnz;
    first
      [ discriminate
      | contradiction
      | split;
        [ intros [raised Hin]; simpl in Hin;
          first [ split; assumption | exfalso; intuition discriminate ]
        | intros [Hf1 Hs1];
          first [ contradiction | eexists; simpl; eauto 10 ] ] ]
  | (* at most one creation *)
    unfold count; simpl; lia
  | (* the metric after an existing resource *)
    intros Hin; simpl in Hin;
    first
      [ exfalso; intuition discriminate
      | eexists [], _, _; split; [reflexivity | simpl; eauto]
      | eexists [_; _; _], _, _; split; [reflexivity | simpl; eauto] ]
  | (* a repair that returns ends with the metric *)
    intros Hr;
    first [ discriminate | eexists; split; [reflexivity | auto] ]
  | (* MetricAlreadyExists is not raised by the metric *)
    intros Hr; first [ discriminate | simpl; eauto 10 ] ].

(** C3, as the code has it, for a metric whose policy is declared under
    its own name. Without a cache the repair first attempts
    [create_resource] with the resource and its metrics. With a cache (and
    a hash that is not 0) it attempts it exactly when the cached hash is
    absent or different at both reads, and not at all when the cached hash
    is the fresh one. It never attempts it twice. After
    [ResourceAlreadyExists] it attempts [create_metric]. A repair that
    returns has ended with an attempt of [create_metric], answered by
    success or by [MetricAlreadyExists]; [MetricAlreadyExists] is raised
    only if [create_resource] itself raised it. *)
Theorem repair_creates_resource_or_metric (rt : string)
    (resource : gmap string PyVal) (metric_name : string)
    (m : gmap string Policy) (policy : Policy) (s : string) (d : Dispatcher) :
  resource !! "metrics" = Some (PMetrics m) ->
  m !! metric_name = Some policy ->
  resource !! "id" = Some (PStr s) ->
  let cr := create_resource rt resource in
  let cm := create_metric rt (PStr s) metric_name policy in
  let key := uuid5_hex env s in
  let h := py_hash env (delete "metrics" resource) in
  let first := cache_get env (history d) key in
  let second :=
    cache_get env
      (history d ++ [CacheGet key first; Acquire _gnocchi_resource_lock]) key in
  let run := _ensure_resource_and_metric env conf rt resource metric_name d in
  let new := new_events d run.2 in
  (cache conf = false -> exists raised rest, new = Gnocchi cr raised :: rest)
  /\ (cache conf = true -> h <> 0%Z ->
      ((exists raised, In (Gnocchi cr raised) new)
       <-> first <> Some h /\ second <> Some h))
  /\ count is_create_resource new <= 1
  /\ (In (Gnocchi cr (Some ResourceAlreadyExists)) new ->
      exists pre raised post,
        new = pre ++ Gnocchi cr (Some ResourceAlreadyExists) :: post
        /\ In (Gnocchi cm raised) post)
  /\ (run.1 = Ok tt ->
      exists raised,
        last new = Some (Gnocchi cm raised)
        /\ (raised = None \/ raised = Some MetricAlreadyExists))
  /\ (run.1 = Raise MetricAlreadyExists ->
      In (Gnocchi cr (Some MetricAlreadyExists)) new).
Proof.
  intros Hm Hp Hid. cbn zeta.
  rewrite _ensure_resource_and_metric_run, create_resource_unless_cached_run.
  destruct (cache conf) eqn:Hcache.
  - rewrite (cache_guarded_run _ _ _ _ s d Hid). cbn zeta.
    destruct (decide (cache_get env (history d) (uuid5_hex env s)
                      = Some (py_hash env (delete "metrics" resource))))
      as [Hfirst|Hfirst].
    { rewrite (bool_decide_eq_true_2 _ Hfirst). simpl.
      rewrite (create_metric_unless_exists_run rt resource metric_name m
                 policy (PStr s) _ Hm Hp Hid). cbn zeta.
      destruct (gnocchi env _ (create_metric _ _ _ _)) as [[]|]; ensure_leaf. }
    rewrite (bool_decide_eq_false_2 _ Hfirst). simpl.
    destruct (py_hash env (delete "metrics" resource) =? 0)%Z eqn:Hzero.
    { apply Z.eqb_eq in Hzero.
      rewrite (create_metric_unless_exists_run rt resource metric_name m
                 policy (PStr s) _ Hm Hp Hid). cbn zeta.
      destruct (gnocchi env _ (create_metric _ _ _ _)) as [[]|]; ensure_leaf. }
    apply Z.eqb_neq in Hzero.
    match goal with
    | |- context [bool_decide (?x = ?y)] => destruct (decide (x = y)) as [Hs|Hs]
    end.
    { rewrite (bool_decide_eq_true_2 _ Hs).
      rewrite (create_metric_unless_exists_run rt resource metric_name m
                 policy (PStr s) _ Hm Hp Hid). cbn zeta.
      destruct (gnocchi env _ (create_metric _ _ _ _)) as [[]|]; ensure_leaf. }
    rewrite (bool_decide_eq_false_2 _ Hs).
    destruct (gnocchi env _ (create_resource _ _)) as [[]|];
      rewrite ?(create_metric_unless_exists_run rt resource metric_name m
                  policy (PStr s) _ Hm Hp Hid); cbn zeta;
      try (destruct (gnocchi env _ (create_metric _ _ _ _)) as [[]|];
           rewrite ?(create_metric_unless_exists_run rt resource metric_name m
                       policy (PStr s) _ Hm Hp Hid); cbn zeta;
           try (destruct (gnocchi env _ (create_metric _ _ _ _)) as [[]|]));
      ensure_leaf.
  - rewrite call_run.
    destruct (gnocchi env _ (create_resource _ _)) as [[]|];
      rewrite ?(create_metric_unless_exists_run rt resource metric_name m
                  policy (PStr s) _ Hm Hp Hid); cbn zeta;
      try (destruct (gnocchi env _ (create_metric _ _ _ _)) as [[]|];
           rewrite ?(create_metric_unless_exists_run rt resource metric_name m
                       policy (PStr s) _ Hm Hp Hid); cbn zeta;
           try (destruct (gnocchi env _ (create_metric _ _ _ _)) as [[]|]));
      ensure_leaf.
Qed.

End EnsureFacts.

(** ** The dispatcher: post, repair and retry *)

Section RepairFacts.
Import Batching Gnocchi.
Context (env : Env) (conf : Conf).

(** What a repair appends: no post, no error record, and at most one
    [create_resource]. *)
Lemma create_metric_unless_exists_events (rt : string)
    (resource : gmap string PyVal) (metric_name : string) (d : Dispatcher) :
  exists evs,
    (create_metric_unless_exists env rt resource metric_name d).2 = extend d evs
    /\ Forall (fun e => is_post e || is_error_log e || is_create_resource e
                        = false) evs.
Proof.
  unfold create_metric_unless_exists, metric_policy, try_except, getitem.
  unfold mbind, M_bind, mret, M_ret, raise.
  destruct (resource !! "metrics") as [[| |m]|]; simpl;
    try (exists []; split; [by rewrite extend_nil|constructor]).
  destruct (m !! metric_name) as [policy|]; simpl;
    try (exists []; split; [by rewrite extend_nil|constructor]).
  destruct (resource !! "id") as [rid|]; simpl;
    try (exists []; split; [by rewrite extend_nil|constructor]).
  rewrite call_run.
  exists [Gnocchi (create_metric rt rid metric_name policy)
            (gnocchi env (history d) (create_metric rt rid metric_name policy))].
  split; [|repeat constructor].
  destruct (gnocchi env (history d) _) as [[]|]; reflexivity.
Qed.

Lemma create_resource_unless_cached_events (rt : string)
    (resource : gmap string PyVal) (d : Dispatcher) :
  exists evs,
    (create_resource_unless_cached env conf rt resource d).2 = extend d evs
    /\ Forall (fun e => is_post e || is_error_log e = false) evs
    /\ count is_create_resource evs <= 1.
Proof.
  rewrite create_resource_unless_cached_run. destruct (cache conf).
  - destruct (resource !! "id") as [[| s |m]|] eqn:Hid.
    + exists []. unfold cache_guarded, getitem, mbind, M_bind. rewrite Hid.
      simpl. rewrite extend_nil.
      split; [reflexivity|split; [constructor|unfold count; simpl; lia]].
    + rewrite (cache_guarded_run env _ _ _ _ s d Hid). cbn zeta.
      destruct (_ || _); [|destruct (bool_decide _);
                            [|destruct (gnocchi env _ _)]];
        eexists; (split; [reflexivity|]); split;
        try (repeat constructor); unfold count; simpl; lia.
    + exists []. unfold cache_guarded, getitem, mbind, M_bind. rewrite Hid.
      simpl. rewrite extend_nil.
      split; [reflexivity|split; [constructor|unfold count; simpl; lia]].
    + exists []. unfold cache_guarded, getitem, mbind, M_bind. rewrite Hid.
      simpl. rewrite extend_nil.
      split; [reflexivity|split; [constructor|unfold count; simpl; lia]].
  - rewrite call_run. eexists. split; [reflexivity|].
    split; [repeat constructor|unfold count; simpl; lia].
Qed.

Lemma count_app (p : Event -> bool) (a b : list Event) :
  count p (a ++ b) = count p a + count p b.
Proof. unfold count. by rewrite List.filter_app, length_app. Qed.

Lemma count_none (p : Event -> bool) (l : list Event) :
  Forall (fun e => p e = false) l -> count p l = 0.
Proof.
  unfold count. induction 1 as [|e l He _ IH]; simpl; [reflexivity|].
  by rewrite He.
Qed.

Lemma _ensure_resource_and_metric_events (rt : string)
    (resource : gmap string PyVal) (metric_name : string) (d : Dispatcher) :
  exists evs,
    (_ensure_resource_and_metric env conf rt resource metric_name d).2
    = extend d evs
    /\ count is_post evs = 0
    /\ count is_error_log evs = 0
    /\ count is_create_resource evs <= 1.
Proof.
  assert (Hquiet : forall evs,
             Forall (fun e => is_post e || is_error_log e
                              || is_create_resource e = false) evs ->
             count is_post evs = 0 /\ count is_error_log evs = 0
             /\ count is_create_resource evs = 0).
  { intros evs Hall. repeat split; apply count_none;
      (eapply Forall_impl; [exact Hall|]); simpl; intros e He;
      destruct (is_post e), (is_error_log e), (is_create_resource e);
      simpl in *; congruence. }
  assert (Hquiet' : forall evs,
             Forall (fun e => is_post e || is_error_log e = false) evs ->
             count is_post evs = 0 /\ count is_error_log evs = 0).
  { intros evs Hall. split; apply count_none;
      (eapply Forall_impl; [exact Hall|]); simpl; intros e He;
      destruct (is_post e), (is_error_log e); simpl in *; congruence. }
  rewrite _ensure_resource_and_metric_run.
  destruct (create_resource_unless_cached_events rt resource d)
    as (e1 & H1 & F1 & C1).
  destruct (Hquiet' e1 F1) as [P1 L1].
  destruct (create_resource_unless_cached env conf rt resource d)
    as [r1 d1]. simpl in H1. subst d1.
  destruct (create_metric_unless_exists_events rt resource metric_name
              (extend d e1)) as (e2 & H2 & F2).
  destruct (Hquiet e2 F2) as (P2 & L2 & C2).
  destruct r1 as [[]|exn].
  - exists (e1 ++ e2). rewrite H2, extend_extend, !count_app.
    repeat split; lia.
  - destruct exn; try (exists e1; repeat split; [assumption..]).
    destruct (create_metric_unless_exists env rt resource metric_name
                (extend d e1)) as [r2 d2]. simpl in H2. subst d2.
    destruct r2 as [[]|exn2].
    + destruct (create_metric_unless_exists_events rt resource
                  metric_name (extend (extend d e1) e2)) as (e3 & H3 & F3).
      destruct (Hquiet e3 F3) as (P3 & L3 & C3).
      exists (e1 ++ e2 ++ e3). rewrite H3, !extend_extend, !count_app.
      rewrite <- ?app_assoc. repeat split; lia.
    + exists (e1 ++ e2). simpl. rewrite extend_extend, !count_app.
      repeat split; lia.
Qed.

(** The post, the repair and the retry, spelled out. *)
Lemma post_with_repair_run (rt rid : string) (resource : gmap string PyVal)
    (metric_name : string) (measures : list Measure) (d : Dispatcher) :
  let post := post_measure rt rid metric_name measures in
  post_with_repair env conf rt rid resource metric_name measures d
  = match gnocchi env (history d) post with
    | None => (Ok tt, extend d [Gnocchi post None])
    | Some NoSuchMetric =>
        match _ensure_resource_and_metric env conf rt resource metric_name
                (extend d [Gnocchi post (Some NoSuchMetric)]) with
        | (Raise e, d2) => (Raise e, d2)
        | (Ok _, d2) =>
            match gnocchi env (history d2) post with
            | None => (Ok tt, extend d2 [Gnocchi post None])
            | Some NoSuchMetric =>
                (Ok tt,
                 extend d2
                   [Gnocchi post (Some NoSuchMetric);
                    Log ERROR
                      "Fail to post measures for %(resource_id)s/%(metric_name)s"])
            | Some e => (Raise e, extend d2 [Gnocchi post (Some e)])
            end
        end
    | Some e => (Raise e, extend d [Gnocchi post (Some e)])
    end.
Proof.
  cbn zeta. unfold post_with_repair.
  unfold try_except at 1. rewrite call_run.
  destruct (gnocchi env (history d) _) as [[]|]; try reflexivity.
  unfold mbind, M_bind.
  destruct (_ensure_resource_and_metric env conf rt resource metric_name _)
    as [[[]|e] d2]; [|reflexivity].
  unfold try_except. rewrite call_run.
  destruct (gnocchi env (history d2) _) as [[]|]; try reflexivity.
  unfold log, emit, extend. simpl. by rewrite <- app_assoc.
Qed.

(** C2, as the code has it. A first post answered [NoSuchMetric] is
    followed by one run of the repair. If the repair raises, its exception
    leaves the group and nothing is posted again. If the repair returns,
    the post is made once more and that is all: success ends the group; a
    second [NoSuchMetric] is logged as one error and ends the group
    normally, so that the loop goes on with the next meter group; any other
    exception is raised. The repair itself posts nothing, logs no error
    and creates at most one resource. *)
Theorem unknown_metric_is_repaired_once_and_retried_once
    (rt rid : string) (resource : gmap string PyVal) (metric_name : string)
    (measures : list Measure) (d : Dispatcher) :
  let post := post_measure rt rid metric_name measures in
  gnocchi env (history d) post = Some NoSuchMetric ->
  let unknown := Gnocchi post (Some NoSuchMetric) in
  let repair :=
    _ensure_resource_and_metric env conf rt resource metric_name
      (extend d [unknown]) in
  let run := post_with_repair env conf rt rid resource metric_name measures d in
  let new := new_events d run.2 in
  exists repair_events,
    repair.2 = extend d (unknown :: repair_events)
    /\ count is_post repair_events = 0
    /\ count is_error_log repair_events = 0
    /\ count is_create_resource repair_events <= 1
    /\ count is_post new = (if is_ok repair.1 then 2 else 1)
    /\ match repair.1 with
       | Raise e => run.1 = Raise e /\ new = unknown :: repair_events
       | Ok _ =>
           match gnocchi env (history repair.2) post with
           | None =>
               run.1 = Ok tt
               /\ new = unknown :: repair_events ++ [Gnocchi post None]
           | Some NoSuchMetric =>
               run.1 = Ok tt
               /\ new = unknown :: repair_events
                        ++ [unknown;
                            Log ERROR
                              "Fail to post measures for %(resource_id)s/%(metric_name)s"]
           | Some e =>
               run.1 = Raise e
               /\ new = unknown :: repair_events ++ [Gnocchi post (Some e)]
           end
       end.
Proof.
  intros post Hfirst unknown repair run new. subst run new repair.
  rewrite post_with_repair_run. fold post. rewrite Hfirst. fold unknown.
  destruct (_ensure_resource_and_metric_events rt resource metric_name
              (extend d [unknown])) as (evs & Hd & Hp & Hl & Hc).
  exists evs. rewrite extend_extend in Hd. simpl in Hd.
  destruct (_ensure_resource_and_metric env conf rt resource metric_name
              (extend d [unknown])) as [r d2]. simpl in Hd. subst d2. simpl.
  repeat (split; [assumption || reflexivity|]).
  assert (Hpost : forall tail,
             count is_post (unknown :: evs ++ tail) = 1 + count is_post tail).
  { intros tail. change (unknown :: evs ++ tail) with ([unknown] ++ evs ++ tail).
    rewrite !count_app, Hp. reflexivity. }
  destruct r as [[]|e]; simpl.
  - destruct (gnocchi env (history d ++ unknown :: evs) post) as [[]|];
      simpl; rewrite extend_extend, new_events_extend; simpl;
      rewrite Hpost; repeat split; reflexivity.
  - rewrite new_events_extend. split; [|split; reflexivity].
    specialize (Hpost []). rewrite app_nil_r in Hpost. rewrite Hpost.
    reflexivity.
Qed.

End RepairFacts.

(** ** The dispatcher: reconciliation of the attributes *)

Section ReconcileFacts.
Import Batching Gnocchi.
Context (env : Env) (conf : Conf).

(** *** The locals of [_process_resource] *)

(** What one iteration leaves in the locals. *)
Lemma process_metric_group_locals (rid : string) (loc loc' : Locals)
    (group : string * list Sample) (d d' : Dispatcher) :
  process_metric_group env conf rid loc group d = (Ok loc', d') ->
  match handled_by env conf group with
  | None => loc' = loc
  | Some rd =>
      exists first samples,
        group.2 = first :: samples
        /\ resource_extra loc' = extend_extra rd group.2 (resource_extra loc)
        /\ bound loc'
           = Some (resource_type rd,
                   (PStr <$> resource_extra loc') ∪ new_resource rid first rd)
  end.
Proof.
  destruct group as [metric_name samples].
  unfold process_metric_group, handled_by. simpl.
  destruct (_get_resource_definition env conf metric_name) as [rd|].
  - destruct (cfg_ignore rd).
    + by intros [= <- _].
    + destruct samples as [|first samples]; [discriminate|].
      unfold mbind, M_bind, mret, M_ret.
      destruct (post_with_repair _ _ _ _ _ _ _ _) as [[[]|e] d1];
        [|discriminate].
      intros [= <- _]. by exists first, samples.
  - unfold mbind, M_bind, mret, M_ret, log, emit. simpl.
    by intros [= <- _].
Qed.

Lemma accumulated_extra_passed_over (groups : list (string * list Sample))
    (extra : gmap string string) :
  Forall (fun group => handled_by env conf group = None) groups ->
  accumulated_extra env conf groups extra = extra.
Proof.
  unfold accumulated_extra. induction 1 as [|group groups Hg _ IH]; simpl;
    [reflexivity|]. by rewrite Hg.
Qed.

(** What the loop leaves in the locals: the accumulated attributes and,
    once a group has been handled, the resource type and the dictionary of
    the last group handled, updated with the attributes accumulated up to
    that group, which are all of them. *)
Lemma process_metric_groups_locals (rid : string)
    (groups : list (string * list Sample)) (loc0 loc : Locals)
    (d0 d : Dispatcher) :
  process_metric_groups env conf rid groups loc0 d0 = (Ok loc, d) ->
  resource_extra loc
  = accumulated_extra env conf groups (resource_extra loc0)
  /\ ((Forall (fun group => handled_by env conf group = None) groups
       /\ bound loc = bound loc0)
      \/ exists before metric_name first samples after rd,
           groups = before ++ (metric_name, first :: samples) :: after
           /\ handled_by env conf (metric_name, first :: samples) = Some rd
           /\ Forall (fun group => handled_by env conf group = None) after
           /\ bound loc
              = Some (resource_type rd,
                      (PStr <$> resource_extra loc)
                      ∪ new_resource rid first rd)).
Proof.
  revert loc0 d0. induction groups as [|group groups IH]; intros loc0 d0.
  - simpl. intros [= <- _]. split; [reflexivity|]. left. by split.
  - cbn [process_metric_groups]. unfold mbind, M_bind.
    destruct (process_metric_group env conf rid loc0 group d0)
      as [[loc1|e] d1] eqn:Hstep; [|discriminate].
    intros Hloop. apply process_metric_group_locals in Hstep.
    destruct (IH _ _ Hloop) as [Hextra Hbound].
    unfold accumulated_extra in *. simpl.
    destruct (handled_by env conf group) as [rd|] eqn:Hgroup.
    + destruct Hstep as (first & samples & Hsamples & Hextra1 & Hbound1).
      rewrite <- Hextra1. split; [exact Hextra|]. right.
      destruct Hbound as [[Hall Hsame]|Hlater].
      * exists [], group.1, first, samples, groups, rd.
        rewrite <- Hsamples. destruct group as [metric_name l]. simpl.
        split; [reflexivity|]. split; [exact Hgroup|].
        split; [exact Hall|].
        rewrite Hsame, Hbound1, Hextra.
        fold (accumulated_extra env conf groups (resource_extra loc1)).
        by rewrite (accumulated_extra_passed_over groups _ Hall).
      * destruct Hlater
          as (before & metric_name & first' & samples' & after & rd' & ->
              & Hrd' & Hall & Hb).
        exists (group :: before), metric_name, first', samples', after, rd'.
        by repeat split.
    + subst loc1. split; [exact Hextra|].
      destruct Hbound as [[Hall Hsame]|Hlater].
      * left. split; [by constructor|exact Hsame].
      * right. destruct Hlater
          as (before & metric_name & first' & samples' & after & rd' & ->
              & Hrd' & Hall & Hb).
        exists (group :: before), metric_name, first', samples', after, rd'.
        by repeat split.
Qed.

(** The key under which the resource is cached: its ["id"], which is the
    resource id unless an attribute is named [id]. *)
Lemma resource_id_entry (rid : string) (first : Sample)
    (rd : ResourcesDefinition) (extra : gmap string string) :
  ((PStr <$> extra) ∪ new_resource rid first rd) !! "id"
  = Some (PStr (default rid (extra !! "id"))).
Proof.
  destruct (extra !! "id") as [v|] eqn:Hv; simpl.
  - apply lookup_union_Some_l. by rewrite lookup_fmap, Hv.
  - rewrite lookup_union_r by (by rewrite lookup_fmap, Hv).
    unfold new_resource. apply lookup_insert_eq.
Qed.

Lemma reconcile_attributes_run (rid : string) (loc : Locals) (rt : string)
    (resource : gmap string PyVal) :
  resource_extra loc <> ∅ ->
  bound loc = Some (rt, resource) ->
  reconcile_attributes env conf rid loc
  = if cache conf
    then cache_guarded env (update_resource rt rid (resource_extra loc))
           "recheck resource cache hit for update %s"
           "resource cache hit for update %s" resource
    else call env (update_resource rt rid (resource_extra loc)).
Proof.
  intros Hne Hb. unfold reconcile_attributes.
  rewrite (bool_decide_eq_true_2 _ Hne), Hb. reflexivity.
Qed.

(** C1, as the code has it. After the loop of [_process_resource] has
    returned with non-empty extras and a cache is configured, a meter group
    has been handled; the extras are the attributes accumulated over all
    the groups handled; the resource type is that of the definition of the
    last group handled, and the resource that is hashed is the dictionary
    of that group (its id, the user and the project of its first sample)
    updated with all the extras, without its metrics. The cache key is that
    of the resource id, or of the attribute [id] if there is one. A cache
    that holds the hash means no [update_resource]. Otherwise, for a hash
    that is not 0, the lock is taken and the cache read again: a cache that
    now holds the hash means no [update_resource]; else [update_resource]
    is called once, and the hash is stored for 3600 seconds if and only if
    that call returned. An [UnexpectedError] of the call is logged by the
    decorator of [_process_resource]. *)
Theorem attributes_are_reconciled_through_the_cache (rid : string)
    (groups : list (string * list Sample)) (d0 d : Dispatcher) (loc : Locals) :
  cache conf = true ->
  process_metric_groups env conf rid groups
    {| resource_extra := ∅; bound := None |} d0 = (Ok loc, d) ->
  resource_extra loc <> ∅ ->
  exists before metric_name first samples after rd,
    groups = before ++ (metric_name, first :: samples) :: after
    /\ handled_by env conf (metric_name, first :: samples) = Some rd
    /\ Forall (fun group => handled_by env conf group = None) after
    /\ resource_extra loc = accumulated_extra env conf groups ∅
    /\ let rt := resource_type rd in
       let resource :=
         (PStr <$> resource_extra loc) ∪ new_resource rid first rd in
       let s := default rid (resource_extra loc !! "id") in
       let key := uuid5_hex env s in
       let h := py_hash env (delete "metrics" resource) in
       let first_read := cache_get env (history d) key in
       let locked :=
         history d ++ [CacheGet key first_read;
                       Acquire _gnocchi_resource_lock] in
       let second_read := cache_get env locked key in
       let update := update_resource rt rid (resource_extra loc) in
       let raised := gnocchi env (locked ++ [CacheGet key second_read]) update in
       let run := reconcile_attributes env conf rid loc d in
       let new := new_events d run.2 in
       bound loc = Some (rt, resource)
       /\ resource !! "id" = Some (PStr s)
       /\ (first_read = Some h ->
           run.1 = Ok tt
           /\ new = [CacheGet key first_read;
                     Log DEBUG "resource cache hit for update %s"])
       /\ (first_read <> Some h -> h <> 0%Z -> second_read = Some h ->
           run.1 = Ok tt
           /\ new = [CacheGet key first_read; Acquire _gnocchi_resource_lock;
                     CacheGet key second_read;
                     Log DEBUG "recheck resource cache hit for update %s";
                     Release _gnocchi_resource_lock])
       /\ (first_read <> Some h -> h <> 0%Z -> second_read <> Some h ->
           raised = None ->
           run.1 = Ok tt
           /\ new = [CacheGet key first_read; Acquire _gnocchi_resource_lock;
                     CacheGet key second_read; Gnocchi update None;
                     CacheSet key h 3600; Release _gnocchi_resource_lock])
       /\ (first_read <> Some h -> h <> 0%Z -> second_read <> Some h ->
           forall e, raised = Some e ->
           run.1 = Raise e
           /\ new = [CacheGet key first_read; Acquire _gnocchi_resource_lock;
                     CacheGet key second_read; Gnocchi update (Some e);
                     Release _gnocchi_resource_lock])
       /\ _process_resource env conf rid groups d0
          = match run with
            | (Raise (UnexpectedError msg), d') =>
                (Ok tt, extend d' [Log ERROR msg])
            | r => r
            end.
Proof.
  intros Hcache Hloop Hne.
  destruct (process_metric_groups_locals rid groups _ loc d0 d Hloop)
    as [Hextra [[Hall Hb]|Hlast]].
  { exfalso. apply Hne. rewrite Hextra.
    by apply accumulated_extra_passed_over. }
  destruct Hlast
    as (before & metric_name & first & samples & after & rd & Hgroups & Hrd
        & Hall & Hb).
  exists before, metric_name, first, samples, after, rd.
  split; [exact Hgroups|]. split; [exact Hrd|]. split; [exact Hall|].
  split; [exact Hextra|]. cbn zeta.
  set (rt := resource_type rd) in *.
  set (resource := (PStr <$> resource_extra loc) ∪ new_resource rid first rd)
    in *.
  set (s := default rid (resource_extra loc !! "id")).
  assert (Hid : resource !! "id" = Some (PStr s))
    by apply resource_id_entry.
  split; [exact Hb|]. split; [exact Hid|].
  split; [|split; [|split; [|split]]];
    [rewrite (reconcile_attributes_run rid loc rt resource Hne Hb), Hcache,
       (cache_guarded_run env _ _ _ _ s d Hid); cbn zeta ..|].
  - intros Hfirst. rewrite (bool_decide_eq_true_2 _ Hfirst). simpl.
    by rewrite new_events_extend.
  - intros Hfirst Hnz Hsecond. rewrite (bool_decide_eq_false_2 _ Hfirst).
    apply Z.eqb_neq in Hnz. rewrite Hnz. simpl.
    rewrite (bool_decide_eq_true_2 _ Hsecond). simpl.
    by rewrite new_events_extend.
  - intros Hfirst Hnz Hsecond Hraised.
    rewrite (bool_decide_eq_false_2 _ Hfirst).
    apply Z.eqb_neq in Hnz. rewrite Hnz. simpl.
    rewrite (bool_decide_eq_false_2 _ Hsecond), Hraised. simpl.
    by rewrite new_events_extend.
  - intros Hfirst Hnz Hsecond e Hraised.
    rewrite (bool_decide_eq_false_2 _ Hfirst).
    apply Z.eqb_neq in Hnz. rewrite Hnz. simpl.
    rewrite (bool_decide_eq_false_2 _ Hsecond), Hraised. simpl.
    by rewrite new_events_extend.
  - unfold _process_resource, log_and_ignore_unexpected_workflow_error.
    unfold try_except, mbind, M_bind. rewrite Hloop.
    destruct (reconcile_attributes env conf rid loc d) as [[[]|[]] d'];
      reflexivity.
Qed.

End ReconcileFacts.

(** ** The dispatcher: grouping and determinism *)

Section GroupingFacts.
Import Batching Gnocchi.

(** *** [groupby] *)

Lemma groupby_concat {A : Type} (key : A -> string) (l : list A) :
  concat (map snd (groupby key l)) = l.
Proof.
  induction l as [|x l IH]; simpl; [reflexivity|].
  destruct (groupby key l) as [|[k g] gs]; simpl in *.
  - by rewrite <- IH.
  - destruct (String.eqb (key x) k); simpl; by rewrite <- IH.
Qed.

Lemma groupby_groups {A : Type} (key : A -> string) (l : list A) :
  Forall (fun kg => kg.2 <> [] /\ Forall (fun x => key x = kg.1) kg.2)
    (groupby key l).
Proof.
  induction l as [|x l IH]; simpl; [constructor|].
  destruct (groupby key l) as [|[k g] gs]; simpl in *.
  - repeat constructor; done.
  - destruct (String.eqb_spec (key x) k) as [Hk|Hk].
    + inversion IH as [|? ? [Hne Hall] Hrest]; subst.
      constructor; [|exact Hrest]. simpl in *. split; [done|].
      by constructor.
    + constructor; [|exact IH]. simpl. split; [done|]. by repeat constructor.
Qed.

(** *** Keys *)

Lemma with_key_filter {A K : Type} `{EqDecision K} (key : A -> K) (k : K)
    (q : A -> bool) (l : list A) :
  with_key key k (List.filter q l) = List.filter q (with_key key k l).
Proof.
  unfold with_key. induction l as [|x l IH]; simpl; [reflexivity|].
  destruct (q x) eqn:Hq; simpl; case_bool_decide; simpl; rewrite ?Hq, IH;
    reflexivity.
Qed.

Lemma with_key_nil {A K : Type} `{EqDecision K} (key : A -> K)
    (l1 l2 : list A) :
  (forall k, with_key key k l1 = with_key key k l2) -> l1 = [] -> l2 = [].
Proof.
  intros Heq ->. destruct l2 as [|x l2]; [reflexivity|].
  specialize (Heq (key x)). simpl in Heq.
  rewrite bool_decide_eq_true_2 in Heq by reflexivity. discriminate.
Qed.

(** Permutations of a batch in which no two samples share a key agree on
    the order of the samples of each key. *)
Lemma with_key_permutation {A K : Type} `{EqDecision K} (key : A -> K)
    (l1 l2 : list A) (k : K) :
  Permutation l1 l2 -> NoDup (map key l1) ->
  with_key key k l1 = with_key key k l2.
Proof.
  induction 1 as [|x l l' Hp IH|x y l|l l' l'' Hp1 IH1 Hp2 IH2]; intros Hnd.
  - reflexivity.
  - simpl in *. apply NoDup_cons in Hnd as [_ Hnd]. by rewrite IH.
  - simpl in *. apply NoDup_cons in Hnd as [Hy Hnd].
    repeat case_bool_decide; try reflexivity.
    exfalso. apply Hy. rewrite list_elem_of_In. left. congruence.
  - rewrite IH1 by exact Hnd. apply IH2.
    apply NoDup_ListNoDup. eapply Permutation_NoDup.
    + apply Permutation_map, Hp1.
    + by apply NoDup_ListNoDup.
Qed.

Context (env : Env) (conf : Conf).

Lemma grouped_determined (data1 data2 : list Sample) :
  (forall k, with_key sort_key k data1 = with_key sort_key k data2) ->
  grouped data1 = grouped data2.
Proof.
  intros Heq. unfold grouped.
  rewrite (sort_by_determined sort_key key_ltb key_ltb_irrefl key_ltb_trans
             key_ltb_connex data1 data2 Heq).
  reflexivity.
Qed.

(** C4, as the code has it. [record_metering_data] sorts the batch by
    (resource_id, counter_name) with a stable sort, so that the samples of
    each key keep the order of the batch, and groups the sorted list by
    resource and then by meter. Two batches that hold, for each key, the
    same samples in the same order (permutations of each other that do not
    reorder samples of equal keys) are sorted and grouped alike and
    dispatched by the same events, from any state of the dispatcher and
    whatever the backend answers. *)
Theorem dispatch_is_determined_by_the_order_within_keys
    (data1 data2 : list Sample) (d : Dispatcher) :
  (forall k, with_key sort_key k data1 = with_key sort_key k data2) ->
  sorted_by sort_key key_ltb (sort_by sort_key key_ltb data1)
  /\ (forall k, with_key sort_key k (sort_by sort_key key_ltb data1)
                = with_key sort_key k data1)
  /\ concat (map (fun g => concat (map snd g.2)) (grouped data1))
     = sort_by sort_key key_ltb data1
  /\ sort_by sort_key key_ltb data1 = sort_by sort_key key_ltb data2
  /\ grouped data1 = grouped data2
  /\ record_metering_data env conf data1 d
     = record_metering_data env conf data2 d.
Proof.
  intros Heq.
  split; [exact (sort_by_sorted sort_key key_ltb key_ltb_irrefl key_ltb_trans
                   key_ltb_connex data1)|].
  split; [intros k; exact (with_key_sort_by sort_key key_ltb key_ltb_irrefl
                             k data1)|].
  split.
  { unfold grouped. rewrite map_map.
    rewrite <- (groupby_concat resource_id (sort_by sort_key key_ltb data1))
      at 2.
    f_equal. apply map_ext. intros [rid samples]. simpl.
    apply groupby_concat. }
  split; [exact (sort_by_determined sort_key key_ltb key_ltb_irrefl
                   key_ltb_trans key_ltb_connex data1 data2 Heq)|].
  split; [by apply grouped_determined|].
  unfold record_metering_data, mbind, M_bind.
  destruct (filter_service_activity conf) eqn:Hf.
  - destruct data1 as [|s1 data1].
    + rewrite (with_key_nil sort_key [] data2 Heq eq_refl). reflexivity.
    + destruct data2 as [|s2 data2].
      { symmetry in Heq.
        pose proof (with_key_nil sort_key [] (s1 :: data1)
                      (fun k => eq_sym (eq_sym (Heq k))) eq_refl).
        discriminate. }
      rewrite !(drop_gnocchi_activity_resolves env conf d _ _ Hf).
      destruct (gnocchi_project_id env conf d) as [[p|e] d']; [|reflexivity].
      set (q := fun s => negb (gnocchi_activity env conf p s)).
      rewrite (grouped_determined
                 (List.filter q (s1 :: data1)) (List.filter q (s2 :: data2)));
        [reflexivity|].
      intros k. by rewrite !with_key_filter, Heq.
  - rewrite !(drop_gnocchi_activity_disabled env conf d _ Hf).
    by rewrite (grouped_determined data1 data2 Heq).
Qed.

End GroupingFacts.

(** ** The properties on concrete runs *)

Section Runs.
Import Discovery Batching Gnocchi Examples.

Lemma discovery_at_0_tracked_ok : tracked_ok (instances discovery_at_0).
Proof.
  unfold tracked_ok. simpl. apply map_Forall_singleton. split; reflexivity.
Qed.

(** C6, at a run. The discovery ran at time 0 with a period of 120 seconds
    and is called again one day and five seconds later: the [seconds] field
    of the elapsed time is 5, so nothing is enumerated, [last_run] stays,
    and the deleted [vm-1] is still returned. *)
Theorem discover_skips_enumeration_a_day_later :
  discover nova_next_day discovery_at_0
  = (Ok [vm1_active],
     {| last_run := Some 0%Z; instances := {[ "vm-1" := vm1_active ]};
        period := 120; clock_reads := 2; nova_calls := [None] |}).
Proof. vm_compute. reflexivity. Qed.

Lemma tracked_set_has_no_terminal_instance_witness :
  tracked_ok (instances discovery_at_0)
  /\ tracked_ok (instances (discover nova_500s_later discovery_at_0).2)
  /\ (discover nova_500s_later discovery_at_0).1 = Ok [vm2_active].
Proof.
  split; [exact discovery_at_0_tracked_ok|].
  split.
  - exact (proj1 (tracked_set_has_no_terminal_instance nova_500s_later
                    discovery_at_0 discovery_at_0_tracked_ok)).
  - vm_compute. reflexivity.
Defined.

Lemma ping_delay_yields_one_sample_witness :
  exists v,
    Pollsters.samples
      (Pollsters.ping_delay_body float_of ping_delay_of vm1_active)
    = [Pollsters.mkSample vm1_active "instance.ping.delay"
         Pollsters.TYPE_GAUGE "instance" v]
    /\ v = Pollsters.VFloat 12%Z.
Proof.
  destruct (ping_delay_yields_one_sample float_of ping_delay_of [] []
              vm1_active (Pollsters.DStr "12") eq_refl)
    as (v & Hs & _ & _ & Hv & _).
  exists v. split; [exact Hs|].
  apply (Hv "12" 12%Z); [reflexivity|discriminate|reflexivity].
Defined.

Lemma resource_vm1_id : resource_vm1 !! "id" = Some (PStr "vm-1").
Proof. vm_compute. reflexivity. Qed.

Lemma resource_vm1_metrics :
  resource_vm1 !! "metrics" = Some (PMetrics (metrics instance_definition)).
Proof. vm_compute. reflexivity. Qed.

Lemma instance_definition_policy :
  metrics instance_definition !! "memory.usage" = Some (ArchivePolicyName "low").
Proof. vm_compute. reflexivity. Qed.

(** C1 as worded fails. The cache is empty and [update_resource] answers
    with an error: the call is made once, the exception leaves the block,
    and no hash is stored. *)
Lemma update_failure_stores_no_hash :
  cache (conf_with true true) = true
  /\ resource_extra locals_vm1 <> ∅
  /\ (reconcile_attributes backend_update_fails (conf_with true true) "vm-1"
        locals_vm1 fresh).1 = Raise (UnexpectedError "500")
  /\ count is_update_resource
       (history (reconcile_attributes backend_update_fails
                   (conf_with true true) "vm-1" locals_vm1 fresh).2) = 1
  /\ count is_cache_set
       (history (reconcile_attributes backend_update_fails
                   (conf_with true true) "vm-1" locals_vm1 fresh).2) = 0
  /\ ~ reconciliation_spec backend_update_fails (conf_with true true) "vm-1"
         locals_vm1 fresh.
Proof.
  split; [reflexivity|].
  split; [apply insert_non_empty|].
  split; [vm_compute; reflexivity|].
  split; [vm_compute; reflexivity|].
  split; [vm_compute; reflexivity|].
  intros Hspec.
  specialize (Hspec "instance" resource_vm1 "vm-1" eq_refl resource_vm1_id).
  cbn zeta in Hspec. destruct Hspec as [_ Hspec].
  destruct (Hspec ltac:(discriminate)) as (_ & _ & Hdiff).
  destruct (Hdiff ltac:(discriminate)) as [_ Hin].
  vm_compute in Hin.
  repeat (destruct Hin as [Hin|Hin]; [discriminate|]). exact Hin.
Qed.

Lemma attributes_are_reconciled_through_the_cache_witness :
  cache (conf_with true true) = true
  /\ process_metric_groups backend_ok (conf_with true true) "vm-1"
       [("memory.usage", [memory_at_10_00])]
       {| resource_extra := ∅; bound := None |} fresh
     = (Ok locals_vm1,
        extend fresh
          [Gnocchi (post_measure "instance" "vm-1" "memory.usage"
                      (measures_of [memory_at_10_00])) None])
  /\ resource_extra locals_vm1 <> ∅
  /\ exists before metric_name first samples after rd,
       [("memory.usage", [memory_at_10_00])]
       = before ++ (metric_name, first :: samples) :: after
       /\ handled_by backend_ok (conf_with true true)
            (metric_name, first :: samples) = Some rd
       /\ bound locals_vm1
          = Some (resource_type rd,
                  (PStr <$> resource_extra locals_vm1)
                  ∪ new_resource "vm-1" first rd).
Proof.
  assert (Hloop : process_metric_groups backend_ok (conf_with true true) "vm-1"
                    [("memory.usage", [memory_at_10_00])]
                    {| resource_extra := ∅; bound := None |} fresh
                  = (Ok locals_vm1,
                     extend fresh
                       [Gnocchi (post_measure "instance" "vm-1" "memory.usage"
                                   (measures_of [memory_at_10_00])) None]))
    by (vm_compute; reflexivity).
  assert (Hne : resource_extra locals_vm1 <> ∅) by apply insert_non_empty.
  split; [reflexivity|]. split; [exact Hloop|]. split; [exact Hne|].
  destruct (attributes_are_reconciled_through_the_cache backend_ok
              (conf_with true true) "vm-1" _ fresh _ locals_vm1 eq_refl Hloop
              Hne)
    as (before & metric_name & first & samples & after & rd & Hgroups & Hrd
        & _ & _ & Hb & _).
  exists before, metric_name, first, samples, after, rd. auto.
Defined.

(** C2 as worded fails. No metric exists and [create_resource] answers
    with an error: the repair raises, and the post is not made again. *)
Lemma repair_failure_prevents_the_retry :
  gnocchi backend_repair_fails (history fresh)
    (post_measure "instance" "vm-1" "memory.usage"
       (measures_of [memory_at_10_00]))
  = Some NoSuchMetric
  /\ (post_with_repair backend_repair_fails (conf_with true false) "instance"
        "vm-1" resource_vm1 "memory.usage" (measures_of [memory_at_10_00])
        fresh).1 = Raise (UnexpectedError "500")
  /\ count is_post
       (history (post_with_repair backend_repair_fails (conf_with true false)
                   "instance" "vm-1" resource_vm1 "memory.usage"
                   (measures_of [memory_at_10_00]) fresh).2) = 1
  /\ ~ repair_and_retry_spec backend_repair_fails (conf_with true false)
         "instance" "vm-1" resource_vm1 "memory.usage"
         (measures_of [memory_at_10_00]) fresh.
Proof.
  split; [reflexivity|].
  split; [vm_compute; reflexivity|].
  split; [vm_compute; reflexivity|].
  intros Hspec. destruct (Hspec eq_refl) as [Hposts _].
  vm_compute in Hposts. discriminate.
Qed.

Lemma unknown_metric_is_repaired_once_and_retried_once_witness :
  gnocchi backend_metric_missing (history fresh)
    (post_measure "instance" "vm-1" "memory.usage"
       (measures_of [memory_at_10_00]))
  = Some NoSuchMetric
  /\ count is_post
       (new_events fresh
          (post_with_repair backend_metric_missing (conf_with true false)
             "instance" "vm-1" resource_vm1 "memory.usage"
             (measures_of [memory_at_10_00]) fresh).2) = 2.
Proof.
  split; [reflexivity|].
  destruct (unknown_metric_is_repaired_once_and_retried_once
              backend_metric_missing (conf_with true false) "instance" "vm-1"
              resource_vm1 "memory.usage" (measures_of [memory_at_10_00])
              fresh eq_refl)
    as (evs & _ & _ & _ & _ & Hposts & _).
  etransitivity; [exact Hposts|]. vm_compute. reflexivity.
Defined.

(** C3 as worded fails. The cache holds the hash of the resource: the
    repair does not attempt [create_resource]; it attempts [create_metric]
    only. *)
Lemma cached_hash_skips_the_creation :
  cache (conf_with true true) = true
  /\ cache_get backend_cache_current (history fresh) (uuid5_hex backend_cache_current "vm-1")
     = Some (py_hash backend_cache_current (delete "metrics" resource_vm1))
  /\ count is_create_resource
       (history (_ensure_resource_and_metric backend_cache_current
                   (conf_with true true) "instance" resource_vm1
                   "memory.usage" fresh).2) = 0
  /\ count is_create_metric
       (history (_ensure_resource_and_metric backend_cache_current
                   (conf_with true true) "instance" resource_vm1
                   "memory.usage" fresh).2) = 1
  /\ ~ ensure_spec backend_cache_current (conf_with true true) "instance"
         resource_vm1 "memory.usage" fresh.
Proof.
  split; [reflexivity|].
  split; [reflexivity|].
  split; [vm_compute; reflexivity|].
  split; [vm_compute; reflexivity|].
  intros [[raised Hin] _]. vm_compute in Hin.
  repeat (destruct Hin as [Hin|Hin]; [discriminate|]). exact Hin.
Qed.

Lemma repair_creates_resource_or_metric_witness :
  resource_vm1 !! "metrics" = Some (PMetrics (metrics instance_definition))
  /\ metrics instance_definition !! "memory.usage"
     = Some (ArchivePolicyName "low")
  /\ resource_vm1 !! "id" = Some (PStr "vm-1")
  /\ exists raised rest,
       new_events fresh
         (_ensure_resource_and_metric backend_ok (conf_with true false)
            "instance" resource_vm1 "memory.usage" fresh).2
       = Gnocchi (create_resource "instance" resource_vm1) raised :: rest.
Proof.
  split; [exact resource_vm1_metrics|].
  split; [exact instance_definition_policy|].
  split; [exact resource_vm1_id|].
  exact (proj1 (repair_creates_resource_or_metric backend_ok
                  (conf_with true false) "instance" resource_vm1
                  "memory.usage" _ _ "vm-1" fresh resource_vm1_metrics
                  instance_definition_policy resource_vm1_id) eq_refl).
Defined.

(** C4 as worded fails. Two samples of the same resource and meter, in the
    two orders: the sort keeps each order, so the groups differ, and so do
    the measures posted. *)
Lemma reordering_equal_keys_changes_the_dispatch :
  Permutation [memory_at_10_00; memory_at_10_01]
    [memory_at_10_01; memory_at_10_00]
  /\ grouped [memory_at_10_00; memory_at_10_01]
     = [("vm-1", [("memory.usage", [memory_at_10_00; memory_at_10_01])])]
  /\ grouped [memory_at_10_01; memory_at_10_00]
     = [("vm-1", [("memory.usage", [memory_at_10_01; memory_at_10_00])])]
  /\ ~ deterministic_dispatch_spec backend_ok (conf_with true false)
         [memory_at_10_00; memory_at_10_01]
         [memory_at_10_01; memory_at_10_00] fresh.
Proof.
  split; [apply perm_swap|].
  split; [vm_compute; reflexivity|].
  split; [vm_compute; reflexivity|].
  intros Hspec. destruct (Hspec (perm_swap _ _ _)) as [Hgrouped _].
  vm_compute in Hgrouped. discriminate.
Qed.

Lemma dispatch_is_determined_by_the_order_within_keys_witness :
  (forall k, with_key sort_key k [memory_at_10_00; disk_at_10_00]
             = with_key sort_key k [disk_at_10_00; memory_at_10_00])
  /\ record_metering_data backend_ok (conf_with true false)
       [memory_at_10_00; disk_at_10_00] fresh
     = record_metering_data backend_ok (conf_with true false)
         [disk_at_10_00; memory_at_10_00] fresh.
Proof.
  assert (Hkeys : forall k,
             with_key sort_key k [memory_at_10_00; disk_at_10_00]
             = with_key sort_key k [disk_at_10_00; memory_at_10_00]).
  { intros k. apply with_key_permutation; [apply perm_swap|].
    apply NoDup_cons. split; [|apply NoDup_singleton].
    intros Hin. apply list_elem_of_In in Hin. simpl in Hin.
    destruct Hin as [Hin|[]]. discriminate. }
  split; [exact Hkeys|].
  apply (dispatch_is_determined_by_the_order_within_keys backend_ok
           (conf_with true false) _ _ fresh Hkeys).
Defined.

(** C5 as worded fails. With [filter_service_activity] off, a sample of
    the backend's own project is kept, and the project is not looked up. *)
Lemma disabled_filter_keeps_service_samples :
  filter_service_activity (conf_with false false) = false
  /\ (gnocchi_project_id backend_ok (conf_with false false) fresh).1
     = Ok "gnocchi-project"
  /\ project_id sample_of_gnocchi = Some "gnocchi-project"
  /\ drop_gnocchi_activity backend_ok (conf_with false false)
       [sample_of_gnocchi] fresh
     = (Ok [sample_of_gnocchi], fresh)
  /\ ~ self_activity_filter_spec backend_ok (conf_with false false)
         [sample_of_gnocchi] fresh.
Proof.
  split; [reflexivity|].
  split; [reflexivity|].
  split; [reflexivity|].
  split; [reflexivity|].
  intros Hspec. vm_compute in Hspec. discriminate.
Qed.

(** Two threads read the project id of a fresh dispatcher at once. The
    second waits for the lock, finds the project stored when it has the
    lock, and asks nothing. A third thread reads the id afterwards, without
    the lock. *)
Lemma three_threads_one_lookup :
  let w := exec backend_ok (conf_with true false)
             [0; 1; 0; 1; 0; 0; 1; 0; 0; 0; 0; 1; 1; 1; 1; 2; 2]
             (start fresh) in
  reads w = [(0, Ok (Some "gnocchi-project"));
             (1, Ok (Some "gnocchi-project"));
             (2, Ok (Some "gnocchi-project"))]
  /\ history (shared w)
     = [Acquire _gnocchi_project_id_lock;
        TenantsFind "gnocchi" (Ok "gnocchi-project");
        Log DEBUG "gnocchi project found: %s";
        Release _gnocchi_project_id_lock;
        Acquire _gnocchi_project_id_lock;
        Release _gnocchi_project_id_lock]
  /\ lock_holder w = None.
Proof. vm_compute. repeat split. Qed.

Lemma self_activity_filter_witness :
  filter_service_activity (conf_with true false) = true
  /\ [sample_of_gnocchi; memory_at_10_00] <> []
  /\ (drop_gnocchi_activity backend_ok (conf_with true false)
        [sample_of_gnocchi; memory_at_10_00] fresh).1
     = Ok [memory_at_10_00].
Proof.
  split; [reflexivity|]. split; [discriminate|].
  pose proof (proj1 (proj2 (proj2 (self_activity_filter backend_ok
                                     (conf_with true false)
                                     [sample_of_gnocchi; memory_at_10_00]
                                     fresh)))
                eq_refl ltac:(discriminate)) as Hkept.
  destruct (gnocchi_project_id backend_ok (conf_with true false) fresh)
    as [[p|e] d'] eqn:Hrun.
  - destruct Hkept as [-> _]. vm_compute in Hrun.
    injection Hrun as <- _. reflexivity.
  - vm_compute in Hrun. discriminate.
Defined.

End Runs.

(** ** Instance discovery: further properties *)

Section MoreDiscoveryFacts.
Import Discovery.

(** X1. Merging the same enumeration twice leaves the tracked set as
    merging it once. *)
Theorem refresh_idempotent (l : list Instance) (m : gmap string Instance) :
  refresh l (refresh l m) = refresh l m.
Proof.
  apply map_eq. intros k. rewrite !refresh_lookup.
  destruct (last_seen l k); reflexivity.
Qed.

Context {NovaError : Type} (nova : Nova NovaError).

(** X2. A new discovery object enumerates the whole host on its first
    call; a second call made before the period has elapsed enumerates
    nothing and returns the same instances. *)
Theorem first_discover_then_within_period (p : Z) (l : list Instance) :
  instance_get_all_by_host nova 0 None = Ok l ->
  (0 <= utcnow nova 1 - utcnow nova 0 < p * 1000000)%Z ->
  let first := discover nova (init p) in
  let second := discover nova first.2 in
  first.1 = Ok (values (refresh l ∅))
  /\ nova_calls first.2 = [None]
  /\ last_run first.2 = Some (utcnow nova 0)
  /\ second.1 = first.1
  /\ nova_calls second.2 = [None]
  /\ instances second.2 = instances first.2
  /\ last_run second.2 = last_run first.2.
Proof.
  intros Hl Hclock. cbn zeta.
  assert (Hfirst : discover nova (init p)
                   = (Ok (values (refresh l ∅)),
                      {| last_run := Some (utcnow nova 0);
                         instances := refresh l ∅; period := p;
                         clock_reads := 1; nova_calls := [None] |})).
  { unfold discover, init. simpl. rewrite Hl. reflexivity. }
  rewrite Hfirst. simpl.
  set (d1 := {| last_run := Some (utcnow nova 0); instances := refresh l ∅;
                period := p; clock_reads := 1; nova_calls := [None] |}).
  rewrite (discover_within_period nova d1 (utcnow nova 0) eq_refl Hclock).
  simpl. repeat split; reflexivity.
Qed.

(** X3. When the enumeration that [discover] makes raises (the first
    one, or an incremental one once the period has elapsed), [discover]
    raises that exception and leaves the tracked set, [last_run] and the
    period as they were, so that the next enumeration is asked with the
    same [since]. *)
Theorem failed_enumeration_changes_nothing (d : InstanceDiscovery)
    (e : NovaError) :
  (forall t, last_run d = Some t ->
             (timedelta_seconds (utcnow nova (clock_reads d) - t)
              > period d)%Z) ->
  instance_get_all_by_host nova (length (nova_calls d)) (last_run d)
  = Raise e ->
  let run := discover nova d in
  run.1 = Raise e
  /\ instances run.2 = instances d
  /\ last_run run.2 = last_run d
  /\ period run.2 = period d
  /\ nova_calls run.2 = nova_calls d ++ [last_run d].
Proof.
  cbn zeta. unfold discover.
  destruct (last_run d) as [t|]; intros Helapsed Hraise.
  - specialize (Helapsed t eq_refl). apply Z.gtb_gt in Helapsed.
    rewrite Helapsed, Hraise. repeat split.
  - rewrite Hraise. repeat split.
Qed.

(** X4. The test of the period reads the [seconds] field of the elapsed
    time: whenever the elapsed time is a whole number of days plus at most
    the period (and less than a second more), nothing is enumerated,
    however many days have passed. *)
Theorem whole_days_are_not_counted (d : InstanceDiscovery) (t days rest : Z) :
  last_run d = Some t ->
  (utcnow nova (clock_reads d) - t = days * 86400000000 + rest)%Z ->
  (0 <= rest < 86400000000)%Z ->
  (rest < (period d + 1) * 1000000)%Z ->
  discover nova d =
  (Ok (values (instances d)),
   {| last_run := Some t; instances := instances d; period := period d;
      clock_reads := S (clock_reads d); nova_calls := nova_calls d |}).
Proof.
  intros Hrun Helapsed Hrest Hperiod. unfold discover. rewrite Hrun, Helapsed.
  assert (Hs : (timedelta_seconds (days * 86400000000 + rest)
                = rest / 1000000)%Z).
  { unfold timedelta_seconds. f_equal.
    rewrite Z.add_comm, Z.mod_add by lia. apply Z.mod_small. exact Hrest. }
  rewrite Hs.
  assert (rest / 1000000 < period d + 1)%Z
    by (apply Z.div_lt_upper_bound; lia).
  destruct (Z.gtb_spec (rest / 1000000) (period d)); [lia|reflexivity].
Qed.

End MoreDiscoveryFacts.

(** ** Pollsters: further properties *)

Section MorePollsterFacts.
Import Discovery Pollsters MorePollsters.
Context {float : Type}.

(** A loop body that yields, for an instance, nothing or one sample of
    that instance, yields over a list at most one sample per instance, in
    the order of the list. *)
Lemma samples_sublist (body : Instance -> list (Event float))
    (resources : list Instance) :
  (forall i, samples (body i) = []
             \/ exists s, samples (body i) = [s] /\ instance s = i) ->
  (instance <$> samples (flat_map body resources)) `sublist_of` resources.
Proof.
  intros Hbody. induction resources as [|i l IH]; simpl.
  - constructor.
  - rewrite samples_app, fmap_app.
    destruct (Hbody i) as [->|(s & -> & <-)]; simpl.
    + by apply sublist_cons.
    + by apply sublist_skip.
Qed.

(** X5. [MemoryUsagePollster], [InstanceOOMStatusPollster] and
    [InstancePingDelayPollster] yield at most one sample per resource, for
    the resources in their order, each a gauge with the pollster's meter
    name and unit. *)
Theorem pollsters_yield_at_most_one_sample_per_resource
    (inspect_memory_usage : Instance -> Z -> Result Exn (MemoryUsageStats float))
    (inspector_class : string) (duration : Z)
    (inspect_oom_status : Instance -> Result Exn (option bool))
    (py_float : string -> option float)
    (inspect_ping_delay : Instance -> Result Exn (option (Delay float)))
    (resources : list Instance) :
  let usage :=
    samples (memory_usage_get_samples inspect_memory_usage inspector_class
               duration resources) in
  let oom := samples (oom_status_get_samples (float := float)
                        inspect_oom_status resources) in
  let ping := samples (ping_delay_get_samples py_float inspect_ping_delay
                         resources) in
  (instance <$> usage) `sublist_of` resources
  /\ (instance <$> oom) `sublist_of` resources
  /\ (instance <$> ping) `sublist_of` resources
  /\ Forall (fun s => name s = "memory.usage" /\ type s = TYPE_GAUGE
                      /\ unit s = "MB") usage
  /\ Forall (fun s => name s = "instance.oom.status" /\ type s = TYPE_GAUGE
                      /\ unit s = "instance"
                      /\ (volume s = VInt 0 \/ volume s = VInt 1)) oom
  /\ Forall (fun s => name s = "instance.ping.delay" /\ type s = TYPE_GAUGE
                      /\ unit s = "instance") ping.
Proof.
  cbn zeta.
  split; [|split; [|split; [|split; [|split]]]].
  - apply samples_sublist. intros i. unfold memory_usage_body.
    destruct (inspect_memory_usage i duration) as [mi|[]]; simpl; eauto.
  - apply samples_sublist. intros i. unfold oom_status_body.
    destruct (inspected (inspect_oom_status i)) as [b|[]]; simpl; eauto.
  - apply samples_sublist. intros i. unfold ping_delay_body.
    destruct (inspected (inspect_ping_delay i)) as [b|[]]; simpl; eauto.
  - unfold memory_usage_get_samples.
    induction resources as [|i l IH]; simpl; [constructor|].
    rewrite samples_app. apply Forall_app. split; [|exact IH].
    unfold memory_usage_body.
    destruct (inspect_memory_usage i duration) as [mi|[]]; simpl;
      repeat constructor.
  - unfold oom_status_get_samples.
    induction resources as [|i l IH]; simpl; [constructor|].
    rewrite samples_app. apply Forall_app. split; [|exact IH].
    unfold oom_status_body.
    destruct (inspected (inspect_oom_status i)) as [[]|[]]; simpl;
      first [ apply List.Forall_nil
            | apply List.Forall_cons;
              [simpl; repeat split; auto | apply List.Forall_nil] ].
  - unfold ping_delay_get_samples.
    induction resources as [|i l IH]; simpl; [constructor|].
    rewrite samples_app. apply Forall_app. split; [|exact IH].
    unfold ping_delay_body.
    destruct (inspected (inspect_ping_delay i)) as [b|[]]; simpl;
      repeat constructor.
Qed.

Section MemoryInfo.
Context {InfoValue : Type} (py_int : InfoValue -> option Z).
Variable inspect_memory_info :
  Instance -> Result Exn (option (gmap string InfoValue)).

Lemma memory_info_handlers_log (p : InfoPollster InfoValue) (i : Instance) (e : Exn) :
  exists lvl msg arg,
    memory_info_handlers (float := float) p i e = [Log lvl msg arg].
Proof. destruct e; simpl; eauto. Qed.

(** X6. In each of the six pollsters that read [inspect_memory_info], an
    instance for which the inspection raises or returns [None], or whose
    dictionary lacks a key or holds a value [int] rejects, is logged once
    and yields no sample, and the run goes on with the next instance; a
    missing guest agent ([InstanceNoQGAException]) is a debug record. *)
Theorem memory_info_failure_is_isolated (p : InfoPollster InfoValue)
    (before after : list Instance) (r : Instance) (e : Exn) :
  memory_info_value p inspect_memory_info r = Raise e ->
  let get_samples :=
    memory_info_get_samples (float := float) p inspect_memory_info in
  (exists lvl msg arg,
     get_samples (before ++ r :: after)
     = get_samples before
       ++ [Log DEBUG (checking p) (id r); Log lvl msg arg]
       ++ get_samples after)
  /\ samples (get_samples (before ++ r :: after))
     = samples (get_samples before) ++ samples (get_samples after)
  /\ (forall err, e = InstanceNoQGAException err ->
      memory_info_body (float := float) p inspect_memory_info r
      = [Log DEBUG (checking p) (id r);
         Log DEBUG "QEMU-GUEST-AGENT is not installed or started in %s"
           (id r)]).
Proof.
  intros He get_samples. subst get_samples. unfold memory_info_get_samples.
  rewrite !flat_map_middle.
  assert (Hbody : memory_info_body (float := float) p inspect_memory_info r
                  = Log DEBUG (checking p) (id r)
                    :: memory_info_handlers p r e).
  { unfold memory_info_body. by rewrite He. }
  rewrite Hbody.
  destruct (memory_info_handlers_log p r e) as (lvl & msg & arg & Hh).
  rewrite Hh. split; [eauto|]. split.
  - rewrite !samples_app. reflexivity.
  - intros err ->. simpl in Hh. injection Hh as <- <- <-. reflexivity.
Qed.

(** The ways the computation of a pollster fails. *)
Lemma memory_info_value_fails (p : InfoPollster InfoValue) (i : Instance) :
  (exists e, inspect_memory_info i = Raise e)
  \/ inspect_memory_info i = Ok None
  \/ (exists mem_info e, inspect_memory_info i = Ok (Some mem_info)
                         /\ compute p mem_info = Raise e) ->
  exists e, memory_info_value p inspect_memory_info i = Raise e.
Proof.
  unfold memory_info_value.
  intros [[e ->]|[->|(mem_info & e & -> & Hc)]]; simpl; eauto.
Qed.

(** X7. [MemoryUnusedPollster] yields the total minus the used memory when
    the dictionary holds both as integers; when "used" is missing it
    yields nothing and logs the exception. *)
Theorem memory_unused_is_total_minus_used (i : Instance)
    (mem_info : gmap string InfoValue) (vt : InfoValue) (total : Z) :
  inspect_memory_info i = Ok (Some mem_info) ->
  mem_info !! "total" = Some vt ->
  py_int vt = Some total ->
  let body :=
    memory_info_body (float := float) (MemoryUnusedPollster py_int)
      inspect_memory_info i in
  (forall vu used,
     mem_info !! "used" = Some vu -> py_int vu = Some used ->
     samples body
     = [ {| instance := i; name := "memory.unused"; type := TYPE_GAUGE;
            unit := "MB"; volume := VInt (total - used) |} ])
  /\ (mem_info !! "used" = None ->
      body = [Log DEBUG "Checking memory unused for instance %s" (id i);
              Log EXCEPTION "Could not get Memory Unsed for %(id)s: %(e)s"
                (id i)]).
Proof.
  intros Hi Ht Hpt body. subst body.
  unfold memory_info_body, memory_info_value. rewrite Hi. simpl.
  unfold int_item. rewrite Ht, Hpt. split.
  - intros vu used Hu Hpu. rewrite Hu, Hpu. reflexivity.
  - intros Hu. rewrite Hu. reflexivity.
Qed.

End MemoryInfo.

(** X8. [InstanceFlavorPollster] has no [try]: an instance whose flavor
    has no name ends the generator with the [KeyError], after the samples
    of the instances before it; no later instance is sampled. *)
Theorem missing_flavor_name_ends_the_sampling
    (flavor : Instance -> gmap string string)
    (before after : list Instance) (r : Instance) :
  Forall (fun i => is_Some (flavor i !! "name")) before ->
  flavor r !! "name" = None ->
  let all := instance_flavor_get_samples (float := float) flavor
               (before ++ r :: after) in
  instance <$> all.1 = before
  /\ all.2 = Some (OtherException "KeyError")
  /\ instance_flavor_get_samples (float := float) flavor before
     = (all.1, None).
Proof.
  intros Hbefore Hr. cbn zeta.
  induction Hbefore as [|i l [n Hn] _ IH]; simpl.
  - rewrite Hr. repeat split.
  - rewrite Hn.
    destruct (instance_flavor_get_samples flavor (l ++ r :: after))
      as [rest ended].
    destruct (instance_flavor_get_samples flavor l) as [rest' ended'].
    simpl in *. destruct IH as (Hinst & Hended & Hsame).
    injection Hsame as -> ->.
    repeat split; [simpl; f_equal; exact Hinst|exact Hended].
Qed.

End MorePollsterFacts.

(** ** Pollsters: isolation of a failing instance *)

Section IsolationFacts.
Import Discovery Pollsters MorePollsters.
Context {float InfoValue Described : Type}.
Context (py_int : InfoValue -> option Z).
Context (py_str : Described -> Result Exn string).
Context (py_float : string -> option float).

(** The inspector, the name of its class and what [_record_poll_time]
    returned. *)
Context (inspect_memory_usage
         : Instance -> Z -> Result Exn (MemoryUsageStats float)).
Context (inspect_memory_resident
         : Instance -> Z -> Result Exn (MemoryResidentStats float)).
Context (inspect_memory_info
         : Instance -> Result Exn (option (gmap string InfoValue))).
Context (inspect_system_info : Instance -> Result Exn (option Described)).
Context (inspect_oom_status : Instance -> Result Exn (option bool)).
Context (inspect_app_stats : Instance -> Result Exn (option Described)).
Context (inspect_ping_delay : Instance -> Result Exn (option (Delay float))).
Context (inspector_class : string) (duration : Z).
Context (flavor : Instance -> gmap string string).

(** A loop whose body, for [r], logs the check and one more record. *)
Lemma skipped_flat_map {E S : Type} (log : Level -> string -> string -> E)
    (yield : E -> option S) (body : Instance -> list E) (checking : string)
    (before after : list Instance) (r : Instance) :
  (forall lvl msg arg, yield (log lvl msg arg) = None) ->
  (exists lvl msg arg,
     body r = [log DEBUG checking (id r); log lvl msg arg]) ->
  skipped log (omap yield) (flat_map body) checking before r after.
Proof.
  intros Hlog (lvl & msg & arg & Hbody). unfold skipped.
  rewrite flat_map_middle, Hbody. split; [eauto|].
  rewrite !omap_app. simpl. by rewrite !Hlog.
Qed.

Lemma memory_resident_body_failure (r : Instance) (e : Exn) :
  inspect_memory_resident r duration = Raise e ->
  exists lvl msg arg,
    memory_resident_body inspect_memory_resident inspector_class duration r
    = [Log DEBUG "Checking resident memory for instance %s" (id r);
       Log lvl msg arg].
Proof.
  intros He. unfold memory_resident_body. rewrite He. destruct e; eauto.
Qed.

Lemma memory_info_body_failure (p : InfoPollster InfoValue) (r : Instance)
    (e : Exn) :
  memory_info_value p inspect_memory_info r = Raise e ->
  exists lvl msg arg,
    memory_info_body (float := float) p inspect_memory_info r
    = [Log DEBUG (checking p) (id r); Log lvl msg arg].
Proof.
  intros He. unfold memory_info_body. rewrite He.
  destruct (memory_info_handlers_log (float := float) p r e)
    as (lvl & msg & arg & ->). eauto.
Qed.

Lemma described_body_failure (p : DescribedPollster)
    (inspect : Instance -> Result Exn (option Described)) (r : Instance)
    (e : Exn) :
  described_value py_str inspect r = Raise e ->
  exists lvl msg arg,
    described_body (float := float) py_str p inspect r
    = [LogRecord DEBUG (described_checking p) (id r); LogRecord lvl msg arg].
Proof.
  intros He. unfold described_body. rewrite He. destruct e; simpl; eauto.
Qed.

Lemma ping_delay_body_failure (r : Instance) (e : Exn) :
  inspected (inspect_ping_delay r) = Raise e ->
  exists lvl msg arg,
    ping_delay_body py_float inspect_ping_delay r
    = [Log DEBUG "Checking ping delay for instance %s" (id r);
       Log lvl msg arg].
Proof.
  intros He. unfold ping_delay_body. rewrite He.
  destruct (instance_handlers_log (float := float) "Ping Delay" r e)
    as (lvl & msg & arg & ->). eauto.
Qed.

(** A generator without [try] yields the samples of the instances before
    the one that fails, and ends. *)
Lemma instance_flavor_failure (before after : list Instance) (r : Instance) :
  Forall (fun i => is_Some (flavor i !! "name")) before ->
  flavor r !! "name" = None ->
  instance_flavor_get_samples (float := float) flavor (before ++ r :: after)
  = ((instance_flavor_get_samples (float := float) flavor before).1,
     Some (OtherException "KeyError"))
  /\ (instance_flavor_get_samples (float := float) flavor before).2 = None.
Proof.
  intros Hbefore Hr. induction Hbefore as [|i before [v Hv] _ IH]; simpl.
  - by rewrite Hr.
  - rewrite Hv. destruct IH as [-> IH2].
    destruct (instance_flavor_get_samples flavor before) as [l ended].
    simpl in *. by subst ended.
Qed.

(** C9, as the code has it. In the twelve pollsters whose loop body is a
    [try] block closed by [except Exception] ([MemoryUsagePollster],
    [MemoryResidentPollster], the six pollsters of [inspect_memory_info],
    [InstanceSystemInfoPollster], [InstanceOOMStatusPollster],
    [InstanceAppStatsPollster] and [InstancePingDelayPollster]) an
    instance for which the block raises, whatever the exception, is logged
    once and yields no sample, and the run goes on: what is produced before
    it and after it is what would be produced without it.
    [InstanceFlavorPollster] has no [try]: an instance whose flavor has no
    name ends its generator with the exception, after the samples of the
    instances before it, and the instances after it are not sampled. *)
Theorem failing_instance_is_skipped_and_sampling_goes_on
    (before after : list Instance) (r : Instance) :
  (forall e, inspect_memory_usage r duration = Raise e ->
     skipped Log samples
       (memory_usage_get_samples inspect_memory_usage inspector_class duration)
       "Checking memory usage for instance %s" before r after)
  /\ (forall e, inspect_memory_resident r duration = Raise e ->
      skipped Log samples
        (memory_resident_get_samples inspect_memory_resident inspector_class
           duration)
        "Checking resident memory for instance %s" before r after)
  /\ (forall p e,
        p ∈ [MemoryTotalPollster py_int; MemoryUnusedPollster py_int;
             MemorySwapTotalPollster py_int; MemorySwapFreePollster py_int;
             MemoryBufferPollster py_int; MemoryCachedPollster py_int] ->
        memory_info_value p inspect_memory_info r = Raise e ->
        skipped Log (samples (float := float))
          (memory_info_get_samples p inspect_memory_info)
          (checking p) before r after)
  /\ (forall e, described_value py_str inspect_system_info r = Raise e ->
      skipped LogRecord (described_samples (float := float))
        (described_get_samples py_str InstanceSystemInfoPollster
           inspect_system_info)
        "Checking system info for instance %s" before r after)
  /\ (forall e, inspected (inspect_oom_status r) = Raise e ->
      skipped Log (samples (float := float))
        (oom_status_get_samples inspect_oom_status)
        "Checking oom status for instance %s" before r after)
  /\ (forall e, described_value py_str inspect_app_stats r = Raise e ->
      skipped LogRecord (described_samples (float := float))
        (described_get_samples py_str InstanceAppStatsPollster
           inspect_app_stats)
        "Checking app stats for instance %s" before r after)
  /\ (forall e, inspected (inspect_ping_delay r) = Raise e ->
      skipped Log samples
        (ping_delay_get_samples py_float inspect_ping_delay)
        "Checking ping delay for instance %s" before r after)
  /\ (Forall (fun i => is_Some (flavor i !! "name")) before ->
      flavor r !! "name" = None ->
      let all := instance_flavor_get_samples (float := float) flavor
                   (before ++ r :: after) in
      all.2 = Some (OtherException "KeyError")
      /\ instance <$> all.1 = before
      /\ instance_flavor_get_samples (float := float) flavor before
         = (all.1, None)).
Proof.
  assert (Hlog : forall lvl msg arg,
             (fun e : Event float =>
                match e with Yield s => Some s | Log _ _ _ => None end)
               (Log lvl msg arg) = None) by reflexivity.
  assert (Hrecord : forall lvl msg arg,
             (fun e : DescribedEvent float =>
                match e with
                | YieldWith s meta => Some (s, meta)
                | LogRecord _ _ _ => None
                end) (LogRecord lvl msg arg) = None) by reflexivity.
  split; [|split; [|split; [|split; [|split; [|split; [|split]]]]]].
  - intros e He. apply (skipped_flat_map Log _ _ _ _ _ _ Hlog).
    by apply (memory_usage_body_failure _ _ _ _ e).
  - intros e He. apply (skipped_flat_map Log _ _ _ _ _ _ Hlog).
    by apply (memory_resident_body_failure _ e).
  - intros p e _ He. apply (skipped_flat_map Log _ _ _ _ _ _ Hlog).
    by apply (memory_info_body_failure _ _ e).
  - intros e He. apply (skipped_flat_map LogRecord _ _ _ _ _ _ Hrecord).
    by apply (described_body_failure InstanceSystemInfoPollster _ _ e).
  - intros e He. apply (skipped_flat_map Log _ _ _ _ _ _ Hlog).
    by apply (oom_status_body_failure _ _ e).
  - intros e He. apply (skipped_flat_map LogRecord _ _ _ _ _ _ Hrecord).
    by apply (described_body_failure InstanceAppStatsPollster _ _ e).
  - intros e He. apply (skipped_flat_map Log _ _ _ _ _ _ Hlog).
    by apply (ping_delay_body_failure _ e).
  - intros Hbefore Hr. cbn zeta.
    destruct (instance_flavor_failure before after r Hbefore Hr) as [-> Hnone].
    simpl. split; [reflexivity|]. split.
    + clear Hnone. induction Hbefore as [|i l [v Hv] _ IH]; simpl;
        [reflexivity|]. rewrite Hv.
      destruct (instance_flavor_get_samples flavor l) as [rest ended].
      simpl in *. f_equal. exact IH.
    + destruct (instance_flavor_get_samples flavor before) as [l ended].
      simpl in *. by subst ended.
Qed.

End IsolationFacts.

(** ** The dispatcher: definitions and meters *)

Section DefinitionFacts.
Import Batching Gnocchi MoreGnocchi.

Lemma metrics_fold_lookup (rd : ResourcesDefinition) (l : list string)
    (acc : gmap string Policy) (t : string) :
  fold_left
    (fun metrics t =>
       let archive_policy :=
         match cfg_archive_policy rd with
         | Some value => value
         | None => _default_archive_policy rd
         end in
       match archive_policy with
       | None => <[t := NoPolicy]> metrics
       | Some p => <[t := ArchivePolicyName p]> metrics
       end) l acc !! t
  = if bool_decide (t ∈ l) then Some (policy_of rd) else acc !! t.
Proof.
  revert acc. induction l as [|x l IH]; intros acc; simpl.
  - reflexivity.
  - rewrite IH. unfold policy_of.
    destruct (decide (t ∈ l)) as [Hin|Hin].
    + rewrite !bool_decide_eq_true_2; [reflexivity|by right|exact Hin].
    + rewrite (bool_decide_eq_false_2 _ Hin).
      destruct (decide (t = x)) as [->|Hne].
      * rewrite bool_decide_eq_true_2 by (by left).
        destruct (cfg_archive_policy rd) as [[?|]|],
          (_default_archive_policy rd); apply lookup_insert_eq.
      * rewrite bool_decide_eq_false_2
          by (intros Hc; apply elem_of_cons in Hc as [?|?]; done).
        destruct (cfg_archive_policy rd) as [[?|]|],
          (_default_archive_policy rd); by apply lookup_insert_ne.
Qed.

(** X9. [ResourcesDefinition.metrics] has one entry for each declared
    pattern and no other. Its value is the policy the definition names; the
    empty policy if the definition has [archive_policy: null], whatever the
    default; without an entry, the default policy of the dispatcher, or the
    empty policy if there is none. A meter name that is not itself one of
    the patterns has no entry. *)
Theorem metrics_has_the_declared_patterns (rd : ResourcesDefinition)
    (t : string) :
  metrics rd !! t
  = if bool_decide (t ∈ cfg_metrics rd) then Some (policy_of rd) else None.
Proof. unfold metrics. by rewrite metrics_fold_lookup, lookup_empty. Qed.

Context (env : Env) (conf : Conf).

(** X10. [_get_resource_definition] returns the first definition, in the
    order of the file, one of whose patterns matches the meter; it returns
    nothing exactly when no definition matches. *)
Theorem first_matching_definition_wins (metric_name : string) :
  (forall rd,
     _get_resource_definition env conf metric_name = Some rd <->
     exists before after,
       resources_definition conf = before ++ rd :: after
       /\ rd_match env rd metric_name = true
       /\ Forall (fun r => rd_match env r metric_name = false) before)
  /\ (_get_resource_definition env conf metric_name = None <->
      Forall (fun r => rd_match env r metric_name = false)
        (resources_definition conf)).
Proof.
  unfold _get_resource_definition.
  induction (resources_definition conf) as [|r l [IHs IHn]]; simpl.
  - split.
    + intros rd. split; [discriminate|].
      intros (before & after & Heq & _). by destruct before.
    + split; [constructor|reflexivity].
  - destruct (rd_match env r metric_name) eqn:Hr.
    + split.
      * intros rd. split.
        -- intros [= <-]. exists [], l. repeat split; [exact Hr|constructor].
        -- intros ([|b before] & after & Heq & Hm & Hbefore).
           ++ simpl in Heq. by injection Heq as ->.
           ++ simpl in Heq. injection Heq as -> _.
              inversion Hbefore; congruence.
      * split; [discriminate|]. intros Hall. inversion Hall; congruence.
    + split.
      * intros rd. rewrite IHs. split.
        -- intros (before & after & -> & Hm & Hbefore).
           exists (r :: before), after. repeat split; [exact Hm|by constructor].
        -- intros ([|b before] & after & Heq & Hm & Hbefore).
           ++ simpl in Heq. injection Heq as <- _. congruence.
           ++ simpl in Heq. injection Heq as <- ->.
              exists before, after. repeat split; [exact Hm|].
              by inversion Hbefore.
      * rewrite IHn. split; [by constructor|]. intros Hall. by inversion Hall.
Qed.

End DefinitionFacts.

(** ** The dispatcher: what a run can do *)

Section BoundFacts.
Import Batching Gnocchi MoreGnocchi.
Context (env : Env) (conf : Conf).

Lemma within_nil : within 0 0 [].
Proof. unfold within, count. simpl. lia. Qed.

Lemma within_app (p1 u1 p2 u2 : nat) (a b : list Event) :
  within p1 u1 a -> within p2 u2 b -> within (p1 + p2) (u1 + u2) (a ++ b).
Proof. unfold within. rewrite !count_app. lia. Qed.

Lemma within_mono (p u p' u' : nat) (evs : list Event) :
  within p u evs -> p <= p' -> u <= u' -> within p' u' evs.
Proof. unfold within. lia. Qed.

(** A step that appends [evs1], followed by a step that appends [evs2]. *)
Lemma within_extend (p1 u1 p2 u2 : nat) (d d1 d2 : Dispatcher)
    (evs1 evs2 : list Event) :
  d1 = extend d evs1 -> d2 = extend d1 evs2 ->
  within p1 u1 evs1 -> within p2 u2 evs2 ->
  d2 = extend d (evs1 ++ evs2) /\ within (p1 + p2) (u1 + u2) (evs1 ++ evs2).
Proof.
  intros -> -> H1 H2. split; [apply extend_extend|by apply within_app].
Qed.

Ltac within_list := unfold within, count; simpl; lia.

Lemma create_metric_unless_exists_within (rt : string)
    (resource : gmap string PyVal) (metric_name : string) (d : Dispatcher) :
  exists evs,
    (create_metric_unless_exists env rt resource metric_name d).2 = extend d evs
    /\ within 0 0 evs.
Proof.
  unfold create_metric_unless_exists, metric_policy, try_except, getitem.
  unfold mbind, M_bind, mret, M_ret, raise.
  destruct (resource !! "metrics") as [[| |m]|]; simpl;
    try (exists []; split; [by rewrite extend_nil|apply within_nil]).
  destruct (m !! metric_name) as [policy|]; simpl;
    try (exists []; split; [by rewrite extend_nil|apply within_nil]).
  destruct (resource !! "id") as [rid|]; simpl;
    try (exists []; split; [by rewrite extend_nil|apply within_nil]).
  rewrite call_run.
  exists [Gnocchi (create_metric rt rid metric_name policy)
            (gnocchi env (history d) (create_metric rt rid metric_name policy))].
  split; [|within_list].
  destruct (gnocchi env (history d) _) as [[]|]; reflexivity.
Qed.

Lemma cache_guarded_within (c : GnocchiCall) (recheck_hit first_hit : string)
    (resource : gmap string PyVal) (d : Dispatcher) :
  (forall r, is_post (Gnocchi c r) = false) ->
  exists evs,
    (cache_guarded env c recheck_hit first_hit resource d).2 = extend d evs
    /\ within 0 1 evs
    /\ ((forall r, is_update_resource (Gnocchi c r) = false) ->
        within 0 0 evs).
Proof.
  intros Hpost.
  destruct (resource !! "id") as [[| s |m]|] eqn:Hid;
    try (exists []; unfold cache_guarded, getitem, mbind, M_bind;
         rewrite Hid; simpl; rewrite extend_nil;
         split; [reflexivity|split; [|intros _]; within_list]).
  rewrite (cache_guarded_run env _ _ _ _ s d Hid). cbn zeta.
  destruct c; try (specialize (Hpost None); discriminate);
    (destruct (_ || _);
     [|destruct (bool_decide _); [|destruct (gnocchi env _ _) as [e|]]];
     (eexists; split; [reflexivity|]);
     (split; [|intros Hupdate;
               try (specialize (Hupdate None); discriminate)];
      within_list)).
Qed.

Lemma call_within (c : GnocchiCall) (d : Dispatcher) :
  (call env c d).2 = extend d [Gnocchi c (gnocchi env (history d) c)]
  /\ within 1 1 [Gnocchi c (gnocchi env (history d) c)].
Proof.
  rewrite call_run. split; [reflexivity|].
  destruct c; within_list.
Qed.

Lemma _ensure_resource_and_metric_within (rt : string)
    (resource : gmap string PyVal) (metric_name : string) (d : Dispatcher) :
  exists evs,
    (_ensure_resource_and_metric env conf rt resource metric_name d).2
    = extend d evs
    /\ within 0 0 evs.
Proof.
  assert (Hstage : exists evs,
             (create_resource_unless_cached env conf rt resource d).2
             = extend d evs /\ within 0 0 evs).
  { rewrite create_resource_unless_cached_run. destruct (cache conf).
    - destruct (cache_guarded_within (create_resource rt resource)
                  "recheck resource cache hit for create %s"
                  "recheck resource cache hit for create %s" resource d)
        as (evs & Hd & _ & Hw); [reflexivity|].
      exists evs. split; [exact Hd|]. apply Hw. reflexivity.
    - rewrite call_run. eexists. split; [reflexivity|]. within_list. }
  rewrite _ensure_resource_and_metric_run.
  destruct Hstage as (e1 & H1 & W1).
  destruct (create_resource_unless_cached env conf rt resource d) as [r1 d1].
  simpl in H1. subst d1.
  destruct (create_metric_unless_exists_within rt resource metric_name
              (extend d e1)) as (e2 & H2 & W2).
  destruct r1 as [[]|exn].
  - exists (e1 ++ e2). rewrite H2, extend_extend. split; [reflexivity|].
    apply (within_app 0 0 0 0); assumption.
  - destruct exn; try (exists e1; split; [reflexivity|assumption]).
    destruct (create_metric_unless_exists env rt resource metric_name
                (extend d e1)) as [r2 d2]. simpl in H2. subst d2.
    destruct r2 as [[]|exn2].
    + destruct (create_metric_unless_exists_within rt resource metric_name
                  (extend (extend d e1) e2)) as (e3 & H3 & W3).
      exists (e1 ++ e2 ++ e3). rewrite H3, !extend_extend.
      rewrite <- ?app_assoc. split; [reflexivity|].
      apply (within_app 0 0 0 0); [assumption|].
      apply (within_app 0 0 0 0); assumption.
    + exists (e1 ++ e2). simpl. rewrite extend_extend.
      split; [reflexivity|]. apply (within_app 0 0 0 0); assumption.
Qed.

Lemma post_with_repair_within (rt rid : string) (resource : gmap string PyVal)
    (metric_name : string) (measures : list Measure) (d : Dispatcher) :
  exists evs,
    (post_with_repair env conf rt rid resource metric_name measures d).2
    = extend d evs
    /\ within 2 0 evs.
Proof.
  rewrite post_with_repair_run. cbn zeta.
  destruct (gnocchi env (history d) _) as [[]|];
    try (eexists; split; [reflexivity|within_list]).
  destruct (_ensure_resource_and_metric_within rt resource metric_name
              (extend d [Gnocchi (post_measure rt rid metric_name measures)
                           (Some NoSuchMetric)])) as (evs & Hd & Hw).
  destruct (_ensure_resource_and_metric env conf rt resource metric_name _)
    as [r d2]. simpl in Hd. subst d2. rewrite extend_extend.
  assert (Hhead : within 1 0 [Gnocchi (post_measure rt rid metric_name
                                          measures) (Some NoSuchMetric)])
    by within_list.
  destruct r as [[]|e].
  - simpl.
    destruct (gnocchi env _ _) as [[]|]; simpl; rewrite extend_extend;
      (eexists; split; [reflexivity|]);
      (apply (within_app 1 0 1 0 [_] (evs ++ _)); [exact Hhead|]);
      (apply (within_app 0 0 1 0); [exact Hw|within_list]).
  - simpl. eexists. split; [reflexivity|].
    apply (within_mono 1 0); [|lia..].
    apply (within_app 1 0 0 0 [_] evs); assumption.
Qed.

Lemma process_metric_group_within (rid : string) (loc : Locals)
    (group : string * list Sample) (d : Dispatcher) :
  exists evs,
    (process_metric_group env conf rid loc group d).2 = extend d evs
    /\ within 2 0 evs.
Proof.
  destruct group as [metric_name samples]. unfold process_metric_group.
  destruct (_get_resource_definition env conf metric_name) as [rd|].
  - destruct (cfg_ignore rd).
    + exists []. split; [by rewrite extend_nil|].
      apply (within_mono 0 0); [apply within_nil|lia..].
    + destruct samples as [|first samples].
      * exists []. split; [by rewrite extend_nil|].
        apply (within_mono 0 0); [apply within_nil|lia..].
      * unfold mbind, M_bind, mret, M_ret.
        match goal with
        | |- context [post_with_repair env conf ?a ?b ?c ?e ?f d] =>
            destruct (post_with_repair_within a b c e f d) as (evs & Hd & Hw);
            destruct (post_with_repair env conf a b c e f d) as [[[]|?] d1]
        end; simpl in *; subst d1; exists evs; split; auto.
  - unfold mbind, M_bind, mret, M_ret, log, emit. simpl.
    eexists. split; [reflexivity|]. within_list.
Qed.

Lemma process_metric_groups_within (rid : string)
    (groups : list (string * list Sample)) (loc : Locals) (d : Dispatcher) :
  exists evs,
    (process_metric_groups env conf rid groups loc d).2 = extend d evs
    /\ within (2 * length groups) 0 evs.
Proof.
  revert loc d. induction groups as [|group groups IH]; intros loc d.
  - exists []. split; [by rewrite extend_nil|apply within_nil].
  - cbn [process_metric_groups]. unfold mbind, M_bind.
    destruct (process_metric_group_within rid loc group d) as (e1 & H1 & W1).
    destruct (process_metric_group env conf rid loc group d) as [[loc1|e] d1];
      simpl in H1; subst d1.
    + destruct (IH loc1 (extend d e1)) as (e2 & H2 & W2).
      exists (e1 ++ e2). rewrite H2, extend_extend. split; [reflexivity|].
      replace (2 * length (group :: groups)) with (2 + 2 * length groups)
        by (simpl; lia).
      apply (within_app 2 0 _ 0); assumption.
    + exists e1. split; [reflexivity|].
      apply (within_mono 2 0); [assumption|simpl; lia|lia].
Qed.

Lemma reconcile_attributes_within (rid : string) (loc : Locals)
    (d : Dispatcher) :
  exists evs,
    (reconcile_attributes env conf rid loc d).2 = extend d evs
    /\ within 0 1 evs.
Proof.
  unfold reconcile_attributes. case_bool_decide as Hne.
  - destruct (bound loc) as [[rt resource]|].
    + change (exists evs,
                 ((if cache conf
                   then cache_guarded env
                          (update_resource rt rid (resource_extra loc))
                          "recheck resource cache hit for update %s"
                          "resource cache hit for update %s" resource
                   else call env (update_resource rt rid (resource_extra loc)))
                    d).2 = extend d evs /\ within 0 1 evs).
      destruct (cache conf).
      * destruct (cache_guarded_within
                    (update_resource rt rid (resource_extra loc))
                    "recheck resource cache hit for update %s"
                    "resource cache hit for update %s" resource d)
          as (evs & Hd & Hw & _); [reflexivity|]. eauto.
      * rewrite call_run. eexists. split; [reflexivity|]. within_list.
    + exists []. split; [by rewrite extend_nil|].
      apply (within_mono 0 0); [apply within_nil|lia..].
  - exists []. split; [by rewrite extend_nil|].
    apply (within_mono 0 0); [apply within_nil|lia..].
Qed.

Lemma _process_resource_within (rid : string)
    (groups : list (string * list Sample)) (d : Dispatcher) :
  let run := _process_resource env conf rid groups d in
  exists evs,
    run.2 = extend d evs
    /\ count is_post evs <= 2 * length groups
    /\ count is_update_resource evs <= 1
    /\ count is_acquire evs = count is_release evs
    /\ count is_tenants_find evs = 0
    /\ forall msg, run.1 <> Raise (UnexpectedError msg).
Proof.
  cbn zeta. unfold _process_resource, log_and_ignore_unexpected_workflow_error.
  unfold try_except, mbind, M_bind.
  destruct (process_metric_groups_within rid groups
              {| resource_extra := ∅; bound := None |} d) as (e1 & H1 & W1).
  destruct (process_metric_groups env conf rid groups _ d) as [[loc|e] d1];
    simpl in H1; subst d1.
  - destruct (reconcile_attributes_within rid loc (extend d e1))
      as (e2 & H2 & W2).
    destruct (reconcile_attributes env conf rid loc (extend d e1))
      as [[[]|e] d2]; simpl in H2; subst d2.
    + exists (e1 ++ e2). rewrite extend_extend.
      pose proof (within_app _ _ _ _ _ _ W1 W2) as (? & ? & ? & ?).
      simpl. repeat split; try lia; intros; congruence.
    + pose proof (within_app _ _ _ _ _ _ W1 W2) as (Hp & Hu & Hl & Ht).
      destruct e; simpl;
        try (exists (e1 ++ e2); rewrite extend_extend;
             repeat split; try lia; intros; congruence).
      exists ((e1 ++ e2) ++ [Log ERROR msg]).
      unfold log, emit. simpl. unfold extend. simpl. rewrite <- !app_assoc.
      split; [reflexivity|]. rewrite !app_assoc.
      assert (Hlog : within 0 0 [Log ERROR msg]) by within_list.
      pose proof (within_app _ _ _ _ _ _ (within_app _ _ _ _ _ _ W1 W2) Hlog)
        as (? & ? & ? & ?).
      repeat split; try lia; intros; congruence.
  - destruct W1 as (Hp & Hu & Hl & Ht).
    destruct e; simpl;
      try (exists e1; repeat split; try lia; intros; congruence).
    exists (e1 ++ [Log ERROR msg]).
    unfold log, emit. simpl. unfold extend. simpl. rewrite <- ?app_assoc.
    split; [reflexivity|].
    assert (Hlog : within 0 0 [Log ERROR msg]) by within_list.
    pose proof (within_app _ _ _ _ _ _
                  (conj Hp (conj Hu (conj Hl Ht)) : within _ _ e1) Hlog)
      as (? & ? & ? & ?).
    repeat split; try lia; intros; congruence.
Qed.

(** X11. Whatever the backend answers, the processing of one resource
    group posts at most twice per meter group, updates the resource at most
    once, releases every lock it takes, never looks up the service project
    and never raises an [UnexpectedError]. *)
Theorem resource_group_is_updated_at_most_once (rid : string)
    (groups : list (string * list Sample)) (d : Dispatcher) :
  let run := _process_resource env conf rid groups d in
  exists evs,
    run.2 = extend d evs
    /\ count is_post evs <= 2 * length groups
    /\ count is_update_resource evs <= 1
    /\ count is_acquire evs = count is_release evs
    /\ count is_tenants_find evs = 0
    /\ forall msg, run.1 <> Raise (UnexpectedError msg).
Proof. exact (_process_resource_within rid groups d). Qed.

Lemma process_resources_within
    (groups : list (string * list (string * list Sample))) (d : Dispatcher) :
  exists evs,
    (process_resources env conf groups d).2 = extend d evs
    /\ within (2 * length (concat (map snd groups))) (length groups) evs.
Proof.
  revert d. induction groups as [|[rid mg] groups IH]; intros d.
  - exists []. split; [by rewrite extend_nil|apply within_nil].
  - cbn [process_resources]. unfold mbind, M_bind.
    destruct (_process_resource_within rid mg d)
      as (e1 & H1 & Hp & Hu & Hl & Ht & _).
    assert (W1 : within (2 * length mg) 1 e1) by (unfold within; auto).
    destruct (_process_resource env conf rid mg d) as [[[]|e] d1];
      simpl in H1; subst d1.
    + destruct (IH (extend d e1)) as (e2 & H2 & W2).
      exists (e1 ++ e2). rewrite H2, extend_extend. split; [reflexivity|].
      eapply within_mono; [exact (within_app _ _ _ _ _ _ W1 W2)|..].
      * simpl. rewrite length_app. lia.
      * simpl. lia.
    + exists e1. split; [reflexivity|].
      eapply within_mono; [exact W1|..].
      * simpl. rewrite length_app. lia.
      * simpl. lia.
Qed.

Lemma insert_by_length {A K : Type} (key : A -> K) (ltb : K -> K -> bool)
    (x : A) (l : list A) :
  length (insert_by key ltb x l) = S (length l).
Proof.
  induction l as [|y l IH]; simpl; [reflexivity|].
  destruct (ltb (key y) (key x)); simpl; by rewrite ?IH.
Qed.

Lemma sort_by_length {A K : Type} (key : A -> K) (ltb : K -> K -> bool)
    (l : list A) :
  length (sort_by key ltb l) = length l.
Proof.
  induction l as [|x l IH]; simpl; [reflexivity|].
  by rewrite insert_by_length, IH.
Qed.

Lemma groupby_length {A : Type} (key : A -> string) (l : list A) :
  length (groupby key l) <= length l.
Proof.
  induction l as [|x l IH]; simpl; [lia|].
  destruct (groupby key l) as [|[k g] gs]; simpl in *; [lia|].
  destruct (String.eqb (key x) k); simpl; lia.
Qed.

Lemma grouped_sizes (data : list Sample) :
  length (grouped data) <= length data
  /\ length (concat (map snd (grouped data))) <= length data.
Proof.
  unfold grouped.
  set (sorted := sort_by sort_key key_ltb data).
  assert (Hlen : length sorted = length data) by apply sort_by_length.
  rewrite <- Hlen. split.
  - rewrite length_map. apply groupby_length.
  - rewrite <- (groupby_concat resource_id sorted) at 2.
    induction (groupby resource_id sorted) as [|[rid samples] gs IH]; simpl;
      [lia|].
    rewrite !length_app. pose proof (groupby_length counter_name samples).
    lia.
Qed.

(** X12. Whatever the backend answers, a batch makes at most two posts and
    one resource update per sample, releases every lock it takes (also when
    a call raises), and looks up the service project at most once; a
    dispatcher that knows the project id keeps it and never looks it up
    again. *)
Theorem batch_is_bounded_and_releases_its_locks (data : list Sample)
    (d : Dispatcher) :
  let run := record_metering_data env conf data d in
  exists evs,
    history run.2 = history d ++ evs
    /\ count is_post evs <= 2 * length data
    /\ count is_update_resource evs <= length data
    /\ count is_acquire evs = count is_release evs
    /\ count is_tenants_find evs <= 1
    /\ (forall p, _gnocchi_project_id d = Some p ->
                  run.2 = extend d evs /\ count is_tenants_find evs = 0).
Proof.
  cbn zeta.
  assert (Hkept : forall kept d1,
             length kept <= length data ->
             exists evs,
               (process_resources env conf (grouped kept) d1).2
               = extend d1 evs
               /\ within (2 * length data) (length data) evs).
  { intros kept d1 Hlen.
    destruct (process_resources_within (grouped kept) d1) as (evs & Hd & Hw).
    exists evs. split; [exact Hd|].
    destruct (grouped_sizes kept). eapply within_mono; [exact Hw|lia..]. }
  assert (Hfilter : forall q, length (List.filter q data) <= length data).
  { intros q. apply List.filter_length_le. }
  unfold record_metering_data, mbind, M_bind.
  destruct (filter_service_activity conf) eqn:Hf.
  - destruct data as [|s data'] eqn:Hdata.
    + exists []. simpl. rewrite app_nil_r, extend_nil.
      unfold count. simpl. repeat split; lia.
    + rewrite <- Hdata in *.
      assert (Hres := drop_gnocchi_activity_resolves env conf d s data' Hf).
      rewrite <- Hdata in Hres. rewrite Hres. clear Hres.
      destruct (_gnocchi_project_id d) as [q|] eqn:Hq.
      * rewrite (gnocchi_project_id_memo env conf d q Hq).
        destruct (Hkept (List.filter
                           (fun s => negb (gnocchi_activity env conf q s))
                           data) d (Hfilter _))
          as (evs & Hd & Hp & Hu & Hl & Ht).
        exists evs. rewrite Hd. simpl.
        repeat split; try lia; try congruence.
      * rewrite (gnocchi_project_id_resolve env conf d Hq). cbn zeta.
        destruct (tenants_find env _ _) as [p|e].
        -- match goal with
           | |- context [process_resources env conf ?g ?d1] =>
               destruct (Hkept
                           (List.filter
                              (fun s => negb (gnocchi_activity env conf p s))
                              data) d1 (Hfilter _))
                 as (evs & Hd & Hp & Hu & Hl & Ht)
           end.
           eexists (_ ++ evs). rewrite Hd. simpl.
           rewrite <- app_assoc. split; [reflexivity|].
           rewrite !count_app. unfold count at 1 3 5 7 9. simpl.
           repeat split; try lia; try congruence.
        -- eexists. simpl. split; [reflexivity|].
           unfold count. simpl. repeat split; try lia; try congruence.
  - rewrite (drop_gnocchi_activity_disabled env conf d data Hf).
    destruct (Hkept data d (le_n _)) as (evs & Hd & Hp & Hu & Hl & Ht).
    exists evs. rewrite Hd. simpl. repeat split; try lia; try congruence.
Qed.

End BoundFacts.

(** ** The dispatcher: what an exception of the backend ends *)

Section FailureFacts.
Import Batching Gnocchi MoreGnocchi.
Context (env : Env) (conf : Conf).

(** An iteration of the loop for a meter that is handled. *)
Lemma process_metric_group_run (rid : string) (loc : Locals)
    (metric_name : string) (first : Sample) (samples : list Sample)
    (rd : ResourcesDefinition) (d : Dispatcher) :
  _get_resource_definition env conf metric_name = Some rd ->
  cfg_ignore rd = false ->
  let extra := extend_extra rd (first :: samples) (resource_extra loc) in
  let resource := (PStr <$> extra) ∪ new_resource rid first rd in
  process_metric_group env conf rid loc (metric_name, first :: samples) d
  = match post_with_repair env conf (resource_type rd) rid resource
            metric_name (measures_of (first :: samples)) d with
    | (Ok _, d1) =>
        (Ok {| resource_extra := extra;
               bound := Some (resource_type rd, resource) |}, d1)
    | (Raise e, d1) => (Raise e, d1)
    end.
Proof.
  intros Hrd Hig. cbn zeta. unfold process_metric_group. rewrite Hrd, Hig.
  unfold mbind, M_bind, mret, M_ret.
  destruct (post_with_repair env conf _ _ _ _ _ d) as [[[]|e] d1];
    reflexivity.
Qed.

(** A first post that raises anything but [NoSuchMetric] ends the loop of
    [_process_resource] with that exception. *)
Lemma process_metric_groups_first_post_raises (rid metric_name : string)
    (first : Sample) (samples : list Sample)
    (more : list (string * list Sample)) (rd : ResourcesDefinition)
    (e : Exn) (d : Dispatcher) :
  _get_resource_definition env conf metric_name = Some rd ->
  cfg_ignore rd = false ->
  let post := post_measure (resource_type rd) rid metric_name
                (measures_of (first :: samples)) in
  gnocchi env (history d) post = Some e ->
  e <> NoSuchMetric ->
  process_metric_groups env conf rid ((metric_name, first :: samples) :: more)
    {| resource_extra := ∅; bound := None |} d
  = (Raise e, extend d [Gnocchi post (Some e)]).
Proof.
  intros Hrd Hig post Hpost Hne. cbn [process_metric_groups].
  unfold mbind at 1, M_bind at 1.
  rewrite (process_metric_group_run _ _ _ _ _ rd d Hrd Hig). cbn zeta.
  rewrite post_with_repair_run. cbn zeta. fold post. rewrite Hpost.
  destruct e; try reflexivity. congruence.
Qed.

(** X13. When the first post of a resource group raises an
    [UnexpectedError], the error is logged, the other meter groups of that
    resource are neither posted nor is the resource updated, and the batch
    goes on with the next resource. *)
Theorem unexpected_error_skips_the_rest_of_the_resource
    (rid metric_name : string) (first : Sample) (samples : list Sample)
    (more : list (string * list Sample))
    (rest : list (string * list (string * list Sample)))
    (rd : ResourcesDefinition) (msg : string) (d : Dispatcher) :
  _get_resource_definition env conf metric_name = Some rd ->
  cfg_ignore rd = false ->
  let post := post_measure (resource_type rd) rid metric_name
                (measures_of (first :: samples)) in
  gnocchi env (history d) post = Some (UnexpectedError msg) ->
  process_resources env conf
    ((rid, (metric_name, first :: samples) :: more) :: rest) d
  = process_resources env conf rest
      (extend d [Gnocchi post (Some (UnexpectedError msg)); Log ERROR msg]).
Proof.
  intros Hrd Hig post Hpost. cbn [process_resources].
  unfold mbind at 1, M_bind at 1.
  unfold _process_resource, log_and_ignore_unexpected_workflow_error.
  unfold try_except, mbind at 1, M_bind at 1.
  rewrite (process_metric_groups_first_post_raises _ _ _ _ _ rd _ d Hrd Hig
             Hpost) by discriminate.
  unfold log, emit, extend. simpl. by rewrite <- app_assoc.
Qed.

(** X14. When the first post of a resource group raises an exception that
    is neither [NoSuchMetric] nor an [UnexpectedError], the exception
    leaves the batch: nothing more is sent for that resource or for the
    resources after it. *)
Theorem other_backend_errors_end_the_batch
    (rid metric_name : string) (first : Sample) (samples : list Sample)
    (more : list (string * list Sample))
    (rest : list (string * list (string * list Sample)))
    (rd : ResourcesDefinition) (e : Exn) (d : Dispatcher) :
  _get_resource_definition env conf metric_name = Some rd ->
  cfg_ignore rd = false ->
  let post := post_measure (resource_type rd) rid metric_name
                (measures_of (first :: samples)) in
  gnocchi env (history d) post = Some e ->
  e <> NoSuchMetric ->
  (forall msg, e <> UnexpectedError msg) ->
  process_resources env conf
    ((rid, (metric_name, first :: samples) :: more) :: rest) d
  = (Raise e, extend d [Gnocchi post (Some e)]).
Proof.
  intros Hrd Hig post Hpost Hne Hun. cbn [process_resources].
  unfold mbind at 1, M_bind at 1.
  unfold _process_resource, log_and_ignore_unexpected_workflow_error.
  unfold try_except, mbind at 1, M_bind at 1.
  rewrite (process_metric_groups_first_post_raises _ _ _ _ _ rd _ d Hrd Hig
             Hpost Hne).
  destruct e; try reflexivity. by destruct (Hun msg).
Qed.

(** What the creation stage of a repair appends: no post and no
    [create_metric]. *)
Lemma create_resource_unless_cached_no_metric (rt : string)
    (resource : gmap string PyVal) (d : Dispatcher) :
  exists evs,
    (create_resource_unless_cached env conf rt resource d).2 = extend d evs
    /\ count is_post evs = 0 /\ count is_create_metric evs = 0.
Proof.
  rewrite create_resource_unless_cached_run. destruct (cache conf).
  - destruct (resource !! "id") as [[| s |m]|] eqn:Hid;
      try (exists []; unfold cache_guarded, getitem, mbind, M_bind;
           rewrite Hid; simpl; rewrite extend_nil;
           split; [reflexivity|unfold count; simpl; lia]).
    rewrite (cache_guarded_run env _ _ _ _ s d Hid). cbn zeta.
    destruct (_ || _); [|destruct (bool_decide _);
                          [|destruct (gnocchi env _ _)]];
      eexists; (split; [reflexivity|]); unfold count; simpl; lia.
  - rewrite call_run. eexists. split; [reflexivity|].
    unfold count; simpl; lia.
Qed.

(** The resource dictionary of a meter group holds the metrics of the
    definition unless an attribute is named [metrics]. *)
Lemma resource_metrics (rid : string) (first : Sample)
    (rd : ResourcesDefinition) (extra : gmap string string) :
  extra !! "metrics" = None ->
  ((PStr <$> extra) ∪ new_resource rid first rd) !! "metrics"
  = Some (PMetrics (metrics rd)).
Proof.
  intros Hextra. rewrite lookup_union_r by (by rewrite lookup_fmap, Hextra).
  unfold new_resource. by rewrite !lookup_insert_ne, lookup_insert_eq by done.
Qed.

(** X15. A meter that a definition matches by a pattern only, without
    being one of its [metrics] entries, cannot be repaired: after a post
    answered [NoSuchMetric] no metric is created, the measures are not
    posted again, and an exception leaves the loop. *)
Theorem meter_matched_by_pattern_only_is_not_repaired
    (rid : string) (loc : Locals) (metric_name : string) (first : Sample)
    (samples : list Sample) (rd : ResourcesDefinition) (d : Dispatcher) :
  _get_resource_definition env conf metric_name = Some rd ->
  cfg_ignore rd = false ->
  metric_name ∉ cfg_metrics rd ->
  extend_extra rd (first :: samples) (resource_extra loc) !! "metrics" = None ->
  let post := post_measure (resource_type rd) rid metric_name
                (measures_of (first :: samples)) in
  gnocchi env (history d) post = Some NoSuchMetric ->
  exists e evs,
    process_metric_group env conf rid loc (metric_name, first :: samples) d
    = (Raise e, extend d (Gnocchi post (Some NoSuchMetric) :: evs))
    /\ count is_post evs = 0
    /\ count is_create_metric evs = 0.
Proof.
  intros Hrd Hig Hnot Hextra post Hpost.
  rewrite (process_metric_group_run _ _ _ _ _ rd d Hrd Hig). cbn zeta.
  rewrite post_with_repair_run. cbn zeta. fold post. rewrite Hpost.
  rewrite _ensure_resource_and_metric_run.
  set (resource := (PStr <$> _) ∪ _).
  set (d0 := extend d [Gnocchi post (Some NoSuchMetric)]).
  assert (Hm : resource !! "metrics" = Some (PMetrics (metrics rd)))
    by (by apply resource_metrics).
  assert (Hp : metrics rd !! metric_name = None).
  { unfold metrics. rewrite metrics_fold_lookup.
    by rewrite bool_decide_eq_false_2. }
  destruct (create_resource_unless_cached_no_metric (resource_type rd)
              resource d0) as (evs & Hd & Hposts & Hmetrics).
  destruct (create_resource_unless_cached env conf (resource_type rd)
              resource d0) as [r d1]. simpl in Hd. subst d1.
  assert (Hfail := create_metric_unless_exists_undeclared env
                     (resource_type rd) resource metric_name (metrics rd)
                     (extend d0 evs) Hm Hp).
  assert (Hd0 : extend d0 evs
                = extend d (Gnocchi post (Some NoSuchMetric) :: evs))
    by (unfold d0; by rewrite extend_extend).
  destruct r as [[]|e]; cbn beta iota.
  - rewrite Hfail, Hd0. eauto.
  - destruct e; cbn beta iota; rewrite ?Hfail, Hd0; eauto.
Qed.

End FailureFacts.

(** ** The dispatcher: meters that are passed over, and a failed lookup *)

Section PassedOverFacts.
Import Batching Gnocchi MoreGnocchi.
Context (env : Env) (conf : Conf).

Lemma process_metric_groups_passed_over (rid : string)
    (groups : list (string * list Sample)) (loc : Locals) (d : Dispatcher) :
  Forall (fun group => passed_over env conf group.1 = true) groups ->
  process_metric_groups env conf rid groups loc d
  = (Ok loc, extend d (warnings env conf groups)).
Proof.
  intros Hall. revert d.
  induction Hall as [|[metric_name samples] groups Hg _ IH]; intros d.
  - simpl. by rewrite extend_nil.
  - cbn [process_metric_groups]. unfold mbind at 1, M_bind at 1.
    unfold passed_over in Hg. unfold warnings. simpl in *.
    fold (warnings env conf groups). unfold process_metric_group.
    destruct (_get_resource_definition env conf metric_name) as [rd|].
    + rewrite Hg. unfold mret, M_ret. by rewrite IH.
    + unfold mbind, M_bind, mret, M_ret, log, emit. simpl.
      rewrite IH. unfold extend. simpl. by rewrite <- app_assoc.
Qed.

(** X16. A resource group all of whose meters are passed over (no
    definition matches them, or the first that does is marked [ignore])
    makes no call at all: the run returns after one warning for each meter
    that no definition matches. *)
Theorem unhandled_meters_are_only_warned_about (rid : string)
    (groups : list (string * list Sample)) (d : Dispatcher) :
  Forall (fun group => passed_over env conf group.1 = true) groups ->
  _process_resource env conf rid groups d
  = (Ok tt, extend d (warnings env conf groups))
  /\ Forall (fun e => e = Log WARN "metric %s is not handled by gnocchi")
       (warnings env conf groups).
Proof.
  intros Hall. split.
  - unfold _process_resource, log_and_ignore_unexpected_workflow_error.
    unfold try_except, mbind, M_bind.
    rewrite (process_metric_groups_passed_over rid groups _ d Hall).
    unfold reconcile_attributes. simpl.
    by rewrite bool_decide_eq_false_2 by (intros Hne; by apply Hne).
  - unfold warnings. clear Hall.
    induction groups as [|group groups IH]; simpl; [constructor|].
    destruct (_get_resource_definition env conf group.1); simpl;
      [exact IH|by constructor].
Qed.

(** X17. With the filter enabled, a batch that arrives while the project
    of the service is not known and cannot be looked up is lost: the
    exception of the lookup leaves [record_metering_data] before anything
    is sent, the lock is released, and the project stays unknown, so that
    the next batch looks it up again. *)
Theorem failed_project_lookup_loses_the_batch (s : Sample)
    (data : list Sample) (e : Exn) (d : Dispatcher) :
  filter_service_activity conf = true ->
  _gnocchi_project_id d = None ->
  tenants_find env (history d ++ [Acquire _gnocchi_project_id_lock])
    (filter_project conf) = Raise e ->
  record_metering_data env conf (s :: data) d
  = (Raise e,
     extend d [Acquire _gnocchi_project_id_lock;
               TenantsFind (filter_project conf) (Raise e);
               Log EXCEPTION "fail to retrieve user of Gnocchi service";
               Release _gnocchi_project_id_lock]).
Proof.
  intros Hf Hnone Hfind. unfold record_metering_data.
  unfold mbind at 1, M_bind at 1.
  rewrite (drop_gnocchi_activity_resolves env conf d s data Hf).
  rewrite (gnocchi_project_id_resolve env conf d Hnone). cbn zeta.
  by rewrite Hfind.
Qed.

End PassedOverFacts.

(** ** The dispatcher: the mandatory fields of a definition *)

Section MandatoryFieldFacts.
Import Batching Gnocchi MoreGnocchi.

Lemma check_mandatory_fields_ok (fields : list (string * FieldType))
    (cfg : gmap string CfgValue) :
  check_mandatory_fields fields cfg = Ok tt
  <-> Forall (fun ft => exists v, cfg !! ft.1 = Some v
                                  /\ isinstance v ft.2 = true) fields.
Proof.
  induction fields as [|[field field_type] fields IH]; simpl.
  - split; [constructor|reflexivity].
  - destruct (cfg !! field) as [v|] eqn:Hv.
    + destruct (isinstance v field_type) eqn:Hi.
      * rewrite IH. split.
        -- intros Hall. constructor; [|exact Hall]. simpl. eauto.
        -- intros Hall. by inversion Hall.
      * split; [discriminate|]. intros Hall. inversion Hall as [|? ? Hx _].
        destruct Hx as (v' & Hv' & Hi'). simpl in *. congruence.
    + split; [discriminate|]. intros Hall. inversion Hall as [|? ? Hx _].
      destruct Hx as (v' & Hv' & _). simpl in *. congruence.
Qed.

(** X20. In whatever order the mandatory fields are checked, a definition
    is accepted by the check exactly when its [resource_type] is a string
    and its [metrics] is a list. *)
Theorem definition_needs_a_type_and_a_list_of_metrics
    (fields : list (string * FieldType)) (cfg : gmap string CfgValue) :
  Permutation fields MANDATORY_FIELDS ->
  check_mandatory_fields fields cfg = Ok tt
  <-> (exists s, cfg !! "resource_type" = Some (CfgStr s))
      /\ (exists items, cfg !! "metrics" = Some (CfgList items)).
Proof.
  intros Hperm. rewrite check_mandatory_fields_ok.
  rewrite Hperm.
  unfold MANDATORY_FIELDS. split.
  - intros Hall. inversion Hall as [|? ? (v1 & Hv1 & Hi1) Hall']; subst.
    inversion Hall' as [|? ? (v2 & Hv2 & Hi2) _]; subst. simpl in *.
    destruct v1; try discriminate. destruct v2; try discriminate. eauto.
  - intros [[s Hs] [items Hitems]].
    repeat constructor; simpl; eauto.
Qed.

End MandatoryFieldFacts.

(** ** The dispatcher: what the grouping of a batch guarantees *)

Section MoreGroupingFacts.
Import Batching Gnocchi MoreGnocchi.

Lemma insert_by_permutation {A K : Type} (key : A -> K)
    (ltb : K -> K -> bool) (x : A) (l : list A) :
  Permutation (insert_by key ltb x l) (x :: l).
Proof.
  induction l as [|y l IH]; simpl; [reflexivity|].
  destruct (ltb (key y) (key x)); [|reflexivity].
  rewrite IH. apply perm_swap.
Qed.

Lemma sort_by_permutation {A K : Type} (key : A -> K)
    (ltb : K -> K -> bool) (l : list A) :
  Permutation (sort_by key ltb l) l.
Proof.
  induction l as [|x l IH]; simpl; [reflexivity|].
  by rewrite insert_by_permutation, IH.
Qed.

(** X18. Grouping loses and duplicates no sample: the samples of the
    groups, read in the order in which the groups are processed, are the
    sorted batch, which is a permutation of the batch. *)
Theorem grouping_keeps_every_sample (data : list Sample) :
  flatten (grouped data) = sort_by sort_key key_ltb data
  /\ Permutation (flatten (grouped data)) data.
Proof.
  assert (Hflat : flatten (grouped data) = sort_by sort_key key_ltb data).
  { unfold flatten, grouped.
    rewrite <- (groupby_concat resource_id (sort_by sort_key key_ltb data))
      at 2.
    induction (groupby resource_id (sort_by sort_key key_ltb data))
      as [|[rid samples] gs IH]; simpl; [reflexivity|].
    by rewrite groupby_concat, IH. }
  split; [exact Hflat|]. rewrite Hflat. apply sort_by_permutation.
Qed.

(** *** The keys of the groups of a sorted list *)

Section Keys.
Context {A : Type} (key : A -> string).

Lemma groupby_keys_elem (l : list A) (k : string) :
  k ∈ map fst (groupby key l) -> exists x, x ∈ l /\ key x = k.
Proof.
  revert k. induction l as [|x l IH]; intros k; simpl.
  - intros Hk. by apply elem_of_nil in Hk.
  - destruct (groupby key l) as [|[k0 g] gs]; simpl in *.
    + intros Hk. apply list_elem_of_singleton in Hk as ->.
      exists x. split; [by left|reflexivity].
    + destruct (String.eqb_spec (key x) k0) as [Hk0|Hk0]; simpl; intros Hk.
      * destruct (IH k Hk) as (y & Hy & Hky). exists y. split; [by right|done].
      * apply elem_of_cons in Hk as [->|Hk].
        -- exists x. split; [by left|reflexivity].
        -- destruct (IH k Hk) as (y & Hy & Hky).
           exists y. split; [by right|done].
Qed.

(** The keys of the groups of a list whose keys never decrease increase
    strictly. *)
Lemma groupby_keys_increasing (l : list A) :
  StronglySorted
    (fun x y => String.compare (key x) (key y) = Lt \/ key x = key y) l ->
  StronglySorted (fun a b => String.compare a b = Lt)
    (map fst (groupby key l)).
Proof.
  induction 1 as [|x l Hs IH Hall]; simpl; [constructor|].
  destruct (groupby key l) as [|[k0 g] gs] eqn:Hg; simpl in *.
  - repeat constructor.
  - destruct (String.eqb_spec (key x) k0) as [Hk0|Hk0]; simpl; [exact IH|].
    constructor; [exact IH|].
    assert (Hkey : forall k, k ∈ k0 :: map fst gs ->
                             String.compare (key x) k = Lt \/ key x = k).
    { intros k Hk.
      destruct (groupby_keys_elem l k) as (y & Hy & Hky).
      - by rewrite Hg.
      - rewrite Forall_forall in Hall. subst k. by apply Hall. }
    assert (Hx0 : String.compare (key x) k0 = Lt).
    { destruct (Hkey k0) as [?|?]; [by left|done|done]. }
    apply StronglySorted_inv in IH as [_ Hgs].
    rewrite Forall_forall in Hgs. apply Forall_forall. intros k Hk.
    apply elem_of_cons in Hk as [->|Hk]; [exact Hx0|].
    eapply string_compare_lt_trans; [exact Hx0|by apply Hgs].
Qed.

Lemma increasing_NoDup (l : list string) :
  StronglySorted (fun a b => String.compare a b = Lt) l -> NoDup l.
Proof.
  induction 1 as [|k l Hs IH Hall]; constructor; [|exact IH].
  intros Hin. rewrite Forall_forall in Hall. specialize (Hall k Hin).
  simpl in Hall. rewrite string_compare_refl in Hall. discriminate.
Qed.

End Keys.

Lemma StronglySorted_impl {A : Type} (R R' : A -> A -> Prop) (P : A -> Prop)
    (l : list A) :
  (forall x y, P x -> P y -> R x y -> R' x y) ->
  Forall P l -> StronglySorted R l -> StronglySorted R' l.
Proof.
  intros Himpl HP Hs. induction Hs as [|x l Hs IH Hall]; [constructor|].
  apply Forall_cons in HP as [Hx HP]. constructor; [by apply IH|].
  rewrite Forall_forall in *. intros y Hy. apply Himpl; auto.
Qed.

Lemma StronglySorted_app_inv {A : Type} (R : A -> A -> Prop) (a b : list A) :
  StronglySorted R (a ++ b) -> StronglySorted R a /\ StronglySorted R b.
Proof.
  induction a as [|x a IH]; simpl; intros Hs; [split; [constructor|done]|].
  apply StronglySorted_inv in Hs as [Hs Hall].
  destruct (IH Hs) as [Ha Hb]. split; [|exact Hb].
  constructor; [exact Ha|]. apply Forall_app in Hall. tauto.
Qed.

Lemma StronglySorted_concat {A : Type} (R : A -> A -> Prop)
    (ls : list (list A)) :
  StronglySorted R (concat ls) -> Forall (StronglySorted R) ls.
Proof.
  induction ls as [|l ls IH]; simpl; intros Hs; [constructor|].
  apply StronglySorted_app_inv in Hs as [Hl Hls]. constructor; auto.
Qed.

(** What the sort key gives for two samples in sorted order. *)
Lemma sorted_resource_ids (x y : Sample) :
  key_ltb (sort_key y) (sort_key x) = false ->
  String.compare (resource_id x) (resource_id y) = Lt
  \/ resource_id x = resource_id y.
Proof.
  unfold key_ltb, sort_key. simpl.
  destruct (String.compare (resource_id y) (resource_id x)) eqn:Hc;
    intros Hlt; try discriminate.
  - right. symmetry. by apply String.compare_eq_iff.
  - left. by apply string_compare_gt_lt.
Qed.

Lemma sorted_counter_names (x y : Sample) :
  resource_id x = resource_id y ->
  key_ltb (sort_key y) (sort_key x) = false ->
  String.compare (counter_name x) (counter_name y) = Lt
  \/ counter_name x = counter_name y.
Proof.
  unfold key_ltb, sort_key. simpl. intros ->.
  rewrite string_compare_refl. unfold String.ltb.
  destruct (String.compare (counter_name y) (counter_name x)) eqn:Hc;
    intros Hlt; try discriminate.
  - right. symmetry. by apply String.compare_eq_iff.
  - left. by apply string_compare_gt_lt.
Qed.

(** X19. In a grouped batch every resource has one group and, within it,
    every meter has one group; no group of samples is empty, and the
    samples of a group are those of its resource and of its meter. *)
Theorem each_resource_and_meter_is_one_group (data : list Sample) :
  NoDup (map fst (grouped data))
  /\ Forall
       (fun g =>
          NoDup (map fst g.2)
          /\ Forall
               (fun mg =>
                  mg.2 <> []
                  /\ Forall (fun s => resource_id s = g.1
                                      /\ counter_name s = mg.1) mg.2)
               g.2)
       (grouped data).
Proof.
  unfold grouped.
  set (sorted := sort_by sort_key key_ltb data).
  assert (Hsorted : sorted_by sort_key key_ltb sorted)
    by (apply sort_by_sorted;
        [apply key_ltb_irrefl|apply key_ltb_trans|apply key_ltb_connex]).
  unfold sorted_by in Hsorted.
  split.
  - rewrite map_map.
    replace (map _ (groupby resource_id sorted))
      with (map fst (groupby resource_id sorted))
      by (apply map_ext; by intros []).
    apply increasing_NoDup, groupby_keys_increasing.
    eapply (StronglySorted_impl _ _ (fun _ => True)); [|by apply Forall_true|exact Hsorted].
    intros x y _ _. apply sorted_resource_ids.
  - pose proof (groupby_groups resource_id sorted) as Hgroups.
    assert (Hruns : Forall (fun g => StronglySorted
                                       (fun x y => key_ltb (sort_key y)
                                                     (sort_key x) = false)
                                       g.2)
                      (groupby resource_id sorted)).
    { apply Forall_fmap.
      apply (StronglySorted_concat _ (map snd (groupby resource_id sorted))).
      by rewrite groupby_concat. }
    apply Forall_fmap. rewrite Forall_forall in *.
    intros [rid samples] Hin. specialize (Hgroups _ Hin) as [_ Hrid].
    specialize (Hruns _ Hin). simpl in *. split.
    + apply increasing_NoDup, groupby_keys_increasing.
      eapply (StronglySorted_impl _ _ (fun s => resource_id s = rid));
        [|exact Hrid|exact Hruns].
      intros x y Hx Hy. apply sorted_counter_names. congruence.
    + pose proof (groupby_groups counter_name samples) as Hmeters.
      rewrite Forall_forall in *. intros [name group] Hmg.
      destruct (Hmeters _ Hmg) as [Hne Hname]. simpl in *.
      split; [exact Hne|].
      rewrite Forall_forall in *. intros s Hs. split; [|by apply Hname].
      apply Hrid. rewrite <- (groupby_concat counter_name samples).
      apply list_elem_of_In, in_concat. exists group.
      split; [|by apply list_elem_of_In].
      apply in_map_iff. exists (name, group).
      split; [reflexivity|by apply list_elem_of_In].
Qed.

End MoreGroupingFacts.

(** ** The further properties on concrete runs *)

Section MoreRuns.
Import Discovery Examples MoreExamples.

Lemma first_discover_then_within_period_witness :
  instance_get_all_by_host nova_500s_later 0 None
  = Ok [vm1_deleted; vm2_active]
  /\ (0 <= utcnow nova_500s_later 1 - utcnow nova_500s_later 0
      < 120 * 1000000)%Z
  /\ (discover nova_500s_later (discover nova_500s_later (init 120)).2).1
     = (discover nova_500s_later (init 120)).1.
Proof.
  assert (Hclock : (0 <= utcnow nova_500s_later 1 - utcnow nova_500s_later 0
                    < 120 * 1000000)%Z) by (simpl; lia).
  split; [reflexivity|]. split; [exact Hclock|].
  exact (proj1 (proj2 (proj2 (proj2
           (first_discover_then_within_period nova_500s_later 120
              [vm1_deleted; vm2_active] eq_refl Hclock))))).
Defined.

Lemma failed_enumeration_changes_nothing_witness :
  instance_get_all_by_host nova_down_500s_later
    (length (nova_calls discovery_at_0)) (last_run discovery_at_0)
  = Raise "connection refused"
  /\ (discover nova_down_500s_later discovery_at_0).1
     = Raise "connection refused"
  /\ instances (discover nova_down_500s_later discovery_at_0).2
     = instances discovery_at_0
  /\ last_run (discover nova_down_500s_later discovery_at_0).2 = Some 0%Z.
Proof.
  split; [reflexivity|].
  destruct (failed_enumeration_changes_nothing nova_down_500s_later
              discovery_at_0 "connection refused")
    as (Hraised & Hinstances & Hlast & _).
  - intros t [= <-]. reflexivity.
  - reflexivity.
  - split; [exact Hraised|]. split; [exact Hinstances|exact Hlast].
Defined.

Lemma whole_days_are_not_counted_witness :
  last_run discovery_at_0 = Some 0%Z
  /\ (utcnow nova_next_day (clock_reads discovery_at_0) - 0
      = 1 * 86400000000 + 5000000)%Z
  /\ nova_calls (discover nova_next_day discovery_at_0).2 = [None].
Proof.
  split; [reflexivity|]. split; [reflexivity|].
  rewrite (whole_days_are_not_counted nova_next_day discovery_at_0 0 1 5000000
             eq_refl eq_refl); [reflexivity|lia|simpl; lia].
Defined.

Lemma memory_info_failure_is_isolated_witness :
  MorePollsters.memory_info_value (MorePollsters.MemoryTotalPollster int_of)
    memory_info_of vm1_active
  = Raise (Pollsters.InstanceNoQGAException "no agent")
  /\ Pollsters.samples
       (MorePollsters.memory_info_get_samples (float := Z)
          (MorePollsters.MemoryTotalPollster int_of) memory_info_of
          ([vm2_active] ++ vm1_active :: [vm2_active]))
     = Pollsters.samples
         (MorePollsters.memory_info_get_samples (float := Z)
            (MorePollsters.MemoryTotalPollster int_of) memory_info_of
            [vm2_active])
       ++ Pollsters.samples
            (MorePollsters.memory_info_get_samples (float := Z)
               (MorePollsters.MemoryTotalPollster int_of) memory_info_of
               [vm2_active]).
Proof.
  split; [reflexivity|].
  exact (proj1 (proj2 (memory_info_failure_is_isolated (float := Z)
                         memory_info_of
                         (MorePollsters.MemoryTotalPollster int_of)
                         [vm2_active] [vm2_active] vm1_active _ eq_refl))).
Defined.

Lemma memory_unused_is_total_minus_used_witness :
  memory_info_of vm2_active
  = Ok (Some {[ "total" := 2048%Z; "used" := 512%Z ]})
  /\ Pollsters.samples
       (MorePollsters.memory_info_body (float := Z)
          (MorePollsters.MemoryUnusedPollster int_of) memory_info_of
          vm2_active)
     = [Pollsters.mkSample vm2_active "memory.unused" Pollsters.TYPE_GAUGE
          "MB" (Pollsters.VInt (2048 - 512))].
Proof.
  split; [reflexivity|].
  apply (proj1 (memory_unused_is_total_minus_used (float := Z) int_of
                  memory_info_of vm2_active
                  {[ "total" := 2048%Z; "used" := 512%Z ]} 2048%Z 2048%Z
                  eq_refl eq_refl eq_refl) 512%Z 512%Z); reflexivity.
Defined.

Lemma missing_flavor_name_ends_the_sampling_witness :
  Forall (fun i => is_Some (flavor_of i !! "name")) [vm1_active]
  /\ flavor_of vm2_active !! "name" = None
  /\ (MorePollsters.instance_flavor_get_samples (float := Z) flavor_of
        ([vm1_active] ++ vm2_active :: [vm1_active])).2
     = Some (Pollsters.OtherException "KeyError").
Proof.
  assert (Hbefore : Forall (fun i => is_Some (flavor_of i !! "name"))
                      [vm1_active]).
  { repeat constructor. by exists "m1.small". }
  split; [exact Hbefore|]. split; [reflexivity|].
  exact (proj1 (proj2 (missing_flavor_name_ends_the_sampling (float := Z)
                         flavor_of [vm1_active] [vm1_active] vm2_active
                         Hbefore eq_refl))).
Defined.

Lemma failing_instance_is_skipped_and_sampling_goes_on_witness :
  memory_usage_vm1_gone vm1_active 60
  = Raise (Pollsters.InstanceNotFoundException "vm-1 not found")
  /\ Pollsters.samples
       (Pollsters.memory_usage_get_samples memory_usage_vm1_gone
          "LibvirtInspector" 60 ([vm2_active] ++ vm1_active :: [vm2_active]))
     = Pollsters.samples
         (Pollsters.memory_usage_get_samples memory_usage_vm1_gone
            "LibvirtInspector" 60 [vm2_active])
       ++ Pollsters.samples
            (Pollsters.memory_usage_get_samples memory_usage_vm1_gone
               "LibvirtInspector" 60 [vm2_active])
  /\ MorePollsters.described_value str_of described_of vm1_active
     = Raise Pollsters.NotImplementedError
  /\ MorePollsters.described_samples (float := Z)
       (MorePollsters.described_get_samples str_of
          MorePollsters.InstanceSystemInfoPollster described_of
          ([vm2_active] ++ vm1_active :: [vm2_active]))
     = MorePollsters.described_samples
         (MorePollsters.described_get_samples str_of
            MorePollsters.InstanceSystemInfoPollster described_of [vm2_active])
       ++ MorePollsters.described_samples
            (MorePollsters.described_get_samples str_of
               MorePollsters.InstanceSystemInfoPollster described_of
               [vm2_active]).
Proof.
  destruct (failing_instance_is_skipped_and_sampling_goes_on int_of str_of
              float_of memory_usage_vm1_gone memory_resident_vm1_off
              memory_info_of described_of oom_status_vm2_only described_of
              ping_delay_of "LibvirtInspector" 60 flavor_of
              [vm2_active] [vm2_active] vm1_active)
    as (Husage & _ & _ & Hsystem & _).
  split; [reflexivity|]. split; [exact (proj2 (Husage _ eq_refl))|].
  split; [reflexivity|]. exact (proj2 (Hsystem _ eq_refl)).
Defined.

(** C9 as worded fails for [InstanceFlavorPollster]. The flavor of [vm-2]
    has no name: the generator ends with the [KeyError] after the sample
    of the instance before [vm-2], and the instance after it is not
    sampled. *)
Lemma nameless_flavor_ends_the_sampling :
  flavor_of vm2_active !! "name" = None
  /\ MorePollsters.instance_flavor_get_samples (float := Z) flavor_of
       ([vm1_active] ++ vm2_active :: [vm1_active])
     = ([Pollsters.mkSample vm1_active "instance:m1.small"
           Pollsters.TYPE_GAUGE "instance" (Pollsters.VInt 1)],
        Some (Pollsters.OtherException "KeyError"))
  /\ ~ MorePollsters.isolation_spec
        (MorePollsters.instance_flavor_get_samples (float := Z) flavor_of)
        [vm1_active] vm2_active [vm1_active].
Proof.
  split; [reflexivity|]. split; [vm_compute; reflexivity|].
  intros [Hended _]. vm_compute in Hended. discriminate.
Qed.

End MoreRuns.

(** ** The further properties of the dispatcher on concrete runs *)

Section MoreDispatcherRuns.
Import Batching Gnocchi MoreGnocchi Examples MoreDispatcherExamples.

(** An entry [archive_policy: null] gives the empty policy, not the
    default. *)
Lemma null_archive_policy_is_not_the_default :
  metrics null_policy_definition !! "volume.size" = Some NoPolicy
  /\ metrics any_meter_definition !! "*" = Some (ArchivePolicyName "low").
Proof. split; reflexivity. Qed.

Lemma unexpected_error_skips_the_rest_of_the_resource_witness :
  gnocchi backend_post_500 (history fresh)
    (post_measure "instance" "vm-1" "disk.read" (measures_of [disk_at_10_00]))
  = Some (UnexpectedError "500")
  /\ process_resources backend_post_500 (conf_with false false)
       [("vm-1", [("disk.read", [disk_at_10_00]);
                  ("memory.usage", [memory_at_10_00])])] fresh
     = (Ok tt,
        extend fresh
          [Gnocchi (post_measure "instance" "vm-1" "disk.read"
                      (measures_of [disk_at_10_00]))
             (Some (UnexpectedError "500"));
           Log ERROR "500"]).
Proof.
  split; [reflexivity|].
  exact (unexpected_error_skips_the_rest_of_the_resource backend_post_500
           (conf_with false false) "vm-1" "disk.read" disk_at_10_00 []
           [("memory.usage", [memory_at_10_00])] [] instance_definition
           "500" fresh eq_refl eq_refl eq_refl).
Defined.

Lemma other_backend_errors_end_the_batch_witness :
  gnocchi backend_unreachable (history fresh)
    (post_measure "instance" "vm-1" "disk.read" (measures_of [disk_at_10_00]))
  = Some (OtherException "connection refused")
  /\ process_resources backend_unreachable (conf_with false false)
       [("vm-1", [("disk.read", [disk_at_10_00])]);
        ("vm-9", [("memory.usage", [sample_of_gnocchi])])] fresh
     = (Raise (OtherException "connection refused"),
        extend fresh
          [Gnocchi (post_measure "instance" "vm-1" "disk.read"
                      (measures_of [disk_at_10_00]))
             (Some (OtherException "connection refused"))]).
Proof.
  split; [reflexivity|].
  apply (other_backend_errors_end_the_batch backend_unreachable
           (conf_with false false) "vm-1" "disk.read" disk_at_10_00 [] []
           [("vm-9", [("memory.usage", [sample_of_gnocchi])])]
           instance_definition (OtherException "connection refused") fresh
           eq_refl eq_refl eq_refl); discriminate.
Defined.

Lemma meter_matched_by_pattern_only_is_not_repaired_witness :
  _get_resource_definition backend_no_metric conf_any_meter "memory.usage"
  = Some any_meter_definition
  /\ ("memory.usage" ∉ cfg_metrics any_meter_definition)
  /\ exists e evs,
       process_metric_group backend_no_metric conf_any_meter "vm-1"
         {| resource_extra := ∅; bound := None |}
         ("memory.usage", [memory_at_10_00]) fresh
       = (Raise e,
          extend fresh
            (Gnocchi (post_measure "generic" "vm-1" "memory.usage"
                        (measures_of [memory_at_10_00]))
               (Some NoSuchMetric) :: evs))
       /\ count is_post evs = 0
       /\ count is_create_metric evs = 0.
Proof.
  assert (Hnot : "memory.usage" ∉ cfg_metrics any_meter_definition).
  { intros Hin. apply list_elem_of_singleton in Hin. discriminate. }
  split; [reflexivity|]. split; [exact Hnot|].
  apply (meter_matched_by_pattern_only_is_not_repaired backend_no_metric
           conf_any_meter "vm-1" {| resource_extra := ∅; bound := None |}
           "memory.usage" memory_at_10_00 [] any_meter_definition fresh
           eq_refl eq_refl Hnot); reflexivity.
Defined.

Lemma unhandled_meters_are_only_warned_about_witness :
  passed_over backend_ok (conf_with false false) "cpu" = true
  /\ _process_resource backend_ok (conf_with false false) "vm-1"
       [("cpu", [cpu_at_10_00])] fresh
     = (Ok tt,
        extend fresh [Log WARN "metric %s is not handled by gnocchi"]).
Proof.
  split; [reflexivity|].
  apply (unhandled_meters_are_only_warned_about backend_ok
           (conf_with false false) "vm-1" [("cpu", [cpu_at_10_00])] fresh).
  apply List.Forall_cons; [reflexivity|apply List.Forall_nil].
Defined.

Lemma failed_project_lookup_loses_the_batch_witness :
  tenants_find backend_without_keystone
    (history fresh ++ [Acquire _gnocchi_project_id_lock])
    (filter_project (conf_with true false))
  = Raise (OtherException "keystone is down")
  /\ (record_metering_data backend_without_keystone (conf_with true false)
        [memory_at_10_00] fresh).1
     = Raise (OtherException "keystone is down")
  /\ count is_backend_call
       (history (record_metering_data backend_without_keystone
                   (conf_with true false) [memory_at_10_00] fresh).2) = 0.
Proof.
  split; [reflexivity|].
  rewrite (failed_project_lookup_loses_the_batch backend_without_keystone
             (conf_with true false) memory_at_10_00 []
             (OtherException "keystone is down") fresh eq_refl eq_refl
             eq_refl).
  split; reflexivity.
Defined.

Lemma definition_needs_a_type_and_a_list_of_metrics_witness :
  Permutation metrics_first MANDATORY_FIELDS
  /\ check_mandatory_fields metrics_first instance_cfg = Ok tt.
Proof.
  assert (Hperm : Permutation metrics_first MANDATORY_FIELDS)
    by apply perm_swap.
  split; [exact Hperm|].
  apply (proj2 (definition_needs_a_type_and_a_list_of_metrics metrics_first
                  instance_cfg Hperm)).
  split; eexists; reflexivity.
Defined.

End MoreDispatcherRuns.
